(** * PCIe ATU window manager, configuration-space accessor and RTL8125
      descriptor-ring driver (pcie_test_impl.c): a shallow embedding.

    Integers are [Z] with the wrap-around of their C type written out
    ([u8], [u16], [u32], [u64]).

    Device registers are not memory: every volatile access, barrier, delay
    and cache-maintenance call is an [event] appended to a history, and the
    value a register read returns is an arbitrary function [hw_read] of the
    history so far and of the address.  A theorem that does not constrain
    [hw_read] therefore holds for every deterministic device.

    The descriptor rings and packet buffers live in memory shared with the
    DMA engine, without cache coherence.  They are held by slot index; what
    the driver sees changes only when it invalidates its cache, and is then
    an arbitrary function [dma_sync] of the history and of the memory
    before.  The caller's buffers are separate from that memory.

    [rtl8125_init] also reads 8-bit registers and stores to a 16-bit one:
    its accesses are kept in a trace of [io_event], and the value an 8-bit
    read returns is an arbitrary function [rtl_hw] of that trace and of the
    address.  The frame [send_ping] builds is a byte array, the packed
    headers being addressed by byte offset.

    Calls to the logger only print and are left out. *)

From Stdlib Require Import ZArith List Lia Bool.
Import ListNotations.
Local Open Scope Z_scope.

(** ** Machine integers *)

Definition u8 (x : Z) : Z := x mod 2 ^ 8.
Definition u16 (x : Z) : Z := x mod 2 ^ 16.
Definition u32 (x : Z) : Z := x mod 2 ^ 32.
Definition u64 (x : Z) : Z := x mod 2 ^ 64.

(** [~x] on a [uint32_t] / [uint16_t] operand. *)
Definition not32 (x : Z) : Z := u32 (Z.lnot x).

(** ** Constants of the source *)

Definition DBI_BASE : Z := 0xa40c00000.

Definition PCIE_CFG_COMMAND : Z := 0x04.

Definition PCIE_CMD_IO_ENABLE : Z := Z.shiftl 1 0.
Definition PCIE_CMD_MEM_ENABLE : Z := Z.shiftl 1 1.
Definition PCIE_CMD_BUS_MASTER : Z := Z.shiftl 1 2.
Definition PCIE_CMD_INT_DISABLE : Z := Z.shiftl 1 10.

Definition ATU_UNROLL_BASE_OFFSET : Z := 0x300000.
Definition ATU_REGION_SIZE : Z := 0x200.
Definition ATU_REGION_CTRL1 : Z := 0x00.
Definition ATU_REGION_CTRL2 : Z := 0x04.
Definition ATU_LOWER_BASE : Z := 0x08.
Definition ATU_UPPER_BASE : Z := 0x0C.
Definition ATU_LOWER_LIMIT : Z := 0x10.
Definition ATU_UPPER_LIMIT : Z := 0x14.
Definition ATU_LOWER_TARGET : Z := 0x18.
Definition ATU_UPPER_TARGET : Z := 0x1C.

Definition PCIE_ATU_REGION_INDEX1 : Z := 1.
Definition PCIE_ATU_TYPE_MEM : Z := 0x0.
Definition PCIE_ATU_TYPE_CFG0 : Z := 0x4.
(** [(1 << 31)] stored in a [uint32_t]. *)
Definition PCIE_ATU_ENABLE : Z := u32 (Z.shiftl 1 31).

Definition RTL8125_TxPoll : Z := 0x0090.

Definition DESC_OWN : Z := 0x80000000.
Definition DESC_EOR : Z := 0x40000000.
Definition DESC_FS : Z := 0x20000000.
Definition DESC_LS : Z := 0x10000000.

Definition NUM_TX_DESC : Z := 4.
Definition NUM_RX_DESC : Z := 4.
Definition RX_BUF_SIZE : Z := 2048.
Definition TX_BUF_SIZE : Z := 2048.

(** ** Events and histories *)

Inductive event : Type :=
| EvWrite32 (addr val : Z)      (* 32-bit store to a device register *)
| EvWrite8 (addr val : Z)       (* 8-bit store to a device register *)
| EvRead32 (addr val : Z)       (* 32-bit load from a device register *)
| EvBarrier                     (* DSB_SY() *)
| EvDelay (us : Z)              (* udelay(us) *)
| EvClean (addr len : Z)        (* clean_dcache_va_range *)
| EvInvalidate (addr len : Z).  (* invalidate_dcache_va_range *)

Definition history : Type := list event.

(** The value most recently stored to the 32-bit register at [a]. *)
Fixpoint last_write (h : history) (a : Z) : option Z :=
  match h with
  | [] => None
  | e :: h' =>
      match last_write h' a with
      | Some v => Some v
      | None =>
          match e with
          | EvWrite32 a' v => if a' =? a then Some v else None
          | _ => None
          end
      end
  end.

(** The value most recently loaded from the 32-bit register at [a]. *)
Fixpoint last_read (h : history) (a : Z) : option Z :=
  match h with
  | [] => None
  | e :: h' =>
      match last_read h' a with
      | Some v => Some v
      | None =>
          match e with
          | EvRead32 a' v => if a' =? a then Some v else None
          | _ => None
          end
      end
  end.

Definition is_write (e : event) : bool :=
  match e with EvWrite32 _ _ | EvWrite8 _ _ => true | _ => false end.

Definition is_delay (e : event) : bool :=
  match e with EvDelay _ => true | _ => false end.

(** Microseconds spent in [udelay] over a history. *)
Fixpoint elapsed_us (h : history) : Z :=
  match h with
  | [] => 0
  | EvDelay us :: h' => us + elapsed_us h'
  | _ :: h' => elapsed_us h'
  end.

(** ** A state monad over the history *)

Definition M (A : Type) : Type := history -> A * history.

Definition ret {A} (a : A) : M A := fun h => (a, h).

Definition bind {A B} (m : M A) (k : A -> M B) : M B :=
  fun h => let (a, h') := m h in k a h'.

Declare Scope io_scope.
Delimit Scope io_scope with io.
Notation "x <- m ;; k" := (bind m (fun x => k))
  (at level 100, m at next level, k at level 200, right associativity)
  : io_scope.
Notation "m ;; k" := (bind m (fun _ => k))
  (at level 100, k at level 200, right associativity) : io_scope.
Local Open Scope io_scope.

Definition emit (e : event) : M unit := fun h => (tt, h ++ [e]).

(** Modelled from the spec: [DSB_SY] is a macro of the platform headers,
    which are not part of the sources; it is the full memory and device
    ordering barrier that follows every register store. *)
Definition DSB_SY : M unit := emit EvBarrier.

(** [udelay] spins for [us * 100] iterations; only the requested time is
    recorded. *)
Definition udelay (us : Z) : M unit := emit (EvDelay us).

Section Atu.

(** The device: the value a 32-bit register read returns after history
    [h]. *)
Variable hw_read : history -> Z -> Z.

(** A volatile 32-bit store, [*reg = v]. *)
Definition store32 (reg v : Z) : M unit := emit (EvWrite32 reg v).

(** A volatile 32-bit load, [v = *reg]. *)
Definition load32 (reg : Z) : M Z :=
  fun h => let v := u32 (hw_read h reg) in (v, h ++ [EvRead32 reg v]).

(** Modelled from the spec: [read32] and [write32] are declared in
    mem/t_mmio.h, which is not part of the sources; they are the raw
    32-bit accesses at the given address. *)
Definition read32 (addr : Z) : M Z := load32 addr.
Definition write32 (value addr : Z) : M unit := store32 addr value.

(** Address of the control block of a region (unroll mode). *)
Definition atu_region_base (dbi_base region_index : Z) : Z :=
  let atu_base := u64 (dbi_base + ATU_UNROLL_BASE_OFFSET) in
  u64 (atu_base + u32 (region_index * ATU_REGION_SIZE)).

Definition atu_reg (dbi_base region_index off : Z) : Z :=
  u64 (atu_region_base dbi_base region_index + off).

(** The loop [while (retries--) { ... }] of [dw_pcie_setup_atu]. *)
Fixpoint atu_wait_enable (retries : nat) (reg_ctrl2 : Z) : M Z :=
  match retries with
  | O => ret (-1)
  | S retries' =>
      DSB_SY ;;
      val <- load32 reg_ctrl2 ;;
      DSB_SY ;;
      if negb (Z.land val PCIE_ATU_ENABLE =? 0) then ret 0
      else udelay 1000 ;; atu_wait_enable retries' reg_ctrl2
  end.

Definition dw_pcie_setup_atu
    (dbi_base region_index type cpu_addr pci_addr size : Z) : M Z :=
  let retries := 5%nat in
  let reg := atu_reg dbi_base region_index in
  let lower_base := u32 (Z.land cpu_addr 0xFFFFFFFF) in
  let upper_base := u32 (Z.shiftr cpu_addr 32) in
  store32 (reg ATU_LOWER_BASE) lower_base ;;
  DSB_SY ;;
  store32 (reg ATU_UPPER_BASE) upper_base ;;
  DSB_SY ;;
  let limit_addr := u64 (cpu_addr + size - 1) in
  let lower_limit := u32 (Z.land limit_addr 0xFFFFFFFF) in
  let upper_limit := u32 (Z.shiftr limit_addr 32) in
  store32 (reg ATU_LOWER_LIMIT) lower_limit ;;
  DSB_SY ;;
  store32 (reg ATU_UPPER_LIMIT) upper_limit ;;
  DSB_SY ;;
  let lower_target := u32 (Z.land pci_addr 0xFFFFFFFF) in
  let upper_target := u32 (Z.shiftr pci_addr 32) in
  store32 (reg ATU_LOWER_TARGET) lower_target ;;
  DSB_SY ;;
  store32 (reg ATU_UPPER_TARGET) upper_target ;;
  DSB_SY ;;
  store32 (reg ATU_REGION_CTRL1) type ;;
  DSB_SY ;;
  store32 (reg ATU_REGION_CTRL2) PCIE_ATU_ENABLE ;;
  DSB_SY ;;
  atu_wait_enable retries (reg ATU_REGION_CTRL2).

(** The eight register stores of [dw_pcie_setup_atu], in program order. *)
Definition atu_writes
    (dbi_base region_index type cpu_addr pci_addr size : Z) : list event :=
  let reg := atu_reg dbi_base region_index in
  let limit_addr := u64 (cpu_addr + size - 1) in
  [ EvWrite32 (reg ATU_LOWER_BASE) (u32 (Z.land cpu_addr 0xFFFFFFFF));
    EvWrite32 (reg ATU_UPPER_BASE) (u32 (Z.shiftr cpu_addr 32));
    EvWrite32 (reg ATU_LOWER_LIMIT) (u32 (Z.land limit_addr 0xFFFFFFFF));
    EvWrite32 (reg ATU_UPPER_LIMIT) (u32 (Z.shiftr limit_addr 32));
    EvWrite32 (reg ATU_LOWER_TARGET) (u32 (Z.land pci_addr 0xFFFFFFFF));
    EvWrite32 (reg ATU_UPPER_TARGET) (u32 (Z.shiftr pci_addr 32));
    EvWrite32 (reg ATU_REGION_CTRL1) type;
    EvWrite32 (reg ATU_REGION_CTRL2) PCIE_ATU_ENABLE ].

(** Each store is followed by a barrier. *)
Definition with_barriers (es : list event) : list event :=
  flat_map (fun e => [e; EvBarrier]) es.

(** One poll of the control register that read [v] with the enable bit
    set, and one that read it clear and then waited 1 ms. *)
Definition atu_poll_ok (reg_ctrl2 v : Z) : list event :=
  [EvBarrier; EvRead32 reg_ctrl2 v; EvBarrier].

Definition atu_poll_retry (reg_ctrl2 v : Z) : list event :=
  [EvBarrier; EvRead32 reg_ctrl2 v; EvBarrier; EvDelay 1000].

(** The two programmings of the swing region used by the accessors. *)
Definition map_cfg (dbi_base : Z) : M Z :=
  dw_pcie_setup_atu dbi_base PCIE_ATU_REGION_INDEX1 PCIE_ATU_TYPE_CFG0
    0xf3000000 0x00000000 0x100000.

Definition map_mem (dbi_base bar_phys : Z) : M Z :=
  dw_pcie_setup_atu dbi_base PCIE_ATU_REGION_INDEX1 PCIE_ATU_TYPE_MEM
    0x9c0100000 bar_phys 0x10000.

Definition pcie_config_read32
    (dbi_base cfg_base bar_phys offset : Z) (restore_memory : bool) : M Z :=
  r <- map_cfg dbi_base ;;
  if negb (r =? 0) then ret 0xFFFFFFFF
  else
    val <- read32 (u64 (cfg_base + offset)) ;;
    (if restore_memory && negb (bar_phys =? 0)
     then _ <- map_mem dbi_base bar_phys ;; ret tt
     else ret tt) ;;
    ret val.

(** The C function returns [void]. *)
Definition pcie_config_write32
    (dbi_base cfg_base bar_phys offset value : Z) (restore_memory : bool)
    : M unit :=
  r <- map_cfg dbi_base ;;
  if negb (r =? 0) then ret tt
  else
    write32 value (u64 (cfg_base + offset)) ;;
    if restore_memory && negb (bar_phys =? 0)
    then _ <- map_mem dbi_base bar_phys ;; ret tt
    else ret tt.

End Atu.

Section Enumeration.

Variable hw_read : history -> Z -> Z.

(** [cmd_val] and [status_val] are [uint16_t]: every assignment truncates
    to 16 bits the value computed in [int].  [(status_val << 16) | cmd_val]
    is computed in [int] too and converted to the [uint32_t] it is stored
    in. *)
Definition pcie_enable_device (dbi_base cfg_base bar_phys : Z) : M Z :=
  cmd_reg <- pcie_config_read32 hw_read dbi_base cfg_base bar_phys
               PCIE_CFG_COMMAND false ;;
  let cmd_val := u16 (Z.land cmd_reg 0xFFFF) in
  let status_val := u16 (Z.land (Z.shiftr cmd_reg 16) 0xFFFF) in
  let cmd_val := u16 (Z.lor cmd_val PCIE_CMD_MEM_ENABLE) in
  let cmd_val := u16 (Z.lor cmd_val PCIE_CMD_BUS_MASTER) in
  let cmd_val := u16 (Z.lor cmd_val PCIE_CMD_IO_ENABLE) in
  let cmd_val := u16 (Z.land cmd_val (Z.lnot PCIE_CMD_INT_DISABLE)) in
  let cmd_reg := u32 (Z.lor (Z.shiftl status_val 16) cmd_val) in
  pcie_config_write32 hw_read dbi_base cfg_base bar_phys
    PCIE_CFG_COMMAND cmd_reg false ;;
  cmd_reg <- pcie_config_read32 hw_read dbi_base cfg_base bar_phys
               PCIE_CFG_COMMAND true ;;
  let cmd_val := u16 (Z.land cmd_reg 0xFFFF) in
  if Z.land cmd_val PCIE_CMD_MEM_ENABLE =? 0 then ret (-1) else ret 0.

(** The result is [(return value, *bar_addr, *bar_size)]. *)
Definition pcie_get_bar_info (dbi_base cfg_base bar_num : Z)
    : M (Z * Z * Z) :=
  let bar_offset := u32 (0x10 + u32 (bar_num * 4)) in
  bar_orig <- pcie_config_read32 hw_read dbi_base cfg_base 0 bar_offset false ;;
  pcie_config_write32 hw_read dbi_base cfg_base 0 bar_offset 0xFFFFFFFF false ;;
  bar_val <- pcie_config_read32 hw_read dbi_base cfg_base 0 bar_offset false ;;
  pcie_config_write32 hw_read dbi_base cfg_base 0 bar_offset bar_orig false ;;
  if negb (Z.land bar_val 0x1 =? 0) then
    let size_mask := Z.land bar_val 0xFFFFFFFC in
    let bar_size := u32 (not32 size_mask + 1) in
    let bar_addr := Z.land bar_orig 0xFFFFFFFC in
    ret (0, bar_addr, bar_size)
  else
    let size_mask := Z.land bar_val 0xFFFFFFF0 in
    let bar_size := u32 (not32 size_mask + 1) in
    let bar_addr := Z.land bar_orig 0xFFFFFFF0 in
    if Z.land bar_orig 0x6 =? 0x4 then
      bar_upper <- pcie_config_read32 hw_read dbi_base cfg_base 0
                     (u32 (bar_offset + 4)) false ;;
      ret (0, Z.lor bar_addr (u64 (Z.shiftl bar_upper 32)), bar_size)
    else ret (0, bar_addr, bar_size).

End Enumeration.

(** ** The descriptor-ring driver *)

Record rtl_desc_t : Type := mk_desc {
  status : Z;
  vlan_tag : Z;
  buf_addr_lo : Z;
  buf_addr_hi : Z
}.

(** The memory shared with the DMA engine: the two descriptor rings and the
    packet buffers, by slot index (and byte offset). *)
Record dma_mem : Type := mk_mem {
  tx_desc : Z -> rtl_desc_t;
  rx_desc : Z -> rtl_desc_t;
  tx_data : Z -> Z -> Z;
  rx_data : Z -> Z -> Z
}.

(** The driver's globals, the shared memory and the history.  A ring or
    buffer pointer is NULL (0) until [rtl8125_init] stores the address of
    the ring, or of the slot's buffer, in it. *)
Record nic : Type := mk_nic {
  rtl_mmio_base : Z;
  tx_ring : Z;
  rx_ring : Z;
  tx_buffers : Z -> Z;
  rx_buffers : Z -> Z;
  tx_idx : Z;
  rx_idx : Z;
  mem : dma_mem;
  hist : history
}.

Definition upd {A} (f : Z -> A) (i : Z) (v : A) : Z -> A :=
  fun j => if j =? i then v else f j.

Definition set_status (d : rtl_desc_t) (v : Z) : rtl_desc_t :=
  mk_desc v (vlan_tag d) (buf_addr_lo d) (buf_addr_hi d).

Definition set_buf_addr_lo (d : rtl_desc_t) (v : Z) : rtl_desc_t :=
  mk_desc (status d) (vlan_tag d) v (buf_addr_hi d).

Definition set_buf_addr_hi (d : rtl_desc_t) (v : Z) : rtl_desc_t :=
  mk_desc (status d) (vlan_tag d) (buf_addr_lo d) v.

Definition set_tx_desc (m : dma_mem) (f : Z -> rtl_desc_t) : dma_mem :=
  mk_mem f (rx_desc m) (tx_data m) (rx_data m).

Definition set_rx_desc (m : dma_mem) (f : Z -> rtl_desc_t) : dma_mem :=
  mk_mem (tx_desc m) f (tx_data m) (rx_data m).

Definition set_tx_data (m : dma_mem) (f : Z -> Z -> Z) : dma_mem :=
  mk_mem (tx_desc m) (rx_desc m) f (rx_data m).

Definition set_mem (s : nic) (m : dma_mem) : nic :=
  mk_nic (rtl_mmio_base s) (tx_ring s) (rx_ring s) (tx_buffers s)
    (rx_buffers s) (tx_idx s) (rx_idx s) m (hist s).

Definition set_hist (s : nic) (h : history) : nic :=
  mk_nic (rtl_mmio_base s) (tx_ring s) (rx_ring s) (tx_buffers s)
    (rx_buffers s) (tx_idx s) (rx_idx s) (mem s) h.

Definition set_tx_idx (s : nic) (i : Z) : nic :=
  mk_nic (rtl_mmio_base s) (tx_ring s) (rx_ring s) (tx_buffers s)
    (rx_buffers s) i (rx_idx s) (mem s) (hist s).

Definition set_rx_idx (s : nic) (i : Z) : nic :=
  mk_nic (rtl_mmio_base s) (tx_ring s) (rx_ring s) (tx_buffers s)
    (rx_buffers s) (tx_idx s) i (mem s) (hist s).

Definition log (e : event) (s : nic) : nic := set_hist s (hist s ++ [e]).

(** [while (n--) *d++ = *s++;] *)
Fixpoint copy_loop (dst src : Z -> Z) (i : Z) (n : nat) : Z -> Z :=
  match n with
  | O => dst
  | S n' => copy_loop (upd dst i (src i)) src (i + 1) n'
  end.

Definition memcpy_local (dst src : Z -> Z) (n : Z) : Z -> Z :=
  copy_loop dst src 0 (Z.to_nat n).

(** [while (n--) *d++ = (uint8_t) val;], [d] starting at offset [off] of
    the buffer. *)
Fixpoint set_loop (dst : Z -> Z) (i val : Z) (n : nat) : Z -> Z :=
  match n with
  | O => dst
  | S n' => set_loop (upd dst i (u8 val)) (i + 1) val n'
  end.

Definition memset_local (dst : Z -> Z) (off val n : Z) : Z -> Z :=
  set_loop dst off val (Z.to_nat n).

Section Rtl8125.

(** Modelled from the spec: [g_cache_line_size], [clean_dcache_va_range]
    and [invalidate_dcache_va_range] are declared in mem/cache.h, which is
    not part of the sources.  The line size is a parameter.  A clean makes
    the driver's writes visible to the device; an invalidate discards the
    cached copy, so that what the device wrote since becomes visible: the
    memory after an invalidate is an arbitrary function [dma_sync] of the
    history and of the memory before it. *)
Variable g_cache_line_size : Z.
Variable dma_sync : history -> dma_mem -> dma_mem.

Definition clean_dcache_va_range (start len : Z) (s : nic) : nic :=
  log (EvClean start len) s.

Definition invalidate_dcache_va_range (start len : Z) (s : nic) : nic :=
  let h := hist s ++ [EvInvalidate start len] in
  set_mem (set_hist s h) (dma_sync h (mem s)).

Definition rtl_write8 (reg val : Z) (s : nic) : nic :=
  log (EvWrite8 (u64 (rtl_mmio_base s + reg)) val) s.

(** [a & ~(g_cache_line_size - 1)] on 64-bit operands. *)
Definition line_mask : Z := u64 (Z.lnot (u64 (g_cache_line_size - 1))).

Definition line_start (a : Z) : Z := Z.land a line_mask.

Definition line_end (a n : Z) : Z :=
  Z.land (u64 (u64 (a + n) + g_cache_line_size - 1)) line_mask.

(** [sizeof(rtl_desc_t)] *)
Definition DESC_SIZE : Z := 16.

(** The cache lines of descriptor [idx] of the ring at [ring]: start
    address and length, as computed from [&ring[idx]]. *)
Definition desc_range (ring idx : Z) : Z * Z :=
  let desc := u64 (ring + DESC_SIZE * idx) in
  let desc_start := line_start desc in
  let desc_end := line_end desc DESC_SIZE in
  (desc_start, u64 (desc_end - desc_start)).

(** The cache lines of the first [n] bytes of the buffer at [buf]. *)
Definition buf_range (buf n : Z) : Z * Z :=
  let buf_start := line_start buf in
  let buf_end := line_end buf n in
  (buf_start, u64 (buf_end - buf_start)).

(** The polling loop of [rtl8125_send_packet]. *)
Fixpoint tx_wait (timeout : nat) (desc_start desc_len : Z) (s : nic) : nic :=
  match timeout with
  | O => s
  | S timeout' =>
      let s := invalidate_dcache_va_range desc_start desc_len s in
      if Z.land (status (tx_desc (mem s) (tx_idx s))) DESC_OWN =? 0 then s
      else tx_wait timeout' desc_start desc_len (log (EvDelay 10) s)
  end.

(** [rtl8125_send_packet] from the copy of the payload up to and including
    the write of the transmit-poll register. *)
Definition tx_submit (data : Z -> Z) (len : Z) (s : nic) : nic :=
  let idx := tx_idx s in
  let buf := memcpy_local (tx_data (mem s) idx) data len in
  let (buf, pad_len) :=
    if len <? 60 then (memset_local buf len 0 (60 - len), 60)
    else (buf, len) in
  let s := set_mem s (set_tx_data (mem s) (upd (tx_data (mem s)) idx buf)) in
  let '(buf_start, buf_len) := buf_range (tx_buffers s idx) pad_len in
  let s := clean_dcache_va_range buf_start buf_len s in
  let st := Z.lor (Z.lor (Z.lor DESC_OWN DESC_FS) DESC_LS) pad_len in
  let s := set_mem s (set_tx_desc (mem s)
             (upd (tx_desc (mem s)) idx
                (set_status (tx_desc (mem s) idx) st))) in
  let '(desc_start, desc_len) := desc_range (tx_ring s) idx in
  let s := clean_dcache_va_range desc_start desc_len s in
  rtl_write8 RTL8125_TxPoll 0x01 s.

(** The state when the polling loop of [rtl8125_send_packet] exits. *)
Definition tx_poll (s : nic) : nic :=
  let '(desc_start, desc_len) := desc_range (tx_ring s) (tx_idx s) in
  let timeout := 10000 in
  tx_wait (Z.to_nat timeout) desc_start desc_len s.

Definition rtl8125_send_packet (data : Z -> Z) (len : Z) (s : nic)
    : Z * nic :=
  if (tx_ring s =? 0) || (tx_buffers s (tx_idx s) =? 0) then (-1, s)
  else if len >? TX_BUF_SIZE then (-1, s)
  else
    let s := tx_submit data len s in
    let s := tx_poll s in
    if negb (Z.land (status (tx_desc (mem s) (tx_idx s))) DESC_OWN =? 0)
    then (-1, s)
    else (0, set_tx_idx s (u32 (tx_idx s + 1) mod NUM_TX_DESC)).

(** The polling loop of [rtl8125_recv_packet]. *)
Fixpoint rx_wait (timeout : nat) (desc_start desc_len : Z) (s : nic) : nic :=
  match timeout with
  | O => s
  | S timeout' =>
      let s := invalidate_dcache_va_range desc_start desc_len s in
      if Z.land (status (rx_desc (mem s) (rx_idx s))) DESC_OWN =? 0 then s
      else rx_wait timeout' desc_start desc_len (log (EvDelay 10) s)
  end.

(** The state when the polling loop of [rtl8125_recv_packet] exits. *)
Definition rx_poll (timeout_ms : Z) (s : nic) : nic :=
  let '(desc_start, desc_len) := desc_range (rx_ring s) (rx_idx s) in
  let timeout := u32 (timeout_ms * 100) in
  rx_wait (Z.to_nat timeout) desc_start desc_len s.

(** The code from the label [reinit_desc] to the end of
    [rtl8125_recv_packet]. *)
Definition reinit_desc (desc_start desc_len : Z) (s : nic) : nic :=
  let idx := rx_idx s in
  let st :=
    if idx =? NUM_RX_DESC - 1
    then u32 (Z.lor DESC_OWN DESC_EOR + RX_BUF_SIZE)
    else u32 (DESC_OWN + RX_BUF_SIZE) in
  let d := set_status (rx_desc (mem s) idx) st in
  let d := set_buf_addr_lo d (u32 (0x50400000 + u32 (idx * RX_BUF_SIZE))) in
  let d := set_buf_addr_hi d 0 in
  let s := set_mem s (set_rx_desc (mem s) (upd (rx_desc (mem s)) idx d)) in
  let s := clean_dcache_va_range desc_start desc_len s in
  set_rx_idx s (u32 (idx + 1) mod NUM_RX_DESC).

(** The length [rtl8125_recv_packet] takes from a status word. *)
Definition rx_pkt_len (st : Z) : Z :=
  let pkt_len := u32 (Z.land st 0x3FFF - 4) in
  if pkt_len >? RX_BUF_SIZE then RX_BUF_SIZE else pkt_len.

(** The result is [(return value, caller's buffer, *len, state)]. *)
Definition rtl8125_recv_packet (buffer : Z -> Z) (len : Z) (timeout_ms : Z)
    (s : nic) : Z * (Z -> Z) * Z * nic :=
  if (rx_ring s =? 0) || (rx_buffers s (rx_idx s) =? 0)
  then (-1, buffer, len, s)
  else
    let '(desc_start, desc_len) := desc_range (rx_ring s) (rx_idx s) in
    let s := rx_poll timeout_ms s in
    let st := status (rx_desc (mem s) (rx_idx s)) in
    if negb (Z.land st DESC_OWN =? 0) then (-1, buffer, len, s)
    else if negb (Z.land st 0x00200000 =? 0)
    then (0, buffer, len, reinit_desc desc_start desc_len s)
    else
      let pkt_len := rx_pkt_len st in
      let '(buf_start, buf_len) :=
        buf_range (rx_buffers s (rx_idx s)) pkt_len in
      let s := invalidate_dcache_va_range buf_start buf_len s in
      let buffer := memcpy_local buffer (rx_data (mem s) (rx_idx s)) pkt_len in
      (0, buffer, pkt_len, reinit_desc desc_start desc_len s).

End Rtl8125.

(** The components of the result of [rtl8125_recv_packet]. *)
Definition recv_ret (r : Z * (Z -> Z) * Z * nic) : Z := fst (fst (fst r)).
Definition recv_buffer (r : Z * (Z -> Z) * Z * nic) : Z -> Z :=
  snd (fst (fst r)).
Definition recv_len (r : Z * (Z -> Z) * Z * nic) : Z := snd (fst r).
Definition recv_state (r : Z * (Z -> Z) * Z * nic) : nic := snd r.

(** The events of one reprogramming of the swing region to configuration
    type that read back enabled ([v]) at the first poll. *)
Definition cfg_events (dbi_base v : Z) : list event :=
  with_barriers
    (atu_writes dbi_base PCIE_ATU_REGION_INDEX1 PCIE_ATU_TYPE_CFG0
       0xf3000000 0x00000000 0x100000)
  ++ atu_poll_ok (atu_reg dbi_base PCIE_ATU_REGION_INDEX1 ATU_REGION_CTRL2) v.

(** [a] is not a register of the swing region's control block. *)
Definition outside_atu (dbi_base a : Z) : Prop :=
  forall off, 0 <= off < ATU_REGION_SIZE ->
    atu_reg dbi_base PCIE_ATU_REGION_INDEX1 off <> a.

(** ** Registers that behave as storage *)

(** The register at [a] is storage-like: what it reads is a function
    [resp] of the value last stored to it ([None] before any store). *)
Definition register_like
    (hw : history -> Z -> Z) (a : Z) (resp : option Z -> Z) : Prop :=
  forall h, u32 (hw h a) = resp (last_write h a).

(** Addresses of the BAR register probed by [pcie_get_bar_info] and of the
    next BAR slot. *)
Definition bar_reg (cfg_base bar_num : Z) : Z :=
  u64 (cfg_base + u32 (0x10 + u32 (bar_num * 4))).

Definition bar_hi_reg (cfg_base bar_num : Z) : Z :=
  u64 (cfg_base + u32 (u32 (0x10 + u32 (bar_num * 4)) + 4)).

(** A root complex and endpoint on which the BAR probe is meaningful: the
    swing region reads back enabled, the BAR and the next slot are
    storage-like registers outside the region's control block, and
    storing to the BAR the value it reads leaves it as it is (the read-only
    bits are ignored on a store). *)
Record bar_probe_device
    (hw : history -> Z -> Z) (dbi_base cfg_base bar_num : Z)
    (resp resp_hi : option Z -> Z) : Prop := {
  atu_enables :
    forall h,
      Z.testbit
        (hw h (atu_reg dbi_base PCIE_ATU_REGION_INDEX1 ATU_REGION_CTRL2)) 31
      = true;
  bar_storage : register_like hw (bar_reg cfg_base bar_num) resp;
  bar_store_back : forall o, resp (Some (resp o)) = resp o;
  bar_hi_storage : register_like hw (bar_hi_reg cfg_base bar_num) resp_hi;
  bar_outside_atu :
    forall off, 0 <= off < ATU_REGION_SIZE ->
      atu_reg dbi_base PCIE_ATU_REGION_INDEX1 off <> bar_reg cfg_base bar_num
      /\ atu_reg dbi_base PCIE_ATU_REGION_INDEX1 off
         <> bar_hi_reg cfg_base bar_num
}.

(** The size [pcie_get_bar_info] should report for a read-back [rb] of the
    all-ones probe: [~(rb & type-mask) + 1] in 32 bits. *)
Definition bar_size_of (rb : Z) : Z :=
  let mask := if Z.testbit rb 0 then 0xFFFFFFFC else 0xFFFFFFF0 in
  u32 (not32 (Z.land rb mask) + 1).

(** The address [pcie_get_bar_info] should report when the BAR read
    [orig] before the probe and [rb] after the all-ones store, [upper]
    being what the next slot reads. *)
Definition bar_addr_of (orig rb upper : Z) : Z :=
  if Z.testbit rb 0 then Z.land orig 0xFFFFFFFC
  else if Z.land orig 0x6 =? 0x4
       then Z.lor (Z.land orig 0xFFFFFFF0) (u64 (Z.shiftl upper 32))
       else Z.land orig 0xFFFFFFF0.

(** ** Reference devices

    Concrete devices on which the functions are run. *)

(** Every register reads 0: the enable bit of a region never reads back
    set. *)
Definition hw_dead : history -> Z -> Z := fun _ _ => 0.

(** Every register reads all-ones: a region reads back enabled at the first
    poll, and the configuration window reads 0xFFFFFFFF (nothing answers
    behind it). *)
Definition hw_ones : history -> Z -> Z := fun _ _ => 0xFFFFFFFF.

(** A 64 KB, 64-bit memory BAR in slot 2 (configuration offsets 0x18 and
    0x1C), as the network controller has it, behind a region that reads
    back enabled at once. *)
Definition endpoint_bar (o : option Z) : Z :=
  match o with
  | Some v => u32 (Z.lor (Z.land v 0xFFFF0000) 0x4)
  | None => 0x00100004
  end.

Definition endpoint_bar_hi (o : option Z) : Z :=
  match o with
  | Some v => u32 v
  | None => 0
  end.

Definition hw_endpoint : history -> Z -> Z := fun h a =>
  if a =? atu_reg DBI_BASE PCIE_ATU_REGION_INDEX1 ATU_REGION_CTRL2
  then PCIE_ATU_ENABLE
  else if a =? bar_reg 0xf3000000 2 then endpoint_bar (last_write h a)
  else if a =? bar_hi_reg 0xf3000000 2 then endpoint_bar_hi (last_write h a)
  else 0.

(** The DMA engine does nothing. *)
Definition dma_idle : history -> dma_mem -> dma_mem := fun _ m => m.

(** By the next invalidate the DMA engine has sent the frame of transmit
    slot 0 (ownership returned to the driver) and has received [frame] into
    receive slot 0, with status word [st]. *)
Definition dma_done (st : Z) (frame : Z -> Z)
    : history -> dma_mem -> dma_mem :=
  fun _ m =>
    mk_mem
      (upd (tx_desc m) 0
         (set_status (tx_desc m 0) (Z.land (status (tx_desc m 0)) 0x7FFFFFFF)))
      (upd (rx_desc m) 0 (set_status (rx_desc m 0) st))
      (tx_data m)
      (upd (rx_data m) 0 frame).

(** The state [rtl8125_init] leaves: rings at 0x50200000 and 0x50201000,
    buffers of 2048 bytes from 0x50300000 and 0x50400000, every receive
    slot owned by the device, the last slot of each ring marked
    end-of-ring. *)
Definition in_ring (i : Z) : bool := (0 <=? i) && (i <? 4).

Definition nic_init : nic :=
  mk_nic 0x9c0100000 0x50200000 0x50201000
    (fun i => if in_ring i then 0x50300000 + i * TX_BUF_SIZE else 0)
    (fun i => if in_ring i then 0x50400000 + i * RX_BUF_SIZE else 0)
    0 0
    (mk_mem
       (fun i => mk_desc (if i =? 3 then DESC_EOR else 0) 0
                   (0x50300000 + i * TX_BUF_SIZE) 0)
       (fun i => mk_desc
                   (if i =? 3 then Z.lor (Z.lor DESC_OWN RX_BUF_SIZE) DESC_EOR
                    else Z.lor DESC_OWN RX_BUF_SIZE)
                   0 (0x50400000 + i * RX_BUF_SIZE) 0)
       (fun _ _ => 0)
       (fun _ _ => 0))
    [].

(** A 64-byte line, a payload [0, 1, 2, ...] and a received frame
    [0xA0, 0xA1, ...] (bytes). *)
Definition line64 : Z := 64.
Definition payload : Z -> Z := fun j => u8 j.
Definition rx_frame : Z -> Z := fun j => u8 (0xA0 + j).

(** ** Byte order and checksum helpers *)

(** [htons(uint16_t val)]: the argument is converted to 16 bits, the
    expression is computed in [int] and the result converted to 16 bits. *)
Definition htons (val : Z) : Z :=
  let val := u16 val in
  u16 (Z.lor (Z.shiftl (Z.land val 0xFF) 8) (Z.land (Z.shiftr val 8) 0xFF)).

(** [htonl(uint32_t val)], computed in 32 bits. *)
Definition htonl (val : Z) : Z :=
  let val := u32 val in
  u32 (Z.lor
         (Z.lor
            (Z.lor (u32 (Z.shiftl (Z.land val 0xFF) 24))
               (u32 (Z.shiftl (Z.land val 0xFF00) 8)))
            (Z.land (Z.shiftr val 8) 0xFF00))
         (Z.land (Z.shiftr val 24) 0xFF)).

Definition ntohs (val : Z) : Z := htons val.
Definition ntohl (val : Z) : Z := htonl val.

(** [ip_checksum] reads its buffer as 16-bit objects and, for an odd
    length, one final byte: [word i] is the [uint16_t] at [data + 2 * i] and
    [byte j] the [uint8_t] at [data + j].

    [while (len > 1) { sum += *ptr++; len -= 2; }], on the index of the next
    word, [len] and [sum]. *)
Fixpoint cksum_words (fuel : nat) (word : Z -> Z) (i len sum : Z)
    : Z * Z * Z :=
  match fuel with
  | O => (i, len, sum)
  | S fuel' =>
      if len >? 1
      then cksum_words fuel' word (i + 1) (len - 2) (u32 (sum + u16 (word i)))
      else (i, len, sum)
  end.

(** [while (sum >> 16) sum = (sum & 0xFFFF) + (sum >> 16);] *)
Fixpoint cksum_fold (fuel : nat) (sum : Z) : Z :=
  match fuel with
  | O => sum
  | S fuel' =>
      if negb (Z.shiftr sum 16 =? 0)
      then cksum_fold fuel' (u32 (Z.land sum 0xFFFF + Z.shiftr sum 16))
      else sum
  end.

(** The first loop runs at most [len / 2] times and the second, on a 32-bit
    sum, at most twice: the fuel given to each is ample (lemmas
    [cksum_words_spec] and [cksum_fold_spec]). *)
Definition ip_checksum (word byte : Z -> Z) (len : Z) : Z :=
  let '(i, len, sum) := cksum_words (Z.to_nat len) word 0 len 0 in
  let sum := if len =? 1 then u32 (sum + u8 (byte (2 * i))) else sum in
  let sum := cksum_fold 32 sum in
  u16 (not32 sum).

(** The sum of the [n] words from index [i] on. *)
Fixpoint word_sum (word : Z -> Z) (i : Z) (n : nat) : Z :=
  match n with
  | O => 0
  | S n' => u16 (word i) + word_sum word (i + 1) n'
  end.

Section ScanBus.

Variable hw_read : history -> Z -> Z.

(** The result is [(return value, *vendor_id, *device_id, *class_code)];
    [class_code] is what [*class_code] held before the call. *)
Definition pcie_scan_bus (dbi_base cfg_base class_code : Z)
    : M (Z * Z * Z * Z) :=
  val <- pcie_config_read32 hw_read dbi_base cfg_base 0 0x00 false ;;
  let vendor_id := Z.land val 0xFFFF in
  let device_id := Z.land (Z.shiftr val 16) 0xFFFF in
  if (vendor_id =? 0xFFFF) || (vendor_id =? 0x0000)
  then ret (-1, vendor_id, device_id, class_code)
  else
    val <- pcie_config_read32 hw_read dbi_base cfg_base 0 0x08 false ;;
    let class_code := Z.shiftr val 8 in
    ret (0, vendor_id, device_id, class_code).

End ScanBus.

(** What [ip_checksum] adds up over [len] bytes: the [len / 2] 16-bit words
    and, for an odd [len], the last byte. *)
Definition cksum_total (word byte : Z -> Z) (len : Z) : Z :=
  word_sum word 0 (Z.to_nat (len / 2))
  + (if len mod 2 =? 1 then u8 (byte (len - 1)) else 0).

(** A reference device whose swing region reads back enabled at once and
    whose other registers are plain storage (0 before the first store). *)
Definition hw_storage : history -> Z -> Z := fun h a =>
  if a =? atu_reg DBI_BASE PCIE_ATU_REGION_INDEX1 ATU_REGION_CTRL2
  then PCIE_ATU_ENABLE
  else match last_write h a with
       | Some v => v
       | None => 0
       end.

(** Sixteen-bit words [0x4500, 0x4501, ...], as the data of a checksum. *)
Definition cksum_words_sample : Z -> Z := fun i => 0x4500 + i.

(** ** Initialisation of the controller *)

Definition RTL8125_MAC0 : Z := 0x0000.
Definition RTL8125_TxDescStartAddr : Z := 0x0020.
Definition RTL8125_TxDescStartAddrH : Z := 0x0024.
Definition RTL8125_ChipCmd : Z := 0x0037.
Definition RTL8125_TxConfig : Z := 0x0040.
Definition RTL8125_RxConfig : Z := 0x0044.
Definition RTL8125_Cfg9346 : Z := 0x0050.
Definition RTL8125_RxDescStartAddr : Z := 0x00E4.
Definition RTL8125_RxDescStartAddrH : Z := 0x00E8.
Definition RTL8125_MaxRxPacketSize : Z := 0x00DA.

Definition CMD_TX_ENABLE : Z := 0x04.
Definition CMD_RX_ENABLE : Z := 0x08.
Definition CMD_RESET : Z := 0x10.

Definition CFG9346_UNLOCK : Z := 0xC0.
Definition CFG9346_LOCK : Z := 0x00.

Definition ETH_ALEN : Z := 6.

(** [rtl8125_init] reads 8-bit registers and stores to a 16-bit one, which
    [event] has no constructor for: the trace of the controller is a list
    of [io_event], an [event] or one of these two accesses. *)
Inductive io_event : Type :=
| IoEv (e : event)
| IoRead8 (addr val : Z)        (* 8-bit load from a device register *)
| IoWrite16 (addr val : Z).     (* 16-bit store to a device register *)

(** The ring driver's state [drv], the global [my_mac] and the trace [io]
    of the register accesses, delays and cache operations of
    [rtl8125_init], in program order.  What [event] can express is recorded
    in the history of [drv] as well, as [rtl8125_send_packet] and
    [rtl8125_recv_packet] do. *)
Record netdev : Type := mk_netdev {
  drv : nic;
  my_mac : Z -> Z;
  io : list io_event
}.

Definition set_vlan_tag (d : rtl_desc_t) (v : Z) : rtl_desc_t :=
  mk_desc (status d) v (buf_addr_lo d) (buf_addr_hi d).

Definition set_rtl_mmio_base (s : nic) (v : Z) : nic :=
  mk_nic v (tx_ring s) (rx_ring s) (tx_buffers s) (rx_buffers s)
    (tx_idx s) (rx_idx s) (mem s) (hist s).

Definition set_tx_ring (s : nic) (v : Z) : nic :=
  mk_nic (rtl_mmio_base s) v (rx_ring s) (tx_buffers s) (rx_buffers s)
    (tx_idx s) (rx_idx s) (mem s) (hist s).

Definition set_rx_ring (s : nic) (v : Z) : nic :=
  mk_nic (rtl_mmio_base s) (tx_ring s) v (tx_buffers s) (rx_buffers s)
    (tx_idx s) (rx_idx s) (mem s) (hist s).

Definition set_tx_buffers (s : nic) (f : Z -> Z) : nic :=
  mk_nic (rtl_mmio_base s) (tx_ring s) (rx_ring s) f (rx_buffers s)
    (tx_idx s) (rx_idx s) (mem s) (hist s).

Definition set_rx_buffers (s : nic) (f : Z -> Z) : nic :=
  mk_nic (rtl_mmio_base s) (tx_ring s) (rx_ring s) (tx_buffers s) f
    (tx_idx s) (rx_idx s) (mem s) (hist s).

Definition on_drv (f : nic -> nic) (d : netdev) : netdev :=
  mk_netdev (f (drv d)) (my_mac d) (io d).

Definition set_my_mac (d : netdev) (f : Z -> Z) : netdev :=
  mk_netdev (drv d) f (io d).

(** An access that [event] records: in the trace and in the history. *)
Definition io_emit (e : event) (d : netdev) : netdev :=
  mk_netdev (log e (drv d)) (my_mac d) (io d ++ [IoEv e]).

(** [for (i = 0; i < NUM_TX_DESC; i++) { tx_ring[i].status = 0; ... }], the
    fields assigned one by one. *)
Fixpoint tx_setup (n : nat) (i : Z) (s : nic) : nic :=
  match n with
  | O => s
  | S n' =>
      let d := tx_desc (mem s) i in
      let d := set_status d 0 in
      let d := set_vlan_tag d 0 in
      let d := set_buf_addr_lo d (u32 (0x50300000 + i * TX_BUF_SIZE)) in
      let d := set_buf_addr_hi d 0 in
      let s := set_mem s (set_tx_desc (mem s) (upd (tx_desc (mem s)) i d)) in
      let s := set_tx_buffers s
                 (upd (tx_buffers s) i (u64 (0x50300000 + i * TX_BUF_SIZE))) in
      tx_setup n' (i + 1) s
  end.

(** [for (i = 0; i < NUM_RX_DESC; i++) { rx_ring[i].status = DESC_OWN |
    RX_BUF_SIZE; ... }] *)
Fixpoint rx_setup (n : nat) (i : Z) (s : nic) : nic :=
  match n with
  | O => s
  | S n' =>
      let d := rx_desc (mem s) i in
      let d := set_status d (Z.lor DESC_OWN RX_BUF_SIZE) in
      let d := set_vlan_tag d 0 in
      let d := set_buf_addr_lo d (u32 (0x50400000 + i * RX_BUF_SIZE)) in
      let d := set_buf_addr_hi d 0 in
      let s := set_mem s (set_rx_desc (mem s) (upd (rx_desc (mem s)) i d)) in
      let s := set_rx_buffers s
                 (upd (rx_buffers s) i (u64 (0x50400000 + i * RX_BUF_SIZE))) in
      rx_setup n' (i + 1) s
  end.

(** [rtl8125_init] from the assignment of [tx_ring] to the end-of-ring mark
    of the receive ring: the part that works on memory only.

    Modelled from the spec: [memset] is declared in lib/t_string.h, which
    is not part of the sources; it is the C library's: the
    [sizeof(rtl_desc_t)] bytes of the first descriptor of each ring become
    0.  The rings and buffers are addressed by slot, so the contents of the
    buffers behind the pointers stored here are those of the state. *)
Definition init_rings (s : nic) : nic :=
  let s := set_tx_ring s 0x50200000 in
  let s := set_rx_ring s 0x50201000 in
  let s := set_mem s (set_tx_desc (mem s)
             (upd (tx_desc (mem s)) 0 (mk_desc 0 0 0 0))) in
  let s := set_mem s (set_rx_desc (mem s)
             (upd (rx_desc (mem s)) 0 (mk_desc 0 0 0 0))) in
  let s := tx_setup (Z.to_nat NUM_TX_DESC) 0 s in
  let last := NUM_TX_DESC - 1 in
  let s := set_mem s (set_tx_desc (mem s)
             (upd (tx_desc (mem s)) last
                (set_status (tx_desc (mem s) last)
                   (u32 (Z.lor (status (tx_desc (mem s) last)) DESC_EOR))))) in
  let s := rx_setup (Z.to_nat NUM_RX_DESC) 0 s in
  let last := NUM_RX_DESC - 1 in
  set_mem s (set_rx_desc (mem s)
    (upd (rx_desc (mem s)) last
       (set_status (rx_desc (mem s) last)
          (u32 (Z.lor (status (rx_desc (mem s) last)) DESC_EOR))))).

Section Rtl8125Init.

(** The controller: the value an 8-bit register read returns after the
    trace so far. *)
Variable rtl_hw : list io_event -> Z -> Z.

Definition rtl_read8 (reg : Z) (d : netdev) : Z * netdev :=
  let a := u64 (rtl_mmio_base (drv d) + reg) in
  let v := u8 (rtl_hw (io d) a) in
  (v, mk_netdev (drv d) (my_mac d) (io d ++ [IoRead8 a v])).

(** [rtl_write8] on the whole state: [drv] changes as by [rtl_write8]. *)
Definition rtl_write8_io (reg val : Z) (d : netdev) : netdev :=
  io_emit (EvWrite8 (u64 (rtl_mmio_base (drv d) + reg)) val) d.

Definition rtl_write16 (reg val : Z) (d : netdev) : netdev :=
  mk_netdev (drv d) (my_mac d)
    (io d ++ [IoWrite16 (u64 (rtl_mmio_base (drv d) + reg)) val]).

Definition rtl_write32 (reg val : Z) (d : netdev) : netdev :=
  io_emit (EvWrite32 (u64 (rtl_mmio_base (drv d) + reg)) val) d.

(** [mdelay(ms)] is [udelay(ms * 1000)], a delay of that many microseconds
    (the product in 32 bits). *)
Definition mdelay (ms : Z) (d : netdev) : netdev :=
  io_emit (EvDelay (u32 (ms * 1000))) d.

(** [for (i = 0; i < 6; i++) my_mac[i] = rtl_read8(RTL8125_MAC0 + i);] *)
Fixpoint read_mac (n : nat) (i : Z) (d : netdev) : netdev :=
  match n with
  | O => d
  | S n' =>
      let '(v, d) := rtl_read8 (RTL8125_MAC0 + i) d in
      read_mac n' (i + 1) (set_my_mac d (upd (my_mac d) i v))
  end.

(** [for (i = 0; i < 1000; i++) { if (!(rtl_read8(RTL8125_ChipCmd) &
    CMD_RESET)) break; udelay(10); }]: the result is the final [i].  The
    loop runs at most [1000 - i] times. *)
Fixpoint reset_wait (fuel : nat) (i : Z) (d : netdev) : Z * netdev :=
  match fuel with
  | O => (i, d)
  | S fuel' =>
      if i <? 1000 then
        let '(v, d) := rtl_read8 RTL8125_ChipCmd d in
        if Z.land v CMD_RESET =? 0 then (i, d)
        else reset_wait fuel' (i + 1) (io_emit (EvDelay 10) d)
      else (i, d)
  end.

(** [rtl8125_init] up to the end of the reset loop; the result is the
    final [i]. *)
Definition init_reset (mmio_base : Z) (d : netdev) : Z * netdev :=
  let d := on_drv (fun s => set_rtl_mmio_base s (u64 mmio_base)) d in
  let d := read_mac (Z.to_nat ETH_ALEN) 0 d in
  let d := rtl_write8_io RTL8125_ChipCmd CMD_RESET d in
  let d := mdelay 10 d in
  reset_wait 1000 0 d.

(** [rtl8125_init] from the flush of the rings to the end. *)
Definition init_program (d : netdev) : netdev :=
  let d := io_emit (EvClean (tx_ring (drv d)) (NUM_TX_DESC * DESC_SIZE)) d in
  let d := io_emit (EvClean (rx_ring (drv d)) (NUM_RX_DESC * DESC_SIZE)) d in
  let d := rtl_write32 RTL8125_TxDescStartAddr 0x50200000 d in
  let d := rtl_write32 RTL8125_TxDescStartAddrH 0 d in
  let d := rtl_write32 RTL8125_RxDescStartAddr 0x50201000 d in
  let d := rtl_write32 RTL8125_RxDescStartAddrH 0 d in
  let val := Z.lor (Z.shiftl 3 24) (Z.shiftl 6 8) in
  let d := rtl_write32 RTL8125_TxConfig val d in
  let val := Z.lor (Z.lor (Z.shiftl 7 13) (Z.shiftl 6 8)) 0x0E in
  let d := rtl_write32 RTL8125_RxConfig val d in
  let d := rtl_write16 RTL8125_MaxRxPacketSize RX_BUF_SIZE d in
  let d := rtl_write8_io RTL8125_ChipCmd (Z.lor CMD_TX_ENABLE CMD_RX_ENABLE) d in
  rtl_write8_io RTL8125_Cfg9346 CFG9346_LOCK d.

Definition rtl8125_init (mmio_base : Z) (d : netdev) : Z * netdev :=
  let '(i, d) := init_reset mmio_base d in
  if i >=? 1000 then (-1, d)
  else
    let d := rtl_write8_io RTL8125_Cfg9346 CFG9346_UNLOCK d in
    let d := on_drv init_rings d in
    (0, init_program d).

End Rtl8125Init.

(** The state before the first call: the static initialisers of the
    globals, zeroed memory, nothing done yet. *)
Definition my_mac_boot : Z -> Z := fun i =>
  nth (Z.to_nat i) [0x2e; 0xc3; 0x69; 0x34; 0x7d; 0x31] 0.

Definition netdev_boot : netdev :=
  mk_netdev
    (mk_nic 0 0 0 (fun _ => 0) (fun _ => 0) 0 0
       (mk_mem (fun _ => mk_desc 0 0 0 0) (fun _ => mk_desc 0 0 0 0)
          (fun _ _ => 0) (fun _ _ => 0))
       [])
    my_mac_boot
    [].

(** A controller whose registers read 0 (the reset is over at the first
    poll), and one whose registers read 0xFF (the reset never ends). *)
Definition rtl_hw_ready : list io_event -> Z -> Z := fun _ _ => 0.
Definition rtl_hw_stuck : list io_event -> Z -> Z := fun _ _ => 0xFF.

(** One poll of the reset loop that read the reset bit set and waited. *)
Definition reset_poll_retry (c v : Z) : list io_event :=
  [IoRead8 c v; IoEv (EvDelay 10)].

(** The reads of the station address, from byte [i] on, that returned
    [vs]. *)
Fixpoint mac_reads (base i : Z) (vs : list Z) : list io_event :=
  match vs with
  | [] => []
  | v :: vs' =>
      IoRead8 (u64 (base + (RTL8125_MAC0 + i))) v :: mac_reads base (i + 1) vs'
  end.

(** What [rtl8125_init] does to the controller at [base] once the reset is
    over, in program order. *)
Definition init_programme (base : Z) : list io_event :=
  [ IoEv (EvWrite8 (u64 (base + RTL8125_Cfg9346)) CFG9346_UNLOCK);
    IoEv (EvClean 0x50200000 64);
    IoEv (EvClean 0x50201000 64);
    IoEv (EvWrite32 (u64 (base + RTL8125_TxDescStartAddr)) 0x50200000);
    IoEv (EvWrite32 (u64 (base + RTL8125_TxDescStartAddrH)) 0);
    IoEv (EvWrite32 (u64 (base + RTL8125_RxDescStartAddr)) 0x50201000);
    IoEv (EvWrite32 (u64 (base + RTL8125_RxDescStartAddrH)) 0);
    IoEv (EvWrite32 (u64 (base + RTL8125_TxConfig)) 0x03000600);
    IoEv (EvWrite32 (u64 (base + RTL8125_RxConfig)) 0xE60E);
    IoWrite16 (u64 (base + RTL8125_MaxRxPacketSize)) 2048;
    IoEv (EvWrite8 (u64 (base + RTL8125_ChipCmd)) 0x0C);
    IoEv (EvWrite8 (u64 (base + RTL8125_Cfg9346)) CFG9346_LOCK) ].

(** The events of a trace that the history records. *)
Fixpoint io_history (t : list io_event) : history :=
  match t with
  | [] => []
  | IoEv e :: t' => e :: io_history t'
  | _ :: t' => io_history t'
  end.

(** The ring driver's state but for its history. *)
Definition same_driver (s s' : nic) : Prop :=
  rtl_mmio_base s' = rtl_mmio_base s /\
  tx_ring s' = tx_ring s /\ rx_ring s' = rx_ring s /\
  tx_buffers s' = tx_buffers s /\ rx_buffers s' = rx_buffers s /\
  tx_idx s' = tx_idx s /\ rx_idx s' = rx_idx s /\ mem s' = mem s.

(** What a step does to the driver state and to the two logs: [s'] is [s]
    but for its history, which grows by the recorded events of what the
    trace grows by. *)
Definition extends (d d' : netdev) (t : list io_event) : Prop :=
  same_driver (drv d) (drv d') /\
  io d' = io d ++ t /\
  hist (drv d') = hist (drv d) ++ io_history t.

(** ** The echo request *)

Definition ETH_P_IP : Z := 0x0800.
Definition IPPROTO_ICMP : Z := 1.
Definition ICMP_ECHO : Z := 8.

(** [static uint8_t remote_mac[ETH_ALEN]], never written. *)
Definition remote_mac : Z -> Z := fun i =>
  nth (Z.to_nat i) [0x38; 0xf7; 0xcd; 0xc8; 0xd9; 0x32] 0.

(** The headers are packed structs laid over the byte array [packet]: a
    field is addressed by its byte offset.  A 16-bit field is stored and
    loaded as two bytes, low byte first: the target (AArch64) is
    little-endian. *)
Definition store16 (b : Z -> Z) (p v : Z) : Z -> Z :=
  upd (upd b p (Z.land v 0xFF)) (p + 1) (Z.land (Z.shiftr v 8) 0xFF).

Definition load16 (b : Z -> Z) (p : Z) : Z :=
  Z.lor (b p) (Z.shiftl (b (p + 1)) 8).

(** [memcpy_local(b + off, src, n)] *)
Definition memcpy_at (b : Z -> Z) (off : Z) (src : Z -> Z) (n : Z)
    : Z -> Z :=
  fun j => memcpy_local (fun k => b (off + k)) src n (j - off).

(** [ip_checksum(b + off, len)] *)
Definition ip_checksum_at (b : Z -> Z) (off len : Z) : Z :=
  ip_checksum (fun i => load16 b (off + 2 * i)) (fun j => b (off + j)) len.

(** [for (int i = 0; i < 32; i++) payload[i] = i;], [payload] at offset
    [off]. *)
Fixpoint fill_payload (n : nat) (i : Z) (b : Z -> Z) (off : Z) : Z -> Z :=
  match n with
  | O => b
  | S n' => fill_payload n' (i + 1) (upd b (off + i) (u8 i)) off
  end.

(** [send_ping] up to the call of [rtl8125_send_packet]: the frame and its
    length.  [junk] is what the uninitialised array holds. *)
Definition ping_packet (junk my_mac src_ip dst_ip : Z -> Z) (seq : Z)
    : (Z -> Z) * Z :=
  let seq := u16 seq in
  let pkt_len := 0 in
  let packet := memset_local junk 0 0 128 in
  (* Ethernet header *)
  let eth := 0 in
  let packet := memcpy_at packet (eth + 0) remote_mac ETH_ALEN in
  let packet := memcpy_at packet (eth + 6) my_mac ETH_ALEN in
  let packet := store16 packet (eth + 12) (htons ETH_P_IP) in
  let pkt_len := u32 (pkt_len + 14) in
  (* IP header *)
  let ip := pkt_len in
  let packet := upd packet (ip + 0) 0x45 in
  let packet := upd packet (ip + 1) 0 in
  let packet := store16 packet (ip + 2) (htons (20 + 8 + 32)) in
  let packet := store16 packet (ip + 4) (htons 0x1234) in
  let packet := store16 packet (ip + 6) 0 in
  let packet := upd packet (ip + 8) 64 in
  let packet := upd packet (ip + 9) IPPROTO_ICMP in
  let packet := store16 packet (ip + 10) 0 in
  let packet := memcpy_at packet (ip + 12) src_ip 4 in
  let packet := memcpy_at packet (ip + 16) dst_ip 4 in
  let packet := store16 packet (ip + 10) (ip_checksum_at packet ip 20) in
  let pkt_len := u32 (pkt_len + 20) in
  (* ICMP header *)
  let icmp := pkt_len in
  let packet := upd packet (icmp + 0) ICMP_ECHO in
  let packet := upd packet (icmp + 1) 0 in
  let packet := store16 packet (icmp + 2) 0 in
  let packet := store16 packet (icmp + 4) (htons 0x5678) in
  let packet := store16 packet (icmp + 6) (htons seq) in
  let pkt_len := u32 (pkt_len + 8) in
  (* ICMP payload *)
  let payload := pkt_len in
  let packet := fill_payload 32 0 packet payload in
  let pkt_len := u32 (pkt_len + 32) in
  let packet := store16 packet (icmp + 2) (ip_checksum_at packet icmp (8 + 32)) in
  (packet, pkt_len).

Section SendPing.

Variable g_cache_line_size : Z.
Variable dma_sync : history -> dma_mem -> dma_mem.

(** The C function returns [void]: the result of [rtl8125_send_packet] is
    dropped. *)
Definition send_ping (junk my_mac src_ip dst_ip : Z -> Z) (seq : Z)
    (s : nic) : nic :=
  let '(packet, pkt_len) := ping_packet junk my_mac src_ip dst_ip seq in
  snd (rtl8125_send_packet g_cache_line_size dma_sync packet pkt_len s).

End SendPing.

(** The addresses [test_dw_pcie_atu] pings with. *)
Definition local_ip : Z -> Z := fun i =>
  nth (Z.to_nat i) [192; 168; 22; 102] 0.
Definition remote_ip : Z -> Z := fun i =>
  nth (Z.to_nat i) [192; 168; 22; 101] 0.

(** ** Accesses to one register, and a region that fails once *)

(** The 32-bit loads and stores a history makes at address [a], in
    order. *)
Definition accesses (a : Z) (h : history) : list event :=
  filter (fun e => match e with
                   | EvRead32 a' _ | EvWrite32 a' _ => a' =? a
                   | _ => false
                   end) h.

(** The number of 32-bit stores to [a] in a history. *)
Fixpoint count_writes (h : history) (a : Z) : Z :=
  match h with
  | [] => 0
  | EvWrite32 a' _ :: h' =>
      (if a' =? a then 1 else 0) + count_writes h' a
  | _ :: h' => count_writes h' a
  end.

(** The endpoint of [hw_endpoint] behind a swing region that, at its
    [k]-th programming and only then, does not read back enabled.  The
    command register reads 0 and ignores stores: memory-space-enable does
    not take. *)
Definition hw_glitch (k : Z) : history -> Z -> Z := fun h a =>
  let c := atu_reg DBI_BASE PCIE_ATU_REGION_INDEX1 ATU_REGION_CTRL2 in
  if a =? c then (if count_writes h c =? k then 0 else PCIE_ATU_ENABLE)
  else if a =? bar_reg 0xf3000000 2 then endpoint_bar (last_write h a)
  else if a =? bar_hi_reg 0xf3000000 2 then endpoint_bar_hi (last_write h a)
  else 0.

(** The word [pcie_enable_device] writes back when it read [cmd_reg]. *)
Definition enable_word (cmd_reg : Z) : Z :=
  let cmd_val := u16 (Z.land cmd_reg 0xFFFF) in
  let status_val := u16 (Z.land (Z.shiftr cmd_reg 16) 0xFFFF) in
  let cmd_val := u16 (Z.lor cmd_val PCIE_CMD_MEM_ENABLE) in
  let cmd_val := u16 (Z.lor cmd_val PCIE_CMD_BUS_MASTER) in
  let cmd_val := u16 (Z.lor cmd_val PCIE_CMD_IO_ENABLE) in
  let cmd_val := u16 (Z.land cmd_val (Z.lnot PCIE_CMD_INT_DISABLE)) in
  u32 (Z.lor (Z.shiftl status_val 16) cmd_val).

(** * Properties *)

(** ** Arithmetic and bit-level facts *)

Lemma u32_range (x : Z) : 0 <= u32 x < 2 ^ 32.
Proof. unfold u32. apply Z.mod_pos_bound. lia. Qed.

Lemma u64_range (x : Z) : 0 <= u64 x < 2 ^ 64.
Proof. unfold u64. apply Z.mod_pos_bound. lia. Qed.

Lemma u32_small (x : Z) : 0 <= x < 2 ^ 32 -> u32 x = x.
Proof. intros. unfold u32. apply Z.mod_small. lia. Qed.

Lemma u64_small (x : Z) : 0 <= x < 2 ^ 64 -> u64 x = x.
Proof. intros. unfold u64. apply Z.mod_small. lia. Qed.

Lemma u32_testbit (x i : Z) :
  Z.testbit (u32 x) i = (i <? 32) && Z.testbit x i.
Proof.
  unfold u32. destruct (Z.ltb_spec i 32) as [Hi | Hi]; cbn [andb].
  - destruct (Z.lt_ge_cases i 0) as [Hn | Hn].
    + rewrite !Z.testbit_neg_r by lia. reflexivity.
    + apply Z.mod_pow2_bits_low. lia.
  - apply Z.mod_pow2_bits_high. lia.
Qed.

Lemma u16_testbit (x i : Z) :
  Z.testbit (u16 x) i = (i <? 16) && Z.testbit x i.
Proof.
  unfold u16. destruct (Z.ltb_spec i 16) as [Hi | Hi]; cbn [andb].
  - destruct (Z.lt_ge_cases i 0) as [Hn | Hn].
    + rewrite !Z.testbit_neg_r by lia. reflexivity.
    + apply Z.mod_pow2_bits_low. lia.
  - apply Z.mod_pow2_bits_high. lia.
Qed.

Lemma land_pow2_eqb (v n : Z) :
  0 <= n -> (Z.land v (2 ^ n) =? 0) = negb (Z.testbit v n).
Proof.
  intros Hn. destruct (Z.testbit v n) eqn:Hb; simpl.
  - apply Z.eqb_neq. intros H0.
    assert (Hc : Z.testbit (Z.land v (2 ^ n)) n = true).
    { rewrite Z.land_spec, Hb, Z.pow2_bits_true by lia. reflexivity. }
    rewrite H0, Z.bits_0 in Hc. discriminate.
  - apply Z.eqb_eq. apply Z.bits_inj'. intros i Hi.
    rewrite Z.land_spec, Z.bits_0.
    destruct (Z.eq_dec i n) as [-> | Hne].
    + rewrite Hb. reflexivity.
    + rewrite Z.pow2_bits_false by lia. apply andb_false_r.
Qed.

Lemma split_lower (x : Z) : u32 (Z.land x 0xFFFFFFFF) = x mod 2 ^ 32.
Proof.
  change 0xFFFFFFFF with (Z.ones 32). rewrite Z.land_ones by lia.
  unfold u32. apply Z.mod_mod. lia.
Qed.

Lemma split_upper (x : Z) :
  0 <= x < 2 ^ 64 -> u32 (Z.shiftr x 32) = x / 2 ^ 32.
Proof.
  intros Hx. rewrite Z.shiftr_div_pow2 by lia. apply u32_small.
  split.
  - apply Z.div_pos; lia.
  - apply Z.div_lt_upper_bound; lia.
Qed.

Lemma u64_add_inj (b o1 o2 : Z) :
  0 <= o1 < 2 ^ 64 -> 0 <= o2 < 2 ^ 64 ->
  u64 (b + o1) = u64 (b + o2) -> o1 = o2.
Proof.
  unfold u64. intros H1 H2 He.
  assert (Hd : (o1 - o2) mod 2 ^ 64 = 0).
  { replace (o1 - o2) with ((b + o1) - (b + o2)) by lia.
    rewrite Zminus_mod, He, Z.sub_diag. reflexivity. }
  apply Z.mod_divide in Hd; [| lia].
  destruct Hd as [k Hk]. nia.
Qed.

(** ** Histories *)

Lemma last_write_app (h1 h2 : history) (a : Z) :
  last_write (h1 ++ h2) a =
  match last_write h2 a with Some v => Some v | None => last_write h1 a end.
Proof.
  induction h1 as [| e h1 IH]; simpl.
  - destruct (last_write h2 a); reflexivity.
  - rewrite IH. destruct (last_write h2 a); reflexivity.
Qed.

Lemma last_read_app (h1 h2 : history) (a : Z) :
  last_read (h1 ++ h2) a =
  match last_read h2 a with Some v => Some v | None => last_read h1 a end.
Proof.
  induction h1 as [| e h1 IH]; simpl.
  - destruct (last_read h2 a); reflexivity.
  - rewrite IH. destruct (last_read h2 a); reflexivity.
Qed.

Lemma elapsed_us_app (h1 h2 : history) :
  elapsed_us (h1 ++ h2) = elapsed_us h1 + elapsed_us h2.
Proof.
  induction h1 as [| e h1 IH]; simpl; [reflexivity |].
  destruct e; rewrite IH; lia.
Qed.

Lemma last_write_no_write (h : history) (a : Z) :
  forallb (fun e => negb (is_write e)) h = true -> last_write h a = None.
Proof.
  induction h as [| e h IH]; simpl; [reflexivity |].
  intros H. apply andb_prop in H. destruct H as [He Hh].
  rewrite (IH Hh). destruct e; simpl in He; try discriminate; reflexivity.
Qed.

(** ** The ATU window manager *)

Section AtuProperties.

Variable hw_read : history -> Z -> Z.

Lemma dw_pcie_setup_atu_unfold
    (dbi_base region_index type cpu_addr pci_addr size : Z) (h : history) :
  dw_pcie_setup_atu hw_read dbi_base region_index type cpu_addr pci_addr
    size h =
  atu_wait_enable hw_read 5 (atu_reg dbi_base region_index ATU_REGION_CTRL2)
    (h ++ with_barriers
            (atu_writes dbi_base region_index type cpu_addr pci_addr size)).
Proof.
  unfold dw_pcie_setup_atu, bind, store32, DSB_SY, emit.
  cbn [with_barriers atu_writes flat_map app].
  rewrite <- !app_assoc. reflexivity.
Qed.

(** What the polling loop does: some polls that read the enable bit clear,
    then either one that reads it set (result 0) or exhaustion of the
    budget (result -1). *)
Lemma atu_wait_enable_spec (n : nat) (c : Z) (h : history) :
  exists vs : list Z,
    Forall (fun v => Z.testbit v 31 = false) vs /\
    ((exists v, Z.testbit v 31 = true /\ (length vs < n)%nat /\
        atu_wait_enable hw_read n c h =
        (0, h ++ flat_map (atu_poll_retry c) vs ++ atu_poll_ok c v))
     \/ (length vs = n /\
         atu_wait_enable hw_read n c h =
         (-1, h ++ flat_map (atu_poll_retry c) vs))).
Proof.
  revert h. induction n as [| n IH]; intros h.
  - exists []. split; [constructor |]. right. split; [reflexivity |].
    simpl. rewrite app_nil_r. reflexivity.
  - cbn [atu_wait_enable]. unfold bind, DSB_SY, load32, udelay, emit, ret.
    set (v := u32 (hw_read (h ++ [EvBarrier]) c)).
    change PCIE_ATU_ENABLE with (2 ^ 31).
    rewrite land_pow2_eqb by lia. rewrite negb_involutive.
    destruct (Z.testbit v 31) eqn:Hv.
    + exists []. split; [constructor |]. left. exists v.
      split; [exact Hv |]. split; [simpl; lia |].
      simpl. rewrite <- !app_assoc. reflexivity.
    + destruct (IH ((((h ++ [EvBarrier]) ++ [EvRead32 c v]) ++ [EvBarrier])
                      ++ [EvDelay 1000])) as (vs & Hvs & Hcase).
      exists (v :: vs). split; [constructor; assumption |].
      destruct Hcase as [(v' & Hv' & Hlen & Heq) | (Hlen & Heq)].
      * left. exists v'. split; [exact Hv' |]. split; [simpl; lia |].
        rewrite Heq. simpl. rewrite <- !app_assoc. reflexivity.
      * right. split; [simpl; lia |].
        rewrite Heq. simpl. rewrite <- !app_assoc. reflexivity.
Qed.

Lemma polls_no_write (c : Z) (vs : list Z) :
  forallb (fun e => negb (is_write e)) (flat_map (atu_poll_retry c) vs) = true.
Proof. induction vs as [| v vs IH]; simpl; [reflexivity | exact IH]. Qed.

Lemma atu_reg_eqb (dbi_base region_index o1 o2 : Z) :
  0 <= o1 < 2 ^ 64 -> 0 <= o2 < 2 ^ 64 ->
  (atu_reg dbi_base region_index o1 =? atu_reg dbi_base region_index o2)
  = (o1 =? o2).
Proof.
  intros H1 H2. destruct (Z.eqb_spec o1 o2) as [-> | Hne].
  - apply Z.eqb_refl.
  - apply Z.eqb_neq. intros He. apply Hne.
    unfold atu_reg in He. eapply u64_add_inj; eassumption.
Qed.

Ltac atu_reg_cases :=
  repeat (rewrite atu_reg_eqb by (vm_compute; split; congruence));
  cbn [Z.eqb Pos.eqb
       ATU_REGION_CTRL1 ATU_REGION_CTRL2 ATU_LOWER_BASE ATU_UPPER_BASE
       ATU_LOWER_LIMIT ATU_UPPER_LIMIT ATU_LOWER_TARGET ATU_UPPER_TARGET].

(** The value each register of the region holds after the eight stores. *)
Lemma last_write_atu_writes
    (dbi_base region_index type cpu_addr pci_addr size : Z) :
  let W := with_barriers
             (atu_writes dbi_base region_index type cpu_addr pci_addr size) in
  let reg := atu_reg dbi_base region_index in
  let limit_addr := u64 (cpu_addr + size - 1) in
  last_write W (reg ATU_LOWER_BASE) = Some (u32 (Z.land cpu_addr 0xFFFFFFFF)) /\
  last_write W (reg ATU_UPPER_BASE) = Some (u32 (Z.shiftr cpu_addr 32)) /\
  last_write W (reg ATU_LOWER_LIMIT)
    = Some (u32 (Z.land limit_addr 0xFFFFFFFF)) /\
  last_write W (reg ATU_UPPER_LIMIT) = Some (u32 (Z.shiftr limit_addr 32)) /\
  last_write W (reg ATU_LOWER_TARGET)
    = Some (u32 (Z.land pci_addr 0xFFFFFFFF)) /\
  last_write W (reg ATU_UPPER_TARGET) = Some (u32 (Z.shiftr pci_addr 32)) /\
  last_write W (reg ATU_REGION_CTRL1) = Some type /\
  last_write W (reg ATU_REGION_CTRL2) = Some PCIE_ATU_ENABLE.
Proof.
  cbn zeta. cbn [with_barriers atu_writes flat_map app last_write].
  repeat split; atu_reg_cases; reflexivity.
Qed.

(** C1. For every valid (host_addr, bus_addr, size) -- 64-bit addresses and
    a non-empty range that does not wrap -- when [dw_pcie_setup_atu]
    returns 0 the values last stored to the region's registers are: base =
    host_addr split into lower and upper 32 bits, limit = host_addr + size
    - 1 split likewise, target = bus_addr split likewise, control-1 = the
    transaction type; and the last value read from control-2 has the
    enable bit (bit 31) set. *)
Theorem dw_pcie_setup_atu_success
    (dbi_base region_index type cpu_addr pci_addr size : Z)
    (h h' : history) :
  0 <= cpu_addr < 2 ^ 64 ->
  0 <= pci_addr < 2 ^ 64 ->
  1 <= size ->
  cpu_addr + size - 1 < 2 ^ 64 ->
  dw_pcie_setup_atu hw_read dbi_base region_index type cpu_addr pci_addr
    size h = (0, h') ->
  let reg := atu_reg dbi_base region_index in
  let limit := cpu_addr + size - 1 in
  last_write h' (reg ATU_LOWER_BASE) = Some (cpu_addr mod 2 ^ 32) /\
  last_write h' (reg ATU_UPPER_BASE) = Some (cpu_addr / 2 ^ 32) /\
  last_write h' (reg ATU_LOWER_LIMIT) = Some (limit mod 2 ^ 32) /\
  last_write h' (reg ATU_UPPER_LIMIT) = Some (limit / 2 ^ 32) /\
  last_write h' (reg ATU_LOWER_TARGET) = Some (pci_addr mod 2 ^ 32) /\
  last_write h' (reg ATU_UPPER_TARGET) = Some (pci_addr / 2 ^ 32) /\
  last_write h' (reg ATU_REGION_CTRL1) = Some type /\
  exists v, last_read h' (reg ATU_REGION_CTRL2) = Some v /\
            Z.testbit v 31 = true.
Proof.
  intros Hcpu Hpci Hsize Hlim Hrun reg limit.
  rewrite dw_pcie_setup_atu_unfold in Hrun.
  destruct (atu_wait_enable_spec 5 (reg ATU_REGION_CTRL2)
              (h ++ with_barriers
                      (atu_writes dbi_base region_index type cpu_addr
                         pci_addr size)))
    as (vs & _ & [(v & Hv & _ & Heq) | (_ & Heq)]);
    fold reg in Hrun; rewrite Heq in Hrun; [| discriminate].
  injection Hrun as <-.
  assert (Hw : forall a,
             last_write
               ((h ++ with_barriers
                        (atu_writes dbi_base region_index type cpu_addr
                           pci_addr size))
                ++ flat_map (atu_poll_retry (reg ATU_REGION_CTRL2)) vs
                ++ atu_poll_ok (reg ATU_REGION_CTRL2) v) a
             = match last_write
                       (with_barriers
                          (atu_writes dbi_base region_index type cpu_addr
                             pci_addr size)) a with
               | Some x => Some x
               | None => last_write h a
               end).
  { intros a. rewrite last_write_app, last_write_app.
    rewrite (last_write_no_write _ a (polls_no_write _ vs)).
    cbn [atu_poll_ok last_write]. apply last_write_app. }
  destruct (last_write_atu_writes dbi_base region_index type cpu_addr
              pci_addr size)
    as (L1 & L2 & L3 & L4 & L5 & L6 & L7 & _).
  cbn zeta in L1, L2, L3, L4, L5, L6, L7.
  fold reg in L1, L2, L3, L4, L5, L6, L7.
  rewrite (u64_small (cpu_addr + size - 1)) in L3, L4 by lia.
  rewrite !Hw, L1, L2, L3, L4, L5, L6, L7.
  rewrite !split_lower, !split_upper by (unfold limit; lia).
  repeat split; try reflexivity.
  exists v. split; [| exact Hv].
  rewrite !last_read_app. cbn [atu_poll_ok last_read].
  rewrite Z.eqb_refl. reflexivity.
Qed.

(** C2. If control-2 never reads back with the enable bit set,
    [dw_pcie_setup_atu] returns -1 after exactly five polls of control-2,
    each followed by a 1000 us delay, and the history it adds consists of
    the eight register stores (each with its barrier) followed by those
    five polls: no other access is made. *)
Theorem dw_pcie_setup_atu_timeout
    (dbi_base region_index type cpu_addr pci_addr size : Z) (h : history) :
  (forall h0, Z.testbit
                (hw_read h0 (atu_reg dbi_base region_index ATU_REGION_CTRL2))
                31 = false) ->
  exists vs : list Z,
    length vs = 5%nat /\
    Forall (fun v => Z.testbit v 31 = false) vs /\
    dw_pcie_setup_atu hw_read dbi_base region_index type cpu_addr pci_addr
      size h =
    (-1, h ++ with_barriers
                (atu_writes dbi_base region_index type cpu_addr pci_addr size)
           ++ flat_map
                (atu_poll_retry
                   (atu_reg dbi_base region_index ATU_REGION_CTRL2)) vs).
Proof.
  intros Hnever.
  assert (Hloop : forall n h1, exists vs : list Z,
             length vs = n /\
             Forall (fun v => Z.testbit v 31 = false) vs /\
             atu_wait_enable hw_read n
               (atu_reg dbi_base region_index ATU_REGION_CTRL2) h1 =
             (-1, h1 ++ flat_map
                          (atu_poll_retry
                             (atu_reg dbi_base region_index ATU_REGION_CTRL2))
                          vs)).
  { induction n as [| n IH]; intros h1.
    - exists []. repeat split; [constructor |].
      simpl. rewrite app_nil_r. reflexivity.
    - cbn [atu_wait_enable]. unfold bind, DSB_SY, load32, udelay, emit, ret.
      set (c := atu_reg dbi_base region_index ATU_REGION_CTRL2) in *.
      set (v := u32 (hw_read (h1 ++ [EvBarrier]) c)).
      assert (Hv : Z.testbit v 31 = false).
      { unfold v. rewrite u32_testbit, Hnever. reflexivity. }
      change PCIE_ATU_ENABLE with (2 ^ 31).
      rewrite land_pow2_eqb by lia. rewrite Hv. cbn [negb].
      destruct (IH ((((h1 ++ [EvBarrier]) ++ [EvRead32 c v]) ++ [EvBarrier])
                      ++ [EvDelay 1000])) as (vs & Hlen & Hvs & Heq).
      exists (v :: vs). split; [simpl; lia |].
      split; [constructor; assumption |].
      rewrite Heq. simpl. rewrite <- !app_assoc. reflexivity. }
  rewrite dw_pcie_setup_atu_unfold.
  destruct (Hloop 5%nat
              (h ++ with_barriers
                      (atu_writes dbi_base region_index type cpu_addr
                         pci_addr size))) as (vs & Hlen & Hvs & Heq).
  exists vs. split; [exact Hlen |]. split; [exact Hvs |].
  rewrite Heq, <- app_assoc. reflexivity.
Qed.

End AtuProperties.

(** Witness of C1: the configuration window of the test (region 1, 1 MB at
    0xf3000000 onto bus address 0) on a device that reads back enabled. *)
Lemma dw_pcie_setup_atu_success_witness :
  let h' := snd (dw_pcie_setup_atu hw_ones DBI_BASE 1 PCIE_ATU_TYPE_CFG0
                   0xf3000000 0 0x100000 []) in
  let reg := atu_reg DBI_BASE 1 in
  last_write h' (reg ATU_LOWER_BASE) = Some 0xf3000000 /\
  last_write h' (reg ATU_UPPER_BASE) = Some 0 /\
  last_write h' (reg ATU_LOWER_LIMIT) = Some 0xf30fffff /\
  last_write h' (reg ATU_UPPER_LIMIT) = Some 0 /\
  last_write h' (reg ATU_LOWER_TARGET) = Some 0 /\
  last_write h' (reg ATU_UPPER_TARGET) = Some 0 /\
  last_write h' (reg ATU_REGION_CTRL1) = Some PCIE_ATU_TYPE_CFG0 /\
  exists v, last_read h' (reg ATU_REGION_CTRL2) = Some v /\
            Z.testbit v 31 = true.
Proof.
  intros h' reg.
  apply (dw_pcie_setup_atu_success hw_ones DBI_BASE 1 PCIE_ATU_TYPE_CFG0
           0xf3000000 0 0x100000 [] h');
    [lia | lia | lia | lia | vm_compute; reflexivity].
Defined.

(** Witness of C2: the same programming on a device that never reads back
    enabled. *)
Lemma dw_pcie_setup_atu_timeout_witness :
  exists vs : list Z,
    length vs = 5%nat /\
    Forall (fun v => Z.testbit v 31 = false) vs /\
    dw_pcie_setup_atu hw_dead DBI_BASE 1 PCIE_ATU_TYPE_CFG0
      0xf3000000 0 0x100000 [] =
    (-1, [] ++ with_barriers
                 (atu_writes DBI_BASE 1 PCIE_ATU_TYPE_CFG0
                    0xf3000000 0 0x100000)
            ++ flat_map
                 (atu_poll_retry (atu_reg DBI_BASE 1 ATU_REGION_CTRL2)) vs).
Proof.
  apply (dw_pcie_setup_atu_timeout hw_dead DBI_BASE 1 PCIE_ATU_TYPE_CFG0
           0xf3000000 0 0x100000 []).
  intros h0. reflexivity.
Defined.

(** ** The configuration-space accessor *)

(** C3 as stated does not hold: no function of the value handed back to
    the caller tells a timed-out access from a completed one.  On
    [hw_dead] the reprogramming times out and on [hw_ones] it succeeds,
    yet [pcie_config_read32] returns 0xFFFFFFFF on both and
    [pcie_config_write32] returns nothing on both. *)
Lemma config_access_failure_not_reported :
  ~ (exists read_failed : Z -> bool,
       forall hw,
         read_failed
           (fst (pcie_config_read32 hw DBI_BASE 0xf3000000 0 0 false []))
         = negb (fst (map_cfg hw DBI_BASE []) =? 0))
  /\
  ~ (exists write_failed : unit -> bool,
       forall hw,
         write_failed
           (fst (pcie_config_write32 hw DBI_BASE 0xf3000000 0 0 0 false []))
         = negb (fst (map_cfg hw DBI_BASE []) =? 0)).
Proof.
  split; intros (f & Hf).
  - pose proof (Hf hw_dead) as Hd. pose proof (Hf hw_ones) as Ho.
    vm_compute in Hd, Ho. congruence.
  - pose proof (Hf hw_dead) as Hd. pose proof (Hf hw_ones) as Ho.
    vm_compute in Hd, Ho. congruence.
Qed.

(** C3, amended.  If the reprogramming of the swing region to
    configuration type fails, [pcie_config_read32] returns 0xFFFFFFFF and
    [pcie_config_write32] returns, and in both the history is the one the
    failed reprogramming left: neither the raw access nor the restore is
    made.  The sentinel is the only thing handed back. *)
Theorem config_access_timeout
    (hw : history -> Z -> Z) (dbi_base cfg_base bar_phys offset value : Z)
    (restore_memory : bool) (h : history) :
  fst (map_cfg hw dbi_base h) <> 0 ->
  pcie_config_read32 hw dbi_base cfg_base bar_phys offset restore_memory h
  = (0xFFFFFFFF, snd (map_cfg hw dbi_base h))
  /\
  pcie_config_write32 hw dbi_base cfg_base bar_phys offset value
    restore_memory h
  = (tt, snd (map_cfg hw dbi_base h)).
Proof.
  intros Hfail. unfold pcie_config_read32, pcie_config_write32, bind, ret.
  destruct (map_cfg hw dbi_base h) as [r h1]. cbn [fst snd] in *.
  apply Z.eqb_neq in Hfail. rewrite Hfail. split; reflexivity.
Qed.

Lemma config_access_timeout_witness :
  pcie_config_read32 hw_dead DBI_BASE 0xf3000000 0 PCIE_CFG_COMMAND false []
  = (0xFFFFFFFF, snd (map_cfg hw_dead DBI_BASE []))
  /\
  pcie_config_write32 hw_dead DBI_BASE 0xf3000000 0 PCIE_CFG_COMMAND 7
    false []
  = (tt, snd (map_cfg hw_dead DBI_BASE [])).
Proof.
  apply (config_access_timeout hw_dead DBI_BASE 0xf3000000 0
           PCIE_CFG_COMMAND 7 false []).
  vm_compute. discriminate.
Defined.

(** ** Enumeration *)

(** The command/status word [pcie_enable_device] writes back, as a function
    of the word it read. *)
Lemma enable_word_bits (r : Z) :
  let cmd_val := u16 (Z.land r 0xFFFF) in
  let status_val := u16 (Z.land (Z.shiftr r 16) 0xFFFF) in
  let cmd_val := u16 (Z.lor cmd_val PCIE_CMD_MEM_ENABLE) in
  let cmd_val := u16 (Z.lor cmd_val PCIE_CMD_BUS_MASTER) in
  let cmd_val := u16 (Z.lor cmd_val PCIE_CMD_IO_ENABLE) in
  let cmd_val := u16 (Z.land cmd_val (Z.lnot PCIE_CMD_INT_DISABLE)) in
  let w := u32 (Z.lor (Z.shiftl status_val 16) cmd_val) in
  forall i, 0 <= i < 32 ->
    Z.testbit w i =
    if (i =? 0) || (i =? 1) || (i =? 2) then true
    else if i =? 10 then false
    else Z.testbit r i.
Proof.
  cbn zeta. intros i Hi.
  change PCIE_CMD_MEM_ENABLE with (2 ^ 1).
  change PCIE_CMD_BUS_MASTER with (2 ^ 2).
  change PCIE_CMD_IO_ENABLE with (2 ^ 0).
  change PCIE_CMD_INT_DISABLE with (2 ^ 10).
  change 0xFFFF with (Z.ones 16).
  rewrite u32_testbit, Z.lor_spec.
  destruct (Z.lt_ge_cases i 16) as [Hlo | Hhi].
  - rewrite Z.shiftl_spec_low by lia.
    repeat first
      [ rewrite u16_testbit | rewrite Z.lor_spec | rewrite Z.land_spec
      | rewrite Z.lnot_spec by lia | rewrite Z.pow2_bits_eqb by lia
      | rewrite Z.testbit_ones_nonneg by lia ].
    replace (i <? 32) with true by (symmetry; apply Z.ltb_lt; lia).
    replace (i <? 16) with true by (symmetry; apply Z.ltb_lt; lia).
    destruct (Z.eqb_spec i 0) as [-> | H0];
      [destruct (Z.testbit r 0); reflexivity |].
    destruct (Z.eqb_spec i 1) as [-> | H1];
      [destruct (Z.testbit r 1); reflexivity |].
    destruct (Z.eqb_spec i 2) as [-> | H2];
      [destruct (Z.testbit r 2); reflexivity |].
    destruct (Z.eqb_spec i 10) as [-> | H10];
      [destruct (Z.testbit r 10); reflexivity |].
    replace (1 =? i) with false by (symmetry; apply Z.eqb_neq; lia).
    replace (2 =? i) with false by (symmetry; apply Z.eqb_neq; lia).
    replace (0 =? i) with false by (symmetry; apply Z.eqb_neq; lia).
    replace (10 =? i) with false by (symmetry; apply Z.eqb_neq; lia).
    destruct (Z.testbit r i); reflexivity.
  - rewrite Z.shiftl_spec by lia.
    repeat first
      [ rewrite u16_testbit | rewrite Z.lor_spec | rewrite Z.land_spec
      | rewrite Z.shiftr_spec by lia
      | rewrite Z.testbit_ones_nonneg by lia ].
    replace (i - 16 + 16) with i by lia.
    replace (i <? 32) with true by (symmetry; apply Z.ltb_lt; lia).
    replace (i - 16 <? 16) with true by (symmetry; apply Z.ltb_lt; lia).
    replace (i <? 16) with false by (symmetry; apply Z.ltb_ge; lia).
    replace (i =? 0) with false by (symmetry; apply Z.eqb_neq; lia).
    replace (i =? 1) with false by (symmetry; apply Z.eqb_neq; lia).
    replace (i =? 2) with false by (symmetry; apply Z.eqb_neq; lia).
    replace (i =? 10) with false by (symmetry; apply Z.eqb_neq; lia).
    destruct (Z.testbit r i); reflexivity.
Qed.

(** What [pcie_enable_device] makes of what the accessor hands back, on
    any device: from the word [r1] of the first call it forms a word [w]
    whose bits 0 (I/O), 1 (memory) and 2 (bus master) are set, whose bit 10
    (interrupt disable) is clear and whose other bits, the status half-word
    in bits 16..31 among them, are those of [r1]; it hands [w] to the
    writing accessor, and returns -1 if bit 1 of the word [r2] of the
    second reading call is clear and 0 otherwise.  Whether the register
    is accessed at all is not said here. *)
Theorem pcie_enable_device_spec
    (hw : history -> Z -> Z) (dbi_base cfg_base bar_phys : Z) (h : history) :
  let '(r1, h1) :=
    pcie_config_read32 hw dbi_base cfg_base bar_phys PCIE_CFG_COMMAND false h in
  exists w : Z,
    0 <= w < 2 ^ 32 /\
    (forall i, 16 <= i < 32 -> Z.testbit w i = Z.testbit r1 i) /\
    Z.testbit w 0 = true /\ Z.testbit w 1 = true /\ Z.testbit w 2 = true /\
    Z.testbit w 10 = false /\
    (forall i, 3 <= i < 16 -> i <> 10 -> Z.testbit w i = Z.testbit r1 i) /\
    let '(_, h2) :=
      pcie_config_write32 hw dbi_base cfg_base bar_phys PCIE_CFG_COMMAND w
        false h1 in
    let '(r2, h3) :=
      pcie_config_read32 hw dbi_base cfg_base bar_phys PCIE_CFG_COMMAND true
        h2 in
    pcie_enable_device hw dbi_base cfg_base bar_phys h
    = ((if Z.testbit r2 1 then 0 else -1), h3).
Proof.
  unfold pcie_enable_device, bind.
  destruct (pcie_config_read32 hw dbi_base cfg_base bar_phys
              PCIE_CFG_COMMAND false h) as [r1 h1].
  pose proof (enable_word_bits r1) as Hbits. cbn zeta in Hbits.
  match goal with
  | |- context [pcie_config_write32 _ _ _ _ _ ?w _ _] => set (w0 := w) in *
  end.
  exists w0. split; [apply u32_range |].
  split.
  { intros i Hi. rewrite Hbits by lia.
    replace (i =? 0) with false by (symmetry; apply Z.eqb_neq; lia).
    replace (i =? 1) with false by (symmetry; apply Z.eqb_neq; lia).
    replace (i =? 2) with false by (symmetry; apply Z.eqb_neq; lia).
    replace (i =? 10) with false by (symmetry; apply Z.eqb_neq; lia).
    reflexivity. }
  split; [rewrite Hbits by lia; reflexivity |].
  split; [rewrite Hbits by lia; reflexivity |].
  split; [rewrite Hbits by lia; reflexivity |].
  split; [rewrite Hbits by lia; reflexivity |].
  split.
  { intros i Hi Hne. rewrite Hbits by lia.
    replace (i =? 0) with false by (symmetry; apply Z.eqb_neq; lia).
    replace (i =? 1) with false by (symmetry; apply Z.eqb_neq; lia).
    replace (i =? 2) with false by (symmetry; apply Z.eqb_neq; lia).
    replace (i =? 10) with false by (symmetry; apply Z.eqb_neq; lia).
    reflexivity. }
  destruct (pcie_config_write32 hw dbi_base cfg_base bar_phys
              PCIE_CFG_COMMAND w0 false h1) as [[] h2].
  destruct (pcie_config_read32 hw dbi_base cfg_base bar_phys
              PCIE_CFG_COMMAND true h2) as [r2 h3].
  change PCIE_CMD_MEM_ENABLE with (2 ^ 1).
  rewrite land_pow2_eqb by lia.
  change 0xFFFF with (Z.ones 16).
  rewrite u16_testbit, Z.land_spec, Z.testbit_ones_nonneg by lia.
  change (1 <? 16) with true. rewrite andb_true_r. cbn [andb].
  destruct (Z.testbit r2 1); reflexivity.
Qed.

(** C9 as stated does not hold.  On [hw_glitch 3] the first two
    reprogrammings of the swing region succeed and the third times out:
    [pcie_enable_device] reads the command register (0), stores 7 to it,
    and then makes no read-back at all, the accessor handing back its
    sentinel 0xFFFFFFFF instead.  Bit 1 of the sentinel is set, so 0 is
    returned, although the command register still reads with
    memory-space-enable clear. *)
Lemma pcie_enable_device_read_back_skipped :
  let a := u64 (0xf3000000 + PCIE_CFG_COMMAND) in
  let '(r, h') := pcie_enable_device (hw_glitch 3) DBI_BASE 0xf3000000 0 [] in
  r = 0 /\
  accesses a h' = [EvRead32 a 0; EvWrite32 a 7] /\
  Z.testbit (u32 (hw_glitch 3 h' a)) 1 = false.
Proof. vm_compute. repeat split; reflexivity. Qed.

(** C9, amended.  When the three reprogrammings of the swing region to
    configuration type succeed, [pcie_enable_device] loads the 32-bit
    command/status word [r1] from the command register, stores to the
    register the word [w], which has bits 0 (I/O), 1 (memory) and 2 (bus
    master) set, bit 10 (interrupt disable) clear and every other bit, the
    status half-word in bits 16..31 among them, as in [r1], loads the
    register again ([r2]), reprograms the region for memory access when
    [bar_phys] is not 0, and returns -1 if bit 1 of [r2] is clear and 0
    otherwise.  The history is exactly that of these accesses. *)
Theorem pcie_enable_device_reads_back
    (hw : history -> Z -> Z) (dbi_base cfg_base bar_phys : Z) (h : history) :
  let a := u64 (cfg_base + PCIE_CFG_COMMAND) in
  let m1 := map_cfg hw dbi_base h in
  let r1 := u32 (hw (snd m1) a) in
  let m2 := map_cfg hw dbi_base (snd m1 ++ [EvRead32 a r1]) in
  let w := enable_word r1 in
  let m3 := map_cfg hw dbi_base (snd m2 ++ [EvWrite32 a w]) in
  let r2 := u32 (hw (snd m3) a) in
  let h3 := snd m3 ++ [EvRead32 a r2] in
  let h4 := if bar_phys =? 0 then h3
            else snd (map_mem hw dbi_base bar_phys h3) in
  fst m1 = 0 -> fst m2 = 0 -> fst m3 = 0 ->
  pcie_enable_device hw dbi_base cfg_base bar_phys h
  = ((if Z.testbit r2 1 then 0 else -1), h4) /\
  0 <= w < 2 ^ 32 /\
  (forall i, 16 <= i < 32 -> Z.testbit w i = Z.testbit r1 i) /\
  Z.testbit w 0 = true /\ Z.testbit w 1 = true /\ Z.testbit w 2 = true /\
  Z.testbit w 10 = false /\
  (forall i, 3 <= i < 16 -> i <> 10 -> Z.testbit w i = Z.testbit r1 i).
Proof.
  intros a m1 r1 m2 w m3 r2 h3 h4 H1 H2 H3.
  pose proof (enable_word_bits r1) as Hbits. cbn zeta in Hbits.
  change (forall i, 0 <= i < 32 ->
            Z.testbit w i =
            if (i =? 0) || (i =? 1) || (i =? 2) then true
            else if i =? 10 then false else Z.testbit r1 i) in Hbits.
  split.
  - unfold pcie_enable_device, bind.
    unfold pcie_config_read32 at 1.
    unfold bind, ret, read32, load32.
    fold m1. destruct m1 as [x1 g1] eqn:E1. cbn [fst snd] in *. subst x1.
    cbn [negb Z.eqb andb]. fold a. fold r1.
    change (u32 (Z.lor (Z.shiftl
              (u16 (Z.land (Z.shiftr r1 16) 0xFFFF)) 16)
              (u16 (Z.land
                 (u16 (Z.lor
                    (u16 (Z.lor
                       (u16 (Z.lor (u16 (Z.land r1 0xFFFF))
                          PCIE_CMD_MEM_ENABLE))
                       PCIE_CMD_BUS_MASTER))
                    PCIE_CMD_IO_ENABLE))
                 (Z.lnot PCIE_CMD_INT_DISABLE))))) with w.
    unfold pcie_config_write32, bind, ret, write32, store32, emit.
    fold m2. destruct m2 as [x2 g2] eqn:E2. cbn [fst snd] in *. subst x2.
    cbn [negb Z.eqb andb]. fold a.
    unfold pcie_config_read32, bind, ret, read32, load32.
    fold m3. destruct m3 as [x3 g3] eqn:E3. cbn [fst snd] in *. subst x3.
    cbn [negb Z.eqb andb]. fold a. fold r2. fold h3.
    assert (Hret : (Z.land (u16 (Z.land r2 0xFFFF)) PCIE_CMD_MEM_ENABLE =? 0)
                   = negb (Z.testbit r2 1)).
    { change PCIE_CMD_MEM_ENABLE with (2 ^ 1).
      rewrite land_pow2_eqb by lia. change 0xFFFF with (Z.ones 16).
      rewrite u16_testbit, Z.land_spec, Z.testbit_ones_nonneg by lia.
      change (1 <? 16) with true. rewrite andb_true_r. reflexivity. }
    unfold h4.
    destruct (bar_phys =? 0); cbn [negb].
    + rewrite Hret. destruct (Z.testbit r2 1); reflexivity.
    + destruct (map_mem hw dbi_base bar_phys h3) as [x4 g4]. cbn [snd].
      rewrite Hret. destruct (Z.testbit r2 1); reflexivity.
  - split; [apply u32_range |].
    split.
    { intros i Hi. rewrite Hbits by lia.
      replace (i =? 0) with false by (symmetry; apply Z.eqb_neq; lia).
      replace (i =? 1) with false by (symmetry; apply Z.eqb_neq; lia).
      replace (i =? 2) with false by (symmetry; apply Z.eqb_neq; lia).
      replace (i =? 10) with false by (symmetry; apply Z.eqb_neq; lia).
      reflexivity. }
    split; [rewrite Hbits by lia; reflexivity |].
    split; [rewrite Hbits by lia; reflexivity |].
    split; [rewrite Hbits by lia; reflexivity |].
    split; [rewrite Hbits by lia; reflexivity |].
    intros i Hi Hne. rewrite Hbits by lia.
    replace (i =? 0) with false by (symmetry; apply Z.eqb_neq; lia).
    replace (i =? 1) with false by (symmetry; apply Z.eqb_neq; lia).
    replace (i =? 2) with false by (symmetry; apply Z.eqb_neq; lia).
    replace (i =? 10) with false by (symmetry; apply Z.eqb_neq; lia).
    reflexivity.
Qed.

(** Witness of C9: the endpoint with a command register that is storage,
    behind a region that enables at once, the memory window at 0x100000
    restored after the read-back. *)
Lemma pcie_enable_device_reads_back_witness :
  let hw := hw_storage in
  let a := u64 (0xf3000000 + PCIE_CFG_COMMAND) in
  let m1 := map_cfg hw DBI_BASE [] in
  let r1 := u32 (hw (snd m1) a) in
  let m2 := map_cfg hw DBI_BASE (snd m1 ++ [EvRead32 a r1]) in
  let w := enable_word r1 in
  let m3 := map_cfg hw DBI_BASE (snd m2 ++ [EvWrite32 a w]) in
  let r2 := u32 (hw (snd m3) a) in
  let h3 := snd m3 ++ [EvRead32 a r2] in
  let h4 := if 0x100000 =? 0 then h3
            else snd (map_mem hw DBI_BASE 0x100000 h3) in
  pcie_enable_device hw DBI_BASE 0xf3000000 0x100000 []
  = ((if Z.testbit r2 1 then 0 else -1), h4) /\
  0 <= w < 2 ^ 32 /\
  (forall i, 16 <= i < 32 -> Z.testbit w i = Z.testbit r1 i) /\
  Z.testbit w 0 = true /\ Z.testbit w 1 = true /\ Z.testbit w 2 = true /\
  Z.testbit w 10 = false /\
  (forall i, 3 <= i < 16 -> i <> 10 -> Z.testbit w i = Z.testbit r1 i).
Proof.
  apply (pcie_enable_device_reads_back hw_storage DBI_BASE 0xf3000000
           0x100000 []); vm_compute; reflexivity.
Defined.

(** The run of the witness: the register is loaded (0), 7 is stored to it
    and it is loaded again (7); the result is 0. *)
Example pcie_enable_device_run :
  let a := u64 (0xf3000000 + PCIE_CFG_COMMAND) in
  let '(r, h') :=
    pcie_enable_device hw_storage DBI_BASE 0xf3000000 0x100000 [] in
  r = 0 /\
  accesses a h' = [EvRead32 a 0; EvWrite32 a 7; EvRead32 a 7].
Proof. vm_compute. split; reflexivity. Qed.

(** On [hw_endpoint] the region enables too, but the command register
    reads 0 whatever is stored: the read-back has memory-space-enable
    clear and the result is -1. *)
Example pcie_enable_device_run_fails :
  let a := u64 (0xf3000000 + PCIE_CFG_COMMAND) in
  let '(r, h') :=
    pcie_enable_device hw_endpoint DBI_BASE 0xf3000000 0x100000 [] in
  r = -1 /\
  accesses a h' = [EvRead32 a 0; EvWrite32 a 7; EvRead32 a 0].
Proof. vm_compute. split; reflexivity. Qed.

Section BarProbe.

Variable hw : history -> Z -> Z.
Variables dbi_base cfg_base bar_num : Z.
Variables resp resp_hi : option Z -> Z.
Hypothesis Hdev : bar_probe_device hw dbi_base cfg_base bar_num resp resp_hi.

Lemma map_cfg_ok (h : history) :
  exists v, map_cfg hw dbi_base h = (0, h ++ cfg_events dbi_base v).
Proof using Hdev.
  unfold map_cfg. rewrite dw_pcie_setup_atu_unfold.
  cbn [atu_wait_enable].
  unfold bind, DSB_SY, load32, udelay, emit, ret.
  match goal with
  | |- context [EvRead32 _ ?x] => set (v := x)
  end.
  assert (Hv : Z.testbit v 31 = true).
  { unfold v. rewrite u32_testbit.
    rewrite (atu_enables _ _ _ _ _ _ Hdev). reflexivity. }
  change PCIE_ATU_ENABLE with (2 ^ 31).
  rewrite land_pow2_eqb by lia. rewrite Hv. cbn [negb].
  exists v. unfold cfg_events, atu_poll_ok.
  rewrite <- !app_assoc. reflexivity.
Qed.

Lemma last_write_cfg_events (v a : Z) :
  (forall off, 0 <= off < ATU_REGION_SIZE ->
     atu_reg dbi_base PCIE_ATU_REGION_INDEX1 off <> a) ->
  last_write (cfg_events dbi_base v) a = None.
Proof.
  intros Hout. unfold cfg_events. rewrite last_write_app.
  cbn [atu_poll_ok last_write with_barriers atu_writes flat_map app].
  repeat match goal with
  | |- context [atu_reg dbi_base PCIE_ATU_REGION_INDEX1 ?o =? a] =>
      replace (atu_reg dbi_base PCIE_ATU_REGION_INDEX1 o =? a) with false
        by (symmetry; apply Z.eqb_neq; apply Hout; vm_compute;
            split; congruence)
  end.
  reflexivity.
Qed.

Lemma bar_neq_bar_hi : bar_reg cfg_base bar_num <> bar_hi_reg cfg_base bar_num.
Proof.
  unfold bar_reg, bar_hi_reg. intros He.
  pose proof (u32_range (0x10 + u32 (bar_num * 4))) as Hr.
  set (x := u32 (0x10 + u32 (bar_num * 4))) in *.
  pose proof (u32_range (x + 4)) as Hr'.
  apply u64_add_inj in He; [| lia | lia].
  unfold u32 in He. 
  destruct (Z.lt_ge_cases (x + 4) (2 ^ 32)) as [Hs | Hb].
  - rewrite Z.mod_small in He by lia. lia.
  - replace (x + 4) with ((x + 4 - 2 ^ 32) + 1 * 2 ^ 32) in He by lia.
    rewrite Z.mod_add in He by lia. rewrite Z.mod_small in He by lia. lia.
Qed.

Lemma cfg_read_ok (offset : Z) (h : history) :
  exists v,
    let hm := h ++ cfg_events dbi_base v in
    let a := u64 (cfg_base + offset) in
    pcie_config_read32 hw dbi_base cfg_base 0 offset false h
    = (u32 (hw hm a), hm ++ [EvRead32 a (u32 (hw hm a))]).
Proof using Hdev.
  destruct (map_cfg_ok h) as (v & Hv). exists v. cbn zeta.
  unfold pcie_config_read32, bind, ret, read32, load32.
  rewrite Hv. reflexivity.
Qed.

Lemma cfg_write_ok (offset value : Z) (h : history) :
  exists v,
    pcie_config_write32 hw dbi_base cfg_base 0 offset value false h
    = (tt, (h ++ cfg_events dbi_base v)
           ++ [EvWrite32 (u64 (cfg_base + offset)) value]).
Proof using Hdev.
  destruct (map_cfg_ok h) as (v & Hv). exists v.
  unfold pcie_config_write32, bind, ret, write32, store32, emit.
  rewrite Hv. reflexivity.
Qed.

Lemma last_write_after_map (h : history) (v a : Z) :
  outside_atu dbi_base a ->
  last_write (h ++ cfg_events dbi_base v) a = last_write h a.
Proof.
  intros Hout. rewrite last_write_app, last_write_cfg_events by exact Hout.
  reflexivity.
Qed.

Lemma last_write_after_read (h : history) (a x b : Z) :
  last_write (h ++ [EvRead32 a x]) b = last_write h b.
Proof. rewrite last_write_app. reflexivity. Qed.

Lemma last_write_after_write (h : history) (a x b : Z) :
  last_write (h ++ [EvWrite32 a x]) b
  = if a =? b then Some x else last_write h b.
Proof.
  rewrite last_write_app. cbn [last_write].
  destruct (a =? b); reflexivity.
Qed.

Lemma bar_outside : outside_atu dbi_base (bar_reg cfg_base bar_num).
Proof using Hdev.
  intros off Hoff. apply (bar_outside_atu _ _ _ _ _ _ Hdev off Hoff).
Qed.

Lemma bar_hi_outside : outside_atu dbi_base (bar_hi_reg cfg_base bar_num).
Proof using Hdev.
  intros off Hoff. apply (bar_outside_atu _ _ _ _ _ _ Hdev off Hoff).
Qed.

(** One probe, in terms of what the two registers held before it. *)
Lemma pcie_get_bar_info_run (h : history) :
  let bar := bar_reg cfg_base bar_num in
  let bar_hi := bar_hi_reg cfg_base bar_num in
  let orig := resp (last_write h bar) in
  let rb := resp (Some 0xFFFFFFFF) in
  exists h1,
    pcie_get_bar_info hw dbi_base cfg_base bar_num h
    = ((0, bar_addr_of orig rb (resp_hi (last_write h bar_hi)),
        bar_size_of rb), h1)
    /\ last_write h1 bar = Some orig
    /\ last_write h1 bar_hi = last_write h bar_hi.
Proof using Hdev.
  intros bar bar_hi orig rb.
  pose proof bar_outside as Ho. pose proof bar_hi_outside as Hoh.
  pose proof bar_neq_bar_hi as Hne.
  pose proof (bar_storage _ _ _ _ _ _ Hdev) as Hst.
  pose proof (bar_hi_storage _ _ _ _ _ _ Hdev) as Hsth.
  fold bar in Ho, Hne, Hst. fold bar_hi in Hoh, Hne, Hsth.
  unfold pcie_get_bar_info.
  change (u64 (cfg_base + u32 (0x10 + u32 (bar_num * 4)))) with bar in *.
  set (bar_offset := u32 (0x10 + u32 (bar_num * 4))).
  unfold bind at 1.
  destruct (cfg_read_ok bar_offset h) as (v1 & E1). cbn zeta in E1.
  rewrite E1. clear E1.
  change (u64 (cfg_base + bar_offset)) with bar.
  rewrite Hst, last_write_after_map by exact Ho. fold orig.
  set (h_a := (h ++ cfg_events dbi_base v1) ++ [EvRead32 bar orig]).
  assert (La : last_write h_a bar = last_write h bar).
  { unfold h_a. rewrite last_write_after_read.
    apply last_write_after_map, Ho. }
  assert (Lah : last_write h_a bar_hi = last_write h bar_hi).
  { unfold h_a. rewrite last_write_after_read.
    apply last_write_after_map, Hoh. }
  unfold bind at 1.
  destruct (cfg_write_ok bar_offset 0xFFFFFFFF h_a) as (v2 & E2).
  rewrite E2. clear E2.
  change (u64 (cfg_base + bar_offset)) with bar.
  set (h_b := (h_a ++ cfg_events dbi_base v2) ++ [EvWrite32 bar 0xFFFFFFFF]).
  assert (Lb : last_write h_b bar = Some 0xFFFFFFFF).
  { unfold h_b. rewrite last_write_after_write, Z.eqb_refl. reflexivity. }
  assert (Lbh : last_write h_b bar_hi = last_write h bar_hi).
  { unfold h_b. rewrite last_write_after_write.
    replace (bar =? bar_hi) with false by (symmetry; apply Z.eqb_neq, Hne).
    rewrite last_write_after_map by exact Hoh. exact Lah. }
  unfold bind at 1.
  destruct (cfg_read_ok bar_offset h_b) as (v3 & E3). cbn zeta in E3.
  rewrite E3. clear E3.
  change (u64 (cfg_base + bar_offset)) with bar.
  rewrite Hst, last_write_after_map, Lb by exact Ho. fold rb.
  set (h_c := (h_b ++ cfg_events dbi_base v3) ++ [EvRead32 bar rb]).
  assert (Lch : last_write h_c bar_hi = last_write h bar_hi).
  { unfold h_c. rewrite last_write_after_read.
    rewrite last_write_after_map by exact Hoh. exact Lbh. }
  unfold bind at 1.
  destruct (cfg_write_ok bar_offset orig h_c) as (v4 & E4).
  rewrite E4. clear E4.
  change (u64 (cfg_base + bar_offset)) with bar.
  set (h_d := (h_c ++ cfg_events dbi_base v4) ++ [EvWrite32 bar orig]).
  assert (Ld : last_write h_d bar = Some orig).
  { unfold h_d. rewrite last_write_after_write, Z.eqb_refl. reflexivity. }
  assert (Ldh : last_write h_d bar_hi = last_write h bar_hi).
  { unfold h_d. rewrite last_write_after_write.
    replace (bar =? bar_hi) with false by (symmetry; apply Z.eqb_neq, Hne).
    rewrite last_write_after_map by exact Hoh. exact Lch. }
  unfold bar_addr_of, bar_size_of.
  change 1 with (2 ^ 0) at 1. rewrite land_pow2_eqb by lia.
  rewrite negb_involutive.
  destruct (Z.testbit rb 0).
  - exists h_d. unfold ret. auto.
  - destruct (Z.land orig 6 =? 4).
    + unfold bind.
      destruct (cfg_read_ok (u32 (bar_offset + 4)) h_d) as (v5 & E5).
      cbn zeta in E5. rewrite E5. clear E5.
      change (u64 (cfg_base + u32 (bar_offset + 4))) with bar_hi.
      rewrite Hsth, last_write_after_map, Ldh by exact Hoh.
      eexists. unfold ret. split; [reflexivity |].
      rewrite !last_write_after_read.
      rewrite !last_write_after_map by assumption. auto.
    + exists h_d. unfold ret. auto.
Qed.


End BarProbe.

Lemma hw_endpoint_bar_store_back (o : option Z) :
  endpoint_bar (Some (endpoint_bar o)) = endpoint_bar o.
Proof.
  destruct o as [v |]; [| reflexivity].
  unfold endpoint_bar. apply Z.bits_inj'. intros i Hi.
  rewrite !u32_testbit, !Z.lor_spec, !Z.land_spec, !u32_testbit,
    !Z.lor_spec, !Z.land_spec.
  destruct (i <? 32), (Z.testbit v i), (Z.testbit 0xFFFF0000 i),
    (Z.testbit 4 i); reflexivity.
Qed.

Lemma u32_idem (x : Z) : u32 (u32 x) = u32 x.
Proof. unfold u32. apply Z.mod_mod. lia. Qed.

Lemma hw_endpoint_probe_device :
  bar_probe_device hw_endpoint DBI_BASE 0xf3000000 2
    endpoint_bar endpoint_bar_hi.
Proof.
  constructor.
  - intros h. reflexivity.
  - intros h.
    change (hw_endpoint h (bar_reg 0xf3000000 2))
      with (endpoint_bar (last_write h (bar_reg 0xf3000000 2))).
    destruct (last_write h (bar_reg 0xf3000000 2)); cbn [endpoint_bar];
      [apply u32_idem | reflexivity].
  - apply hw_endpoint_bar_store_back.
  - intros h.
    change (hw_endpoint h (bar_hi_reg 0xf3000000 2))
      with (endpoint_bar_hi (last_write h (bar_hi_reg 0xf3000000 2))).
    destruct (last_write h (bar_hi_reg 0xf3000000 2)); cbn [endpoint_bar_hi];
      [apply u32_idem | reflexivity].
  - intros off Hoff. unfold ATU_REGION_SIZE in Hoff.
    unfold atu_reg.
    change (atu_region_base DBI_BASE PCIE_ATU_REGION_INDEX1)
      with 0xa40f00200.
    change (bar_reg 0xf3000000 2) with 0xf3000018.
    change (bar_hi_reg 0xf3000000 2) with 0xf300001c.
    rewrite u64_small by lia. lia.
Qed.



(** The probe of the witness reports a 64 KB BAR at 0x100000. *)
Example pcie_get_bar_info_endpoint :
  fst (pcie_get_bar_info hw_endpoint DBI_BASE 0xf3000000 2 [])
  = (0, 0x100000, 0x10000).
Proof. vm_compute. reflexivity. Qed.

(** ** The descriptor-ring driver *)

(** Reduce the field accesses and updates of the driver state, and nothing
    else. *)
Ltac nic_fields :=
  cbn [mem hist rx_idx tx_idx rx_ring tx_ring rx_buffers tx_buffers
       rtl_mmio_base rx_desc tx_desc rx_data tx_data status
       set_mem set_hist set_rx_idx set_tx_idx set_rx_desc set_tx_desc
       set_tx_data set_status set_buf_addr_lo set_buf_addr_hi
       log clean_dcache_va_range invalidate_dcache_va_range rtl_write8].

Lemma upd_same {A} (f : Z -> A) (i : Z) (v : A) : upd f i v i = v.
Proof. unfold upd. rewrite Z.eqb_refl. reflexivity. Qed.

Lemma upd_other {A} (f : Z -> A) (i j : Z) (v : A) :
  j <> i -> upd f i v j = f j.
Proof.
  intros Hne. unfold upd.
  destruct (Z.eqb_spec j i) as [-> | _]; [contradiction | reflexivity].
Qed.

Lemma copy_loop_spec (n : nat) (dst src : Z -> Z) (i j : Z) :
  copy_loop dst src i n j =
  if (i <=? j) && (j <? i + Z.of_nat n) then src j else dst j.
Proof.
  revert dst i. induction n as [| n IH]; intros dst i.
  - cbn [copy_loop].
    destruct (Z.leb_spec i j), (Z.ltb_spec j (i + Z.of_nat 0));
      cbn [andb]; try reflexivity; lia.
  - cbn [copy_loop]. rewrite IH. unfold upd.
    destruct (Z.leb_spec (i + 1) j), (Z.ltb_spec j (i + 1 + Z.of_nat n)),
      (Z.leb_spec i j), (Z.ltb_spec j (i + Z.of_nat (S n))),
      (Z.eqb_spec j i); cbn [andb]; subst; try reflexivity; lia.
Qed.

Lemma set_loop_spec (n : nat) (dst : Z -> Z) (i val j : Z) :
  set_loop dst i val n j =
  if (i <=? j) && (j <? i + Z.of_nat n) then u8 val else dst j.
Proof.
  revert dst i. induction n as [| n IH]; intros dst i.
  - cbn [set_loop].
    destruct (Z.leb_spec i j), (Z.ltb_spec j (i + Z.of_nat 0));
      cbn [andb]; try reflexivity; lia.
  - cbn [set_loop]. rewrite IH. unfold upd.
    destruct (Z.leb_spec (i + 1) j), (Z.ltb_spec j (i + 1 + Z.of_nat n)),
      (Z.leb_spec i j), (Z.ltb_spec j (i + Z.of_nat (S n))),
      (Z.eqb_spec j i); cbn [andb]; subst; try reflexivity; lia.
Qed.

Lemma memcpy_local_spec (dst src : Z -> Z) (n j : Z) :
  0 <= n ->
  memcpy_local dst src n j = if (0 <=? j) && (j <? n) then src j else dst j.
Proof.
  intros Hn. unfold memcpy_local. rewrite copy_loop_spec.
  rewrite Z2Nat.id by exact Hn. reflexivity.
Qed.

Lemma memset_local_spec (dst : Z -> Z) (off val n j : Z) :
  0 <= n ->
  memset_local dst off val n j =
  if (off <=? j) && (j <? off + n) then u8 val else dst j.
Proof.
  intros Hn. unfold memset_local. rewrite set_loop_spec.
  rewrite Z2Nat.id by exact Hn. reflexivity.
Qed.

Lemma u32_mod4 (x : Z) : u32 x mod 4 = x mod 4.
Proof.
  unfold u32. apply Z.mod_mod_divide.
  exists (2 ^ 30). reflexivity.
Qed.

Section Rtl8125Properties.

Variable g_cache_line_size : Z.
Variable dma_sync : history -> dma_mem -> dma_mem.

Local Abbreviation recv := (rtl8125_recv_packet g_cache_line_size dma_sync).
Local Abbreviation send := (rtl8125_send_packet g_cache_line_size dma_sync).
Local Abbreviation invalidate := (invalidate_dcache_va_range dma_sync).

Lemma rx_wait_statics (n : nat) (ds dl : Z) (s : nic) :
  let s' := rx_wait dma_sync n ds dl s in
  rx_idx s' = rx_idx s /\ rx_ring s' = rx_ring s /\
  rx_buffers s' = rx_buffers s /\ tx_idx s' = tx_idx s /\
  tx_ring s' = tx_ring s /\ tx_buffers s' = tx_buffers s /\
  rtl_mmio_base s' = rtl_mmio_base s.
Proof.
  revert s. induction n as [| n IH]; intros s; cbn zeta.
  - repeat split; reflexivity.
  - cbn [rx_wait].
    destruct (Z.land _ DESC_OWN =? 0).
    + repeat split; reflexivity.
    + apply (IH (log (EvDelay 10) (invalidate ds dl s))).
Qed.

Lemma rx_poll_rx_idx (t : Z) (s : nic) :
  rx_idx (rx_poll g_cache_line_size dma_sync t s) = rx_idx s.
Proof.
  unfold rx_poll. destruct (desc_range _ _ _) as [ds dl].
  apply rx_wait_statics.
Qed.

Lemma reinit_desc_status (ds dl : Z) (s : nic) :
  status (rx_desc (mem (reinit_desc ds dl s)) (rx_idx s))
  = if rx_idx s =? NUM_RX_DESC - 1 then 0xC0000800 else 0x80000800.
Proof.
  unfold reinit_desc. nic_fields.
  rewrite upd_same. cbn [status].
  destruct (rx_idx s =? NUM_RX_DESC - 1); reflexivity.
Qed.

Lemma reinit_desc_rx_idx (ds dl : Z) (s : nic) :
  rx_idx (reinit_desc ds dl s) = (rx_idx s + 1) mod NUM_RX_DESC.
Proof. unfold reinit_desc. cbn [rx_idx set_rx_idx]. apply u32_mod4. Qed.

Lemma rearmed_status (idx : Z) :
  let st := if idx =? NUM_RX_DESC - 1 then 0xC0000800 else 0x80000800 in
  Z.testbit st 31 = true /\
  Z.land st 0x3FFF = RX_BUF_SIZE /\
  (Z.testbit st 30 = true <-> idx = NUM_RX_DESC - 1).
Proof.
  cbn zeta. destruct (Z.eqb_spec idx (NUM_RX_DESC - 1)) as [He | Hne].
  - repeat split; try reflexivity. intros _. exact He.
  - repeat split; try reflexivity.
    + intros Hc. vm_compute in Hc. discriminate.
    + intros Hc. contradiction.
Qed.

(** C4. Whenever [rtl8125_recv_packet] returns 0 (ownership of the
    current slot was obtained: frame copied out, or error flagged), the
    status of that slot has bit 31 (owned by the device) set and 2048, the
    buffer capacity, in its low 14 bits; bit 30 (end of ring) is set if and
    only if the slot is slot 3, the last of the ring; and the receive index
    is the old one plus one modulo 4. *)
Theorem rtl8125_recv_packet_rearms
    (buffer : Z -> Z) (len timeout_ms : Z) (s : nic) :
  recv_ret (recv buffer len timeout_ms s) = 0 ->
  let s' := recv_state (recv buffer len timeout_ms s) in
  let st := status (rx_desc (mem s') (rx_idx s)) in
  Z.testbit st 31 = true /\
  Z.land st 0x3FFF = RX_BUF_SIZE /\
  (Z.testbit st 30 = true <-> rx_idx s = NUM_RX_DESC - 1) /\
  rx_idx s' = (rx_idx s + 1) mod NUM_RX_DESC.
Proof.
  unfold rtl8125_recv_packet, recv_ret, recv_state.
  destruct ((rx_ring s =? 0) || (rx_buffers s (rx_idx s) =? 0));
    [cbn [fst]; intros; discriminate |].
  destruct (desc_range g_cache_line_size (rx_ring s) (rx_idx s)) as [ds dl].
  pose proof (rx_poll_rx_idx timeout_ms s) as Hidx.
  set (s1 := rx_poll g_cache_line_size dma_sync timeout_ms s) in *.
  set (st := status (rx_desc (mem s1) (rx_idx s1))).
  destruct (negb (Z.land st DESC_OWN =? 0));
    [cbn [fst]; intros; discriminate |].
  destruct (negb (Z.land st 2097152 =? 0)).
  - cbn [fst snd]. intros _.
    rewrite <- Hidx, reinit_desc_status, reinit_desc_rx_idx.
    pose proof (rearmed_status (rx_idx s1)) as H. cbn zeta in H.
    tauto.
  - destruct (buf_range _ _ _) as [bs bl]. cbn [fst snd]. intros _.
    set (s2 := invalidate bs bl s1).
    assert (Hidx2 : rx_idx s2 = rx_idx s) by (rewrite <- Hidx; reflexivity).
    rewrite <- Hidx2, reinit_desc_status, reinit_desc_rx_idx.
    pose proof (rearmed_status (rx_idx s2)) as H. cbn zeta in H.
    tauto.
Qed.

(** C8. When the status the polling loop ends on has the ownership bit
    clear and the error flag (bit 21) set, [rtl8125_recv_packet] returns 0,
    the code of a normal receive, hands back the caller's buffer and the
    output length as they were, and leaves the slot owned by the device
    with the receive index advanced. *)
Theorem rtl8125_recv_packet_error_flagged
    (buffer : Z -> Z) (len timeout_ms : Z) (s : nic) :
  rx_ring s <> 0 ->
  rx_buffers s (rx_idx s) <> 0 ->
  let s1 := rx_poll g_cache_line_size dma_sync timeout_ms s in
  let st := status (rx_desc (mem s1) (rx_idx s)) in
  Z.land st DESC_OWN = 0 ->
  Z.land st 0x00200000 <> 0 ->
  let r := recv buffer len timeout_ms s in
  recv_ret r = 0 /\
  recv_buffer r = buffer /\
  recv_len r = len /\
  Z.testbit (status (rx_desc (mem (recv_state r)) (rx_idx s))) 31 = true /\
  rx_idx (recv_state r) = (rx_idx s + 1) mod NUM_RX_DESC.
Proof.
  intros Hring Hbuf s1 st Hown Herr r.
  assert (Hr : r = (0, buffer, len,
                    reinit_desc (fst (desc_range g_cache_line_size
                                        (rx_ring s) (rx_idx s)))
                      (snd (desc_range g_cache_line_size
                              (rx_ring s) (rx_idx s))) s1)).
  { unfold r, rtl8125_recv_packet.
    apply Z.eqb_neq in Hring, Hbuf. rewrite Hring, Hbuf. cbn [orb].
    destruct (desc_range g_cache_line_size (rx_ring s) (rx_idx s))
      as [ds dl].
    pose proof (rx_poll_rx_idx timeout_ms s) as Hidx0.
    fold s1 in Hidx0 |- *. rewrite Hidx0. fold st.
    apply Z.eqb_eq in Hown. apply Z.eqb_neq in Herr.
    rewrite Hown, Herr. reflexivity. }
  rewrite Hr. unfold recv_ret, recv_buffer, recv_len, recv_state.
  cbn [fst snd].
  pose proof (rx_poll_rx_idx timeout_ms s) as Hidx. fold s1 in Hidx.
  repeat split.
  - rewrite <- Hidx, reinit_desc_status.
    apply (rearmed_status (rx_idx s1)).
  - rewrite reinit_desc_rx_idx, Hidx. reflexivity.
Qed.

Lemma tx_wait_tx_idx (n : nat) (ds dl : Z) (s : nic) :
  tx_idx (tx_wait dma_sync n ds dl s) = tx_idx s.
Proof.
  revert s. induction n as [| n IH]; intros s; [reflexivity |].
  cbn [tx_wait]. destruct (Z.land _ DESC_OWN =? 0); [reflexivity |].
  rewrite IH. reflexivity.
Qed.

Lemma tx_poll_tx_idx (s : nic) :
  tx_idx (tx_poll g_cache_line_size dma_sync s) = tx_idx s.
Proof.
  unfold tx_poll. destruct (desc_range _ _ _) as [ds dl].
  apply tx_wait_tx_idx.
Qed.

Lemma tx_status_bits (pad_len : Z) :
  0 <= pad_len < 2 ^ 14 ->
  let st := Z.lor (Z.lor (Z.lor DESC_OWN DESC_FS) DESC_LS) pad_len in
  Z.testbit st 31 = true /\ Z.testbit st 29 = true /\
  Z.testbit st 28 = true /\ Z.land st 0x3FFF = pad_len.
Proof.
  intros Hp. cbn zeta.
  change (Z.lor (Z.lor DESC_OWN DESC_FS) DESC_LS) with (Z.shiftl 11 28).
  repeat split; try (rewrite Z.lor_spec; reflexivity).
  apply Z.bits_inj'. intros i Hi.
  change 0x3FFF with (Z.ones 14).
  rewrite Z.land_spec, Z.lor_spec, Z.testbit_ones_nonneg by lia.
  destruct (Z.ltb_spec i 14) as [Hlo | Hhi].
  - rewrite Z.shiftl_spec_low by lia. cbn [orb]. apply andb_true_r.
  - rewrite andb_false_r. symmetry.
    destruct (Z.eq_dec pad_len 0) as [-> | Hnz]; [apply Z.bits_0 |].
    apply Z.bits_above_log2; [lia |].
    apply Z.lt_le_trans with 14; [| exact Hhi].
    apply Z.log2_lt_pow2; lia.
Qed.


End Rtl8125Properties.

(** Witness of C4: a good 64-byte frame delivered into slot 0. *)
Lemma rtl8125_recv_packet_rearms_witness :
  let r := rtl8125_recv_packet line64 (dma_done 0x30000040 rx_frame)
             (fun _ => 0) 0 1 nic_init in
  let st := status (rx_desc (mem (recv_state r)) (rx_idx nic_init)) in
  Z.testbit st 31 = true /\
  Z.land st 0x3FFF = RX_BUF_SIZE /\
  (Z.testbit st 30 = true <-> rx_idx nic_init = NUM_RX_DESC - 1) /\
  rx_idx (recv_state r) = (rx_idx nic_init + 1) mod NUM_RX_DESC.
Proof.
  apply (rtl8125_recv_packet_rearms line64 (dma_done 0x30000040 rx_frame)
           (fun _ => 0) 0 1 nic_init).
  vm_compute. reflexivity.
Defined.

(** Witness of C8: a frame flagged in error delivered into slot 0. *)
Lemma rtl8125_recv_packet_error_flagged_witness :
  let r := rtl8125_recv_packet line64 (dma_done 0x30200040 rx_frame)
             payload 7 1 nic_init in
  recv_ret r = 0 /\
  recv_buffer r = payload /\
  recv_len r = 7 /\
  Z.testbit (status (rx_desc (mem (recv_state r)) (rx_idx nic_init))) 31
  = true /\
  rx_idx (recv_state r) = (rx_idx nic_init + 1) mod NUM_RX_DESC.
Proof.
  apply (rtl8125_recv_packet_error_flagged line64
           (dma_done 0x30200040 rx_frame) payload 7 1 nic_init).
  - vm_compute. discriminate.
  - vm_compute. discriminate.
  - vm_compute. reflexivity.
  - vm_compute. discriminate.
Defined.


(** The send of the witness succeeds and moves the transmit index to 1;
    an oversized one is refused. *)
Example rtl8125_send_packet_run :
  fst (rtl8125_send_packet line64 (dma_done 0 rx_frame) payload 32 nic_init)
  = 0 /\
  tx_idx (snd (rtl8125_send_packet line64 (dma_done 0 rx_frame) payload 32
                 nic_init)) = 1 /\
  fst (rtl8125_send_packet line64 dma_idle payload 2049 nic_init) = -1.
Proof. vm_compute. repeat split; reflexivity. Qed.

Section Rtl8125Receive.

Variable g_cache_line_size : Z.
Variable dma_sync : history -> dma_mem -> dma_mem.

Local Abbreviation recv := (rtl8125_recv_packet g_cache_line_size dma_sync).

Lemma rx_wait_no_packet (n : nat) (ds dl : Z) (s : nic) :
  (forall h m, rx_desc (dma_sync h m) (rx_idx s) = rx_desc m (rx_idx s)) ->
  Z.land (status (rx_desc (mem s) (rx_idx s))) DESC_OWN <> 0 ->
  let s' := rx_wait dma_sync n ds dl s in
  rx_desc (mem s') (rx_idx s) = rx_desc (mem s) (rx_idx s) /\
  elapsed_us (hist s') = elapsed_us (hist s) + 10 * Z.of_nat n.
Proof.
  revert s. induction n as [| n IH]; intros s Hkeep Hown; cbn zeta.
  - split; [reflexivity | cbn [rx_wait]; lia].
  - cbn [rx_wait].
    set (s1 := invalidate_dcache_va_range dma_sync ds dl s).
    assert (Hd : rx_desc (mem s1) (rx_idx s1) = rx_desc (mem s) (rx_idx s)).
    { unfold s1. nic_fields. apply Hkeep. }
    rewrite Hd. apply Z.eqb_neq in Hown. rewrite Hown.
    apply Z.eqb_neq in Hown.
    destruct (IH (log (EvDelay 10) s1)) as (IHd & IHt).
    + intros h m. apply Hkeep.
    + change (Z.land (status (rx_desc (mem s1) (rx_idx s1))) DESC_OWN <> 0).
      rewrite Hd. exact Hown.
    + split.
      * change (rx_idx s) with (rx_idx (log (EvDelay 10) s1)) at 1.
        rewrite IHd. exact Hd.
      * rewrite IHt. unfold s1. nic_fields.
        rewrite !elapsed_us_app. cbn [elapsed_us]. lia.
Qed.

(** X19. The no-packet path: when the device leaves the current
    slot's descriptor alone and the slot is owned by the device,
    [rtl8125_recv_packet] returns -1 with the caller's buffer, the output
    length, the slot's descriptor and the receive index as they were, after
    [10 * ((timeout_ms * 100) mod 2^32)] microseconds of delay, which is
    [timeout_ms] milliseconds when the product does not wrap. *)
Lemma rtl8125_recv_packet_no_packet
    (buffer : Z -> Z) (len timeout_ms : Z) (s : nic) :
  rx_ring s <> 0 ->
  rx_buffers s (rx_idx s) <> 0 ->
  (forall h m, rx_desc (dma_sync h m) (rx_idx s) = rx_desc m (rx_idx s)) ->
  Z.land (status (rx_desc (mem s) (rx_idx s))) DESC_OWN <> 0 ->
  let r := recv buffer len timeout_ms s in
  recv_ret r = -1 /\
  recv_buffer r = buffer /\
  recv_len r = len /\
  rx_desc (mem (recv_state r)) (rx_idx s) = rx_desc (mem s) (rx_idx s) /\
  rx_idx (recv_state r) = rx_idx s /\
  elapsed_us (hist (recv_state r))
  = elapsed_us (hist s) + 10 * u32 (timeout_ms * 100) /\
  (0 <= timeout_ms * 100 < 2 ^ 32 ->
   elapsed_us (hist (recv_state r)) = elapsed_us (hist s) + 1000 * timeout_ms).
Proof.
  intros Hring Hbuf Hkeep Hown r.
  pose proof (rx_poll_rx_idx g_cache_line_size dma_sync timeout_ms s) as Hidx.
  assert (Hpoll :
    let s1 := rx_poll g_cache_line_size dma_sync timeout_ms s in
    rx_desc (mem s1) (rx_idx s) = rx_desc (mem s) (rx_idx s) /\
    elapsed_us (hist s1) = elapsed_us (hist s) + 10 * u32 (timeout_ms * 100)).
  { cbn zeta. unfold rx_poll. destruct (desc_range _ _ _) as [ds dl].
    destruct (rx_wait_no_packet (Z.to_nat (u32 (timeout_ms * 100))) ds dl s
                Hkeep Hown) as (Hd & Ht).
    split; [exact Hd |]. rewrite Ht, Z2Nat.id; [reflexivity |].
    apply u32_range. }
  cbn zeta in Hpoll. destruct Hpoll as (Hd & Ht).
  assert (Hr : r = (-1, buffer, len,
                    rx_poll g_cache_line_size dma_sync timeout_ms s)).
  { unfold r, rtl8125_recv_packet.
    apply Z.eqb_neq in Hring, Hbuf. rewrite Hring, Hbuf. cbn [orb].
    destruct (desc_range _ _ _) as [ds dl].
    rewrite Hidx, Hd. apply Z.eqb_neq in Hown. rewrite Hown. reflexivity. }
  rewrite Hr. unfold recv_ret, recv_buffer, recv_len, recv_state.
  cbn [fst snd]. repeat split; try assumption.
  intros Hsmall. rewrite Ht, u32_small by exact Hsmall. lia.
Qed.

(** X20. The copy: when the status the polling loop ends on has
    the ownership and error bits clear and a length field of at least 4,
    the length handed back is the field minus 4, at most 2048, and the
    caller's buffer receives that many bytes of the slot's buffer as it is
    after the invalidate, the rest of it unchanged. *)
Lemma rtl8125_recv_packet_copies
    (buffer : Z -> Z) (len timeout_ms : Z) (s : nic) :
  rx_ring s <> 0 ->
  rx_buffers s (rx_idx s) <> 0 ->
  let s1 := rx_poll g_cache_line_size dma_sync timeout_ms s in
  let st := status (rx_desc (mem s1) (rx_idx s)) in
  Z.land st DESC_OWN = 0 ->
  Z.land st 0x00200000 = 0 ->
  4 <= Z.land st 0x3FFF ->
  let n := Z.min (Z.land st 0x3FFF - 4) RX_BUF_SIZE in
  let '(bs, bl) :=
    buf_range g_cache_line_size (rx_buffers s1 (rx_idx s)) n in
  let s2 := invalidate_dcache_va_range dma_sync bs bl s1 in
  let r := recv buffer len timeout_ms s in
  recv_ret r = 0 /\
  recv_len r = n /\
  forall j, recv_buffer r j =
            if (0 <=? j) && (j <? n) then rx_data (mem s2) (rx_idx s) j
            else buffer j.
Proof.
  intros Hring Hbuf s1 st Hown Herr Hfield n.
  pose proof (rx_poll_rx_idx g_cache_line_size dma_sync timeout_ms s) as Hidx.
  fold s1 in Hidx.
  assert (Hf : 0 <= Z.land st 0x3FFF < 2 ^ 14).
  { change 0x3FFF with (Z.ones 14). rewrite Z.land_ones by lia.
    apply Z.mod_pos_bound. lia. }
  assert (Hn : rx_pkt_len st = n).
  { unfold rx_pkt_len, n, RX_BUF_SIZE. rewrite u32_small by lia.
    destruct (Z.gtb_spec (Z.land st 0x3FFF - 4) 2048); lia. }
  destruct (buf_range g_cache_line_size (rx_buffers s1 (rx_idx s)) n)
    as [bs bl] eqn:Hrange.
  intros s2 r.
  assert (Hr : r = (0, memcpy_local buffer (rx_data (mem s2) (rx_idx s)) n, n,
                    reinit_desc
                      (fst (desc_range g_cache_line_size (rx_ring s) (rx_idx s)))
                      (snd (desc_range g_cache_line_size (rx_ring s) (rx_idx s)))
                      s2)).
  { unfold r, rtl8125_recv_packet.
    apply Z.eqb_neq in Hring, Hbuf. rewrite Hring, Hbuf. cbn [orb].
    destruct (desc_range _ _ _) as [ds dl].
    fold s1. rewrite Hidx. fold st.
    apply Z.eqb_eq in Hown, Herr. rewrite Hown, Herr. cbn [negb].
    rewrite Hn, Hrange.
    change (rx_idx (invalidate_dcache_va_range dma_sync bs bl s1))
      with (rx_idx s1).
    rewrite Hidx. reflexivity. }
  rewrite Hr. unfold recv_ret, recv_buffer, recv_len. cbn [fst snd].
  repeat split. intros j. apply memcpy_local_spec.
  unfold n, RX_BUF_SIZE. lia.
Qed.

End Rtl8125Receive.

(** C6 at timeout_ms = 42949673: [timeout_ms * 100] wraps to 4 in 32 bits,
    so on a ring whose current slot stays owned by the device the call
    gives up (-1) after 4 polls and 40 microseconds of delay, long before
    the 42949673 ms asked for. *)
Theorem rtl8125_recv_packet_timeout_wraps :
  let r := rtl8125_recv_packet line64 dma_idle (fun _ => 0) 0 42949673
             nic_init in
  recv_ret r = -1 /\
  elapsed_us (hist (recv_state r)) = 40 /\
  length (filter is_delay (hist (recv_state r))) = 4%nat /\
  40 < 42949673 * 1000.
Proof. vm_compute. repeat split; reflexivity. Qed.

(** C7 at a status word 0x30000002 (ownership and error bits clear, length
    field 2): [2 - 4] wraps to 0xFFFFFFFE in 32 bits and is clamped to
    2048, so the call hands back a length of 2048 and copies 2048 bytes of
    the slot's buffer. *)
Theorem rtl8125_recv_packet_short_frame :
  let r := rtl8125_recv_packet line64 (dma_done 0x30000002 rx_frame)
             (fun _ => 0) 0 1 nic_init in
  recv_ret r = 0 /\
  Z.land 0x30000002 0x3FFF = 2 /\
  recv_len r = 2048 /\
  recv_buffer r 2 = rx_frame 2 /\
  recv_buffer r 2047 = rx_frame 2047 /\
  recv_buffer r 2048 = 0.
Proof. vm_compute. repeat split; reflexivity. Qed.

(** ** Byte order *)

Ltac ltb_true a b :=
  replace (a <? b) with true by (symmetry; apply Z.ltb_lt; lia).
Ltac ltb_false a b :=
  replace (a <? b) with false by (symmetry; apply Z.ltb_ge; lia).

(** Push [Z.testbit] through the bitwise operations. *)
Ltac bits_rewrite :=
  repeat first
    [ rewrite u32_testbit | rewrite u16_testbit
    | rewrite Z.lor_spec | rewrite Z.land_spec
    | rewrite Z.shiftr_spec by lia
    | rewrite Z.shiftl_spec_low by lia
    | rewrite Z.shiftl_spec by lia
    | rewrite Z.testbit_ones_nonneg by lia ].

(** Decide the comparisons on the bit index that remain. *)
Ltac bits_decide :=
  repeat match goal with
  | |- context [?a <? ?b] => first [ltb_true a b | ltb_false a b]
  end;
  cbn [andb orb negb];
  rewrite ?andb_true_r, ?andb_false_r, ?orb_false_r, ?orb_true_r;
  cbn [andb orb negb];
  try reflexivity;
  try (f_equal; lia).

Lemma htons_testbit (x i : Z) :
  0 <= i ->
  Z.testbit (htons x) i =
  if i <? 8 then Z.testbit x (i + 8)
  else if i <? 16 then Z.testbit x (i - 8)
  else false.
Proof.
  intros Hi. unfold htons. cbn zeta.
  change 0xFF with (Z.ones 8).
  assert (Hc : i < 8 \/ 8 <= i < 16 \/ 16 <= i) by lia.
  destruct Hc as [Hc | [Hc | Hc]];
    bits_rewrite; bits_decide.
Qed.

Lemma htonl_testbit (x i : Z) :
  0 <= i ->
  Z.testbit (htonl x) i =
  if i <? 8 then Z.testbit x (i + 24)
  else if i <? 16 then Z.testbit x (i + 8)
  else if i <? 24 then Z.testbit x (i - 8)
  else if i <? 32 then Z.testbit x (i - 24)
  else false.
Proof.
  intros Hi. unfold htonl. cbn zeta.
  change 0xFF00 with (Z.shiftl (Z.ones 8) 8).
  change 0xFF with (Z.ones 8).
  assert (Hc : i < 8 \/ 8 <= i < 16 \/ 16 <= i < 24 \/ 24 <= i < 32 \/ 32 <= i)
    by lia.
  destruct Hc as [Hc | [Hc | [Hc | [Hc | Hc]]]];
    bits_rewrite; bits_decide.
Qed.

(** X1. [htons] exchanges the two bytes of the low 16 bits of its argument
    (byte [k] of the result is byte [1 - k] of the argument), its result
    fits 16 bits, and [ntohs] undoes it: [ntohs (htons x)] is [x] truncated
    to 16 bits. *)
Theorem ntohs_htons (x : Z) :
  ntohs (htons x) = u16 x /\
  0 <= htons x < 2 ^ 16 /\
  forall k j, 0 <= k < 2 -> 0 <= j < 8 ->
    Z.testbit (htons x) (8 * k + j) = Z.testbit x (8 * (1 - k) + j).
Proof.
  split; [| split].
  - unfold ntohs. apply Z.bits_inj'. intros i Hi.
    rewrite htons_testbit by exact Hi.
    rewrite u16_testbit.
    assert (Hc : i < 8 \/ 8 <= i < 16 \/ 16 <= i) by lia.
    destruct Hc as [Hc | [Hc | Hc]];
      rewrite ?htons_testbit by lia; bits_decide.
  - unfold htons. cbn zeta. apply Z.mod_pos_bound. lia.
  - intros k j Hk Hj. rewrite htons_testbit by lia.
    assert (Hc : k = 0 \/ k = 1) by lia.
    destruct Hc as [-> | ->]; bits_decide.
Qed.

(** X2. [htonl] reverses the four bytes of the low 32 bits of its argument
    (byte [k] of the result is byte [3 - k] of the argument), its result
    fits 32 bits, and [ntohl] undoes it: [ntohl (htonl x)] is [x] truncated
    to 32 bits. *)
Theorem ntohl_htonl (x : Z) :
  ntohl (htonl x) = u32 x /\
  0 <= htonl x < 2 ^ 32 /\
  forall k j, 0 <= k < 4 -> 0 <= j < 8 ->
    Z.testbit (htonl x) (8 * k + j) = Z.testbit x (8 * (3 - k) + j).
Proof.
  split; [| split].
  - unfold ntohl. apply Z.bits_inj'. intros i Hi.
    rewrite htonl_testbit by exact Hi.
    rewrite u32_testbit.
    assert (Hc : i < 8 \/ 8 <= i < 16 \/ 16 <= i < 24 \/ 24 <= i < 32
                 \/ 32 <= i) by lia.
    destruct Hc as [Hc | [Hc | [Hc | [Hc | Hc]]]];
      rewrite ?htonl_testbit by lia; bits_decide.
  - unfold htonl. cbn zeta. apply u32_range.
  - intros k j Hk Hj. rewrite htonl_testbit by lia.
    assert (Hc : k = 0 \/ k = 1 \/ k = 2 \/ k = 3) by lia.
    destruct Hc as [-> | [-> | [-> | ->]]]; bits_decide.
Qed.

(** ** The Internet checksum *)


Lemma shiftr16_eqb (s : Z) : 0 <= s -> (Z.shiftr s 16 =? 0) = (s <? 65536).
Proof.
  intros Hs. rewrite Z.shiftr_div_pow2 by lia. change (2 ^ 16) with 65536.
  destruct (Z.ltb_spec s 65536) as [Hlt | Hge].
  - apply Z.eqb_eq. apply Z.div_small. lia.
  - apply Z.eqb_neq. intros H0.
    pose proof (Z.div_le_mono 65536 s 65536 ltac:(lia) Hge) as Hd.
    rewrite Z.div_same in Hd by lia. lia.
Qed.

Lemma cksum_fold_small (fuel : nat) (s : Z) :
  0 <= s < 65536 -> cksum_fold fuel s = s.
Proof.
  intros Hs. destruct fuel as [| fuel]; [reflexivity |].
  cbn [cksum_fold]. rewrite shiftr16_eqb by lia.
  replace (s <? 65536) with true by (symmetry; apply Z.ltb_lt; lia).
  reflexivity.
Qed.

Lemma cksum_fold_step (fuel : nat) (s : Z) :
  65536 <= s < 2 ^ 32 ->
  cksum_fold (S fuel) s = cksum_fold fuel (s mod 65536 + s / 65536).
Proof.
  intros Hs. cbn [cksum_fold]. rewrite shiftr16_eqb by lia.
  replace (s <? 65536) with false by (symmetry; apply Z.ltb_ge; lia).
  cbn [negb]. change 0xFFFF with (Z.ones 16).
  rewrite Z.land_ones, Z.shiftr_div_pow2 by lia.
  change (2 ^ 16) with 65536.
  pose proof (Z.mod_pos_bound s 65536 ltac:(lia)) as Hm.
  assert (Hd : 0 <= s / 65536 < 65536).
  { split; [apply Z.div_pos; lia | apply Z.div_lt_upper_bound; lia]. }
  rewrite u32_small by lia. reflexivity.
Qed.

Lemma fold_congr (s : Z) :
  (s mod 65536 + s / 65536) mod 65535 = s mod 65535.
Proof.
  rewrite (Z.div_mod s 65536) at 3 by lia.
  replace (65536 * (s / 65536) + s mod 65536)
    with ((s mod 65536 + s / 65536) + (s / 65536) * 65535) by lia.
  rewrite Z.mod_add by lia. reflexivity.
Qed.

Lemma cksum_fold_spec (fuel : nat) (s : Z) :
  (2 <= fuel)%nat ->
  0 <= s < 2 ^ 32 ->
  let r := cksum_fold fuel s in
  0 <= r < 65536 /\ r mod 65535 = s mod 65535 /\ (0 < s -> 0 < r).
Proof.
  intros Hfuel Hs. cbn zeta.
  destruct fuel as [| [| fuel]]; try lia.
  destruct (Z.lt_ge_cases s 65536) as [Hlt | Hge].
  - rewrite cksum_fold_small by lia. repeat split; lia.
  - rewrite cksum_fold_step by lia.
    pose proof (Z.mod_pos_bound s 65536 ltac:(lia)) as Hm.
    assert (Hd : 1 <= s / 65536 < 65536).
    { split; [| apply Z.div_lt_upper_bound; lia].
      pose proof (Z.div_le_mono 65536 s 65536 ltac:(lia) Hge) as Hd.
      rewrite Z.div_same in Hd by lia. lia. }
    pose proof (fold_congr s) as Hc.
    set (s1 := s mod 65536 + s / 65536) in *.
    destruct (Z.lt_ge_cases s1 65536) as [Hlt1 | Hge1].
    + rewrite cksum_fold_small by lia. repeat split; lia.
    + rewrite cksum_fold_step by lia.
      pose proof (fold_congr s1) as Hc1.
      assert (Hd1 : s1 / 65536 = 1).
      { symmetry. apply (Z.div_unique s1 65536 1 (s1 - 65536)); lia. }
      assert (Hm1 : s1 mod 65536 = s1 - 65536).
      { symmetry. apply (Z.mod_unique s1 65536 1 (s1 - 65536)); lia. }
      rewrite Hd1, Hm1 in *.
      rewrite cksum_fold_small by lia. repeat split; lia.
Qed.

Lemma word_sum_bound (word : Z -> Z) (i : Z) (n : nat) :
  0 <= word_sum word i n <= 65535 * Z.of_nat n.
Proof.
  revert i. induction n as [| n IH]; intros i.
  - cbn [word_sum]. lia.
  - cbn [word_sum]. specialize (IH (i + 1)).
    pose proof (Z.mod_pos_bound (word i) (2 ^ 16) ltac:(lia)) as Hw.
    fold (u16 (word i)) in Hw. lia.
Qed.

Lemma word_sum_upd_out (word : Z -> Z) (k v i : Z) (n : nat) :
  k < i \/ i + Z.of_nat n <= k ->
  word_sum (upd word k v) i n = word_sum word i n.
Proof.
  revert i. induction n as [| n IH]; intros i Hk; [reflexivity |].
  cbn [word_sum]. rewrite IH by lia. rewrite upd_other by lia. reflexivity.
Qed.

Lemma word_sum_upd_in (word : Z -> Z) (k v i : Z) (n : nat) :
  i <= k < i + Z.of_nat n ->
  word_sum (upd word k v) i n = word_sum (upd word k 0) i n + u16 v.
Proof.
  revert i. induction n as [| n IH]; intros i Hk; [lia |].
  cbn [word_sum].
  destruct (Z.eq_dec i k) as [-> | Hne].
  - rewrite !upd_same, !word_sum_upd_out by lia.
    change (u16 0) with 0. lia.
  - rewrite IH by lia. rewrite !upd_other by lia. lia.
Qed.

Lemma cksum_words_spec (fuel : nat) (word : Z -> Z) (i len sum : Z) :
  0 <= len ->
  (Z.to_nat (len / 2) <= fuel)%nat ->
  0 <= sum ->
  sum + word_sum word i (Z.to_nat (len / 2)) < 2 ^ 32 ->
  cksum_words fuel word i len sum =
  (i + len / 2, len mod 2, sum + word_sum word i (Z.to_nat (len / 2))).
Proof.
  revert i len sum. induction fuel as [| fuel IH]; intros i len sum Hlen Hfuel Hsum Hno.
  - assert (Hd : len / 2 = 0).
    { pose proof (Z.div_pos len 2 Hlen ltac:(lia)). lia. }
    assert (Hl : len < 2).
    { destruct (Z.lt_ge_cases len 2) as [H | H]; [exact H |].
      pose proof (Z.div_le_mono 2 len 2 ltac:(lia) H) as Hd'.
      rewrite Z.div_same in Hd' by lia. lia. }
    cbn [cksum_words]. rewrite Hd. cbn [Z.to_nat word_sum].
    rewrite Z.mod_small by lia. f_equal; [f_equal |]; lia.
  - cbn [cksum_words].
    destruct (Z.gtb_spec len 1) as [Hgt | Hle].
    + assert (Hd : (len - 2) / 2 = len / 2 - 1).
      { replace (len - 2) with (len + (-1) * 2) by lia.
        rewrite Z.div_add by lia. lia. }
      assert (Hm : (len - 2) mod 2 = len mod 2).
      { replace (len - 2) with (len + (-1) * 2) by lia.
        apply Z.mod_add. lia. }
      assert (Hp : 1 <= len / 2).
      { pose proof (Z.div_le_mono 2 len 2 ltac:(lia) ltac:(lia)) as Hd'.
        rewrite Z.div_same in Hd' by lia. exact Hd'. }
      assert (Hn : Z.to_nat (len / 2) = S (Z.to_nat (len / 2 - 1))).
      { rewrite <- Z2Nat.inj_succ by lia. f_equal. lia. }
      rewrite Hn in Hno, Hfuel |- *. cbn [word_sum] in Hno |- *.
      pose proof (word_sum_bound word (i + 1) (Z.to_nat (len / 2 - 1))) as Hb.
      pose proof (Z.mod_pos_bound (word i) (2 ^ 16) ltac:(lia)) as Hw.
      fold (u16 (word i)) in Hw.
      rewrite u32_small by lia.
      rewrite IH; rewrite ?Hd, ?Hm; try lia.
      f_equal; [f_equal |]; lia.
    + assert (Hd : len / 2 = 0) by (apply Z.div_small; lia).
      rewrite Hd. cbn [Z.to_nat word_sum].
      rewrite Z.mod_small by lia. f_equal; [f_equal |]; lia.
Qed.

Lemma cksum_total_bound (word byte : Z -> Z) (len : Z) :
  0 <= len <= 131072 ->
  0 <= cksum_total word byte len < 2 ^ 32.
Proof.
  intros Hlen. unfold cksum_total.
  pose proof (word_sum_bound word 0 (Z.to_nat (len / 2))) as Hb.
  assert (Hd : 0 <= len / 2 <= 65536).
  { split; [apply Z.div_pos; lia |].
    apply Z.div_le_upper_bound; lia. }
  rewrite Z2Nat.id in Hb by lia.
  pose proof (Z.mod_pos_bound (byte (len - 1)) (2 ^ 8) ltac:(lia)) as Hy.
  fold (u8 (byte (len - 1))) in Hy.
  destruct (len mod 2 =? 1); lia.
Qed.

Lemma not32_u16 (r : Z) : 0 <= r < 65536 -> u16 (not32 r) = 65535 - r.
Proof.
  intros Hr. unfold not32, u16, u32, Z.lnot, Z.pred.
  rewrite Z.mod_mod_divide by (exists (2 ^ 16); reflexivity).
  replace (- r + -1) with ((65535 - r) + (-1) * 2 ^ 16) by lia.
  rewrite Z.mod_add by lia. apply Z.mod_small. lia.
Qed.

Lemma ip_checksum_value (word byte : Z -> Z) (len : Z) :
  0 <= len <= 131072 ->
  ip_checksum word byte len
  = 65535 - cksum_fold 32 (cksum_total word byte len).
Proof.
  intros Hlen. unfold ip_checksum.
  pose proof (cksum_total_bound word byte len Hlen) as Ht.
  unfold cksum_total in Ht |- *.
  pose proof (word_sum_bound word 0 (Z.to_nat (len / 2))) as Hb.
  assert (Hd : 0 <= len / 2 <= len).
  { split; [apply Z.div_pos; lia |].
    apply Z.div_le_upper_bound; lia. }
  pose proof (Z.mod_pos_bound (byte (len - 1)) (2 ^ 8) ltac:(lia)) as Hy.
  fold (u8 (byte (len - 1))) in Hy.
  assert (Hws : word_sum word 0 (Z.to_nat (len / 2)) < 2 ^ 32)
    by (destruct (len mod 2 =? 1); lia).
  rewrite cksum_words_spec;
    [| lia | apply Z2Nat.inj_le; lia | lia | lia].
  replace (0 + word_sum word 0 (Z.to_nat (len / 2)))
    with (word_sum word 0 (Z.to_nat (len / 2))) by lia.
  assert (Hidx : len mod 2 = 1 -> 2 * (0 + len / 2) = len - 1).
  { intros Hodd. pose proof (Z.div_mod len 2 ltac:(lia)). lia. }
  destruct (Z.eqb_spec (len mod 2) 1) as [Hodd | Heven].
  - rewrite (Hidx Hodd). rewrite u32_small by lia.
    apply not32_u16.
    apply (cksum_fold_spec 32); [lia | lia].
  - rewrite Z.add_0_r. apply not32_u16.
    apply (cksum_fold_spec 32); [lia | lia].
Qed.

(** X3. A checksum stored in its field verifies: when the 16-bit word at
    index [k] of the data is the checksum field, the checksum computed with
    the field zeroed and then stored in the field makes the checksum of the
    whole data 0 (for up to 131072 bytes, over which the 32-bit sum cannot
    wrap). *)
Theorem ip_checksum_verifies (word byte : Z -> Z) (len k : Z) :
  0 <= len <= 131072 ->
  0 <= k ->
  2 * k + 1 < len ->
  let c := ip_checksum (upd word k 0) byte len in
  0 <= c < 65536 /\ ip_checksum (upd word k c) byte len = 0.
Proof.
  intros Hlen Hk Hin. cbn zeta.
  rewrite !ip_checksum_value by exact Hlen.
  pose proof (cksum_total_bound (upd word k 0) byte len Hlen) as Ht0.
  destruct (cksum_fold_spec 32 _ ltac:(lia) Ht0) as (Hr0 & Hc0 & Hp0).
  set (S0 := cksum_total (upd word k 0) byte len) in *.
  set (r0 := cksum_fold 32 S0) in *.
  split; [lia |].
  pose proof (cksum_total_bound (upd word k (65535 - r0)) byte len Hlen) as Ht1.
  destruct (cksum_fold_spec 32 _ ltac:(lia) Ht1) as (Hr1 & Hc1 & Hp1).
  assert (HS1 : cksum_total (upd word k (65535 - r0)) byte len
                = S0 + (65535 - r0)).
  { unfold S0, cksum_total. rewrite word_sum_upd_in.
    - unfold u16. rewrite Z.mod_small by lia. lia.
    - assert (Hd : k < len / 2).
      { destruct (Z.lt_ge_cases k (len / 2)) as [H | H]; [exact H |].
        pose proof (Z.mul_div_le len 2 ltac:(lia)).
        pose proof (Z.div_mod len 2 ltac:(lia)).
        pose proof (Z.mod_pos_bound len 2 ltac:(lia)). lia. }
      rewrite Z2Nat.id; [lia |]. apply Z.div_pos; lia. }
  rewrite HS1 in *.
  set (r1 := cksum_fold 32 (S0 + (65535 - r0))) in *.
  assert (Hz : r1 mod 65535 = 0).
  { rewrite Hc1.
    rewrite <- Zplus_mod_idemp_l, <- Hc0, Zplus_mod_idemp_l.
    replace (r0 + (65535 - r0)) with (0 + 1 * 65535) by lia.
    rewrite Z.mod_add by lia. reflexivity. }
  assert (Hpos : 0 < r1).
  { apply Hp1. destruct (Z.eq_dec r0 65535) as [He | Hne]; [| lia].
    assert (0 < S0); [| lia].
    destruct (Z.eq_dec S0 0) as [Hs | Hs]; [| lia].
    exfalso. unfold r0 in He. rewrite Hs in He. vm_compute in He. discriminate. }
  apply Z.mod_divide in Hz; [| lia]. destruct Hz as [q Hq]. nia.
Qed.

Lemma ip_checksum_verifies_witness :
  let c := ip_checksum (upd cksum_words_sample 5 0) payload 20 in
  0 <= c < 65536 /\
  ip_checksum (upd cksum_words_sample 5 c) payload 20 = 0.
Proof.
  apply (ip_checksum_verifies cksum_words_sample payload 20 5); lia.
Defined.

(** X4. The result of [ip_checksum] is the 16-bit ones' complement of the
    ones' complement sum of the data: it fits 16 bits, added to the plain
    sum of the 16-bit words (and of the last byte of an odd length) it gives
    a multiple of 0xFFFF, and it is 0xFFFF exactly when that sum is 0 (for
    up to 131072 bytes). *)
Theorem ip_checksum_complement (word byte : Z -> Z) (len : Z) :
  0 <= len <= 131072 ->
  let c := ip_checksum word byte len in
  let t := cksum_total word byte len in
  0 <= c < 65536 /\ (c + t) mod 65535 = 0 /\ (c = 65535 <-> t = 0).
Proof.
  intros Hlen. cbn zeta.
  rewrite ip_checksum_value by exact Hlen.
  pose proof (cksum_total_bound word byte len Hlen) as Ht.
  destruct (cksum_fold_spec 32 _ ltac:(lia) Ht) as (Hr & Hc & Hp).
  set (t := cksum_total word byte len) in *.
  set (r := cksum_fold 32 t) in *.
  split; [lia |]. split.
  - pose proof (Z.div_mod t 65535 ltac:(lia)) as Hdt.
    pose proof (Z.div_mod r 65535 ltac:(lia)) as Hdr.
    replace (65535 - r + t)
      with ((1 + t / 65535 - r / 65535) * 65535) by lia.
    apply Z.mod_mul. lia.
  - split; intros H.
    + destruct (Z.eq_dec t 0) as [Hz | Hnz]; [exact Hz |].
      assert (0 < r) by (apply Hp; lia). lia.
    + unfold r. rewrite H. reflexivity.
Qed.

Lemma ip_checksum_complement_witness :
  let c := ip_checksum cksum_words_sample payload 21 in
  let t := cksum_total cksum_words_sample payload 21 in
  0 <= c < 65536 /\ (c + t) mod 65535 = 0 /\ (c = 65535 <-> t = 0).
Proof.
  apply (ip_checksum_complement cksum_words_sample payload 21); lia.
Defined.

(** X5. On an empty buffer, and for a length that is 0 or negative,
    [ip_checksum] reads nothing and returns 0xFFFF. *)
Theorem ip_checksum_empty (word byte : Z -> Z) (len : Z) :
  len <= 0 -> ip_checksum word byte len = 0xFFFF.
Proof.
  intros Hlen. unfold ip_checksum.
  replace (Z.to_nat len) with O by lia.
  cbn [cksum_words].
  replace (len =? 1) with false by (symmetry; apply Z.eqb_neq; lia).
  reflexivity.
Qed.

Lemma ip_checksum_empty_witness :
  ip_checksum cksum_words_sample payload 0 = 0xFFFF.
Proof.
  apply (ip_checksum_empty cksum_words_sample payload 0). lia.
Defined.


(** ** The ATU window manager and the accessors on any device *)

Section AtuMore.

Variable hw : history -> Z -> Z.

Lemma atu_wait_enable_never (n : nat) (c : Z) (h : history) :
  (forall h0, Z.testbit (hw h0 c) 31 = false) ->
  fst (atu_wait_enable hw n c h) = -1.
Proof.
  intros Hnever. revert h. induction n as [| n IH]; intros h; [reflexivity |].
  cbn [atu_wait_enable]. unfold bind, DSB_SY, load32, udelay, emit, ret.
  change PCIE_ATU_ENABLE with (2 ^ 31).
  rewrite land_pow2_eqb, u32_testbit, Hnever by lia.
  cbn [andb negb]. apply IH.
Qed.

Lemma setup_atu_never
    (dbi_base region_index type cpu_addr pci_addr size : Z) (h : history) :
  (forall h0,
     Z.testbit (hw h0 (atu_reg dbi_base region_index ATU_REGION_CTRL2)) 31
     = false) ->
  fst (dw_pcie_setup_atu hw dbi_base region_index type cpu_addr pci_addr
         size h) = -1.
Proof.
  intros Hnever. rewrite dw_pcie_setup_atu_unfold.
  apply atu_wait_enable_never, Hnever.
Qed.

Lemma setup_atu_enabled
    (dbi_base region_index type cpu_addr pci_addr size : Z) (h : history) :
  (forall h0,
     Z.testbit (hw h0 (atu_reg dbi_base region_index ATU_REGION_CTRL2)) 31
     = true) ->
  exists v,
    dw_pcie_setup_atu hw dbi_base region_index type cpu_addr pci_addr size h
    = (0, h ++ with_barriers
                 (atu_writes dbi_base region_index type cpu_addr pci_addr
                    size)
            ++ atu_poll_ok (atu_reg dbi_base region_index ATU_REGION_CTRL2) v).
Proof.
  intros Hen. rewrite dw_pcie_setup_atu_unfold.
  cbn [atu_wait_enable]. unfold bind, DSB_SY, load32, udelay, emit, ret.
  match goal with
  | |- context [EvRead32 _ ?x] => set (v := x)
  end.
  assert (Hv : Z.testbit v 31 = true).
  { unfold v. rewrite u32_testbit, Hen. reflexivity. }
  change PCIE_ATU_ENABLE with (2 ^ 31).
  rewrite land_pow2_eqb by lia. rewrite Hv. cbn [negb].
  exists v. unfold atu_poll_ok. rewrite <- !app_assoc. reflexivity.
Qed.

(** X6. Whatever the device answers, [dw_pcie_setup_atu] performs the
    eight register stores, each followed by a barrier, then polls the
    control register: it returns 0 at the first poll that reads bit 31 set,
    after fewer than 5 polls that read it clear (each followed by a 1 ms
    delay), and -1 after exactly 5 polls that read it clear; it does nothing
    else. *)
Theorem dw_pcie_setup_atu_shape
    (dbi_base region_index type cpu_addr pci_addr size : Z) (h : history) :
  let c := atu_reg dbi_base region_index ATU_REGION_CTRL2 in
  let W := with_barriers
             (atu_writes dbi_base region_index type cpu_addr pci_addr size) in
  exists vs : list Z,
    Forall (fun v => Z.testbit v 31 = false) vs /\
    ((exists v, Z.testbit v 31 = true /\ (length vs < 5)%nat /\
        dw_pcie_setup_atu hw dbi_base region_index type cpu_addr pci_addr
          size h
        = (0, h ++ W ++ flat_map (atu_poll_retry c) vs ++ atu_poll_ok c v))
     \/ (length vs = 5%nat /\
         dw_pcie_setup_atu hw dbi_base region_index type cpu_addr pci_addr
           size h
         = (-1, h ++ W ++ flat_map (atu_poll_retry c) vs))).
Proof.
  intros c W. rewrite dw_pcie_setup_atu_unfold. fold c. fold W.
  destruct (atu_wait_enable_spec hw 5 c (h ++ W))
    as (vs & Hvs & [(v & Hv & Hlen & Heq) | (Hlen & Heq)]).
  - exists vs. split; [exact Hvs |]. left. exists v.
    split; [exact Hv |]. split; [exact Hlen |].
    rewrite Heq, <- app_assoc. reflexivity.
  - exists vs. split; [exact Hvs |]. right. split; [exact Hlen |].
    rewrite Heq, <- app_assoc. reflexivity.
Qed.

Lemma pcie_config_read32_range
    (dbi_base cfg_base bar_phys offset : Z) (restore : bool) (h : history) :
  0 <= fst (pcie_config_read32 hw dbi_base cfg_base bar_phys offset restore h)
    < 2 ^ 32.
Proof.
  unfold pcie_config_read32, bind, ret, read32, load32.
  destruct (map_cfg hw dbi_base h) as [r h1].
  destruct (negb (r =? 0)); cbn [fst]; [lia |].
  destruct (restore && negb (bar_phys =? 0)).
  - destruct (map_mem hw dbi_base bar_phys _) as [r2 h2]. cbn [fst].
    apply u32_range.
  - cbn [fst]. apply u32_range.
Qed.

(** X7. [pcie_scan_bus] splits the word read at offset 0 into a vendor id
    (low half) and a device id (high half).  If the vendor id is 0xFFFF or
    0 it returns -1, leaves [*class_code] as it was and makes no second
    access; otherwise it returns 0 and stores in [*class_code] the word
    read at offset 8 shifted right by 8, a 24-bit value. *)
Theorem pcie_scan_bus_spec (dbi_base cfg_base class_code : Z) (h : history) :
  let '(val, h1) := pcie_config_read32 hw dbi_base cfg_base 0 0x00 false h in
  let '(val2, h2) := pcie_config_read32 hw dbi_base cfg_base 0 0x08 false h1 in
  let '(r, vendor_id, device_id, class_code', h') :=
    pcie_scan_bus hw dbi_base cfg_base class_code h in
  0 <= vendor_id < 2 ^ 16 /\ 0 <= device_id < 2 ^ 16 /\
  vendor_id + 2 ^ 16 * device_id = val /\
  ((vendor_id = 0xFFFF \/ vendor_id = 0) /\
     r = -1 /\ class_code' = class_code /\ h' = h1
   \/
   (vendor_id <> 0xFFFF /\ vendor_id <> 0) /\
     r = 0 /\ class_code' = val2 / 2 ^ 8 /\ 0 <= class_code' < 2 ^ 24 /\
     h' = h2).
Proof.
  unfold pcie_scan_bus, bind, ret.
  pose proof (pcie_config_read32_range dbi_base cfg_base 0 0 false h) as Hr.
  destruct (pcie_config_read32 hw dbi_base cfg_base 0 0 false h) as [val h1].
  cbn [fst] in Hr.
  pose proof (pcie_config_read32_range dbi_base cfg_base 0 8 false h1) as Hr2.
  assert (Hv : Z.land val 0xFFFF = val mod 2 ^ 16).
  { change 0xFFFF with (Z.ones 16). apply Z.land_ones. lia. }
  assert (Hd : Z.land (Z.shiftr val 16) 0xFFFF = val / 2 ^ 16).
  { change 0xFFFF with (Z.ones 16).
    rewrite Z.land_ones, Z.shiftr_div_pow2 by lia.
    apply Z.mod_small.
    split; [apply Z.div_pos; lia | apply Z.div_lt_upper_bound; lia]. }
  rewrite Hv, Hd.
  assert (Hdr : 0 <= val / 2 ^ 16 < 2 ^ 16).
  { split; [apply Z.div_pos; lia | apply Z.div_lt_upper_bound; lia]. }
  pose proof (Z.mod_pos_bound val (2 ^ 16) ltac:(lia)) as Hm.
  pose proof (Z.div_mod val (2 ^ 16) ltac:(lia)) as Hdm.
  destruct (pcie_config_read32 hw dbi_base cfg_base 0 8 false h1)
    as [val2 h2] eqn:E2.
  cbn [fst] in Hr2.
  destruct (Z.eqb_spec (val mod 2 ^ 16) 65535) as [Hff | Hnff]; cbn [orb].
  - repeat split; try lia. left. repeat split; lia.
  - destruct (Z.eqb_spec (val mod 2 ^ 16) 0) as [H0 | Hn0].
    + repeat split; try lia. left. repeat split; lia.
    + rewrite E2. rewrite Z.shiftr_div_pow2 by lia.
      repeat split; try lia. right. repeat split; try lia.
      * apply Z.div_pos; lia.
      * apply Z.div_lt_upper_bound; lia.
Qed.

(** X8. When the swing region never reads back enabled, [pcie_scan_bus]
    reports "no device": it returns -1 with both ids 0xFFFF, taken from the
    accessor's sentinel, after one failed reprogramming and without any
    access to the configuration window. *)
Theorem pcie_scan_bus_atu_timeout
    (dbi_base cfg_base class_code : Z) (h : history) :
  (forall h0,
     Z.testbit
       (hw h0 (atu_reg dbi_base PCIE_ATU_REGION_INDEX1 ATU_REGION_CTRL2)) 31
     = false) ->
  pcie_scan_bus hw dbi_base cfg_base class_code h
  = ((-1, 0xFFFF, 0xFFFF, class_code), snd (map_cfg hw dbi_base h)).
Proof.
  intros Hnever.
  pose proof (setup_atu_never dbi_base PCIE_ATU_REGION_INDEX1
                PCIE_ATU_TYPE_CFG0 0xf3000000 0 0x100000 h Hnever) as Hf.
  fold (map_cfg hw dbi_base h) in Hf.
  unfold pcie_scan_bus, pcie_config_read32, bind, ret.
  destruct (map_cfg hw dbi_base h) as [r h1]. cbn [fst snd] in *. subst r.
  reflexivity.
Qed.


Lemma map_cfg_never (dbi_base : Z) (h : history) :
  (forall h0,
     Z.testbit
       (hw h0 (atu_reg dbi_base PCIE_ATU_REGION_INDEX1 ATU_REGION_CTRL2)) 31
     = false) ->
  map_cfg hw dbi_base h = (-1, snd (map_cfg hw dbi_base h)).
Proof.
  intros Hnever.
  pose proof (setup_atu_never dbi_base PCIE_ATU_REGION_INDEX1
                PCIE_ATU_TYPE_CFG0 0xf3000000 0 0x100000 h Hnever) as Hf.
  fold (map_cfg hw dbi_base h) in Hf.
  destruct (map_cfg hw dbi_base h) as [r h1]. cbn [fst snd] in *.
  subst r. reflexivity.
Qed.

(** X9. When the swing region never reads back enabled,
    [pcie_enable_device] still returns 0: the sentinel 0xFFFFFFFF read back
    has the memory-enable bit set.  The history holds three failed
    reprogrammings and no access to the command register. *)
Theorem pcie_enable_device_atu_timeout
    (dbi_base cfg_base bar_phys : Z) (h : history) :
  (forall h0,
     Z.testbit
       (hw h0 (atu_reg dbi_base PCIE_ATU_REGION_INDEX1 ATU_REGION_CTRL2)) 31
     = false) ->
  let h1 := snd (map_cfg hw dbi_base h) in
  let h2 := snd (map_cfg hw dbi_base h1) in
  let h3 := snd (map_cfg hw dbi_base h2) in
  pcie_enable_device hw dbi_base cfg_base bar_phys h = (0, h3).
Proof.
  intros Hnever h1 h2 h3.
  unfold pcie_enable_device, pcie_config_read32, pcie_config_write32,
    bind, ret.
  rewrite (map_cfg_never dbi_base h Hnever). fold h1. cbn [negb Z.eqb].
  rewrite (map_cfg_never dbi_base h1 Hnever). fold h2. cbn [negb Z.eqb].
  rewrite (map_cfg_never dbi_base h2 Hnever). fold h3. cbn [negb Z.eqb].
  reflexivity.
Qed.

(** X10. When the swing region never reads back enabled,
    [pcie_get_bar_info] returns 0 and reports, from the accessor's
    sentinel, a BAR at 0xFFFFFFFC of size 4; the history holds four failed
    reprogrammings and no access to the BAR. *)
Theorem pcie_get_bar_info_atu_timeout
    (dbi_base cfg_base bar_num : Z) (h : history) :
  (forall h0,
     Z.testbit
       (hw h0 (atu_reg dbi_base PCIE_ATU_REGION_INDEX1 ATU_REGION_CTRL2)) 31
     = false) ->
  let h1 := snd (map_cfg hw dbi_base h) in
  let h2 := snd (map_cfg hw dbi_base h1) in
  let h3 := snd (map_cfg hw dbi_base h2) in
  let h4 := snd (map_cfg hw dbi_base h3) in
  pcie_get_bar_info hw dbi_base cfg_base bar_num h
  = ((0, 0xFFFFFFFC, 4), h4).
Proof.
  intros Hnever h1 h2 h3 h4.
  unfold pcie_get_bar_info, pcie_config_read32, pcie_config_write32,
    bind, ret.
  rewrite (map_cfg_never dbi_base h Hnever). fold h1. cbn [negb Z.eqb].
  rewrite (map_cfg_never dbi_base h1 Hnever). fold h2. cbn [negb Z.eqb].
  rewrite (map_cfg_never dbi_base h2 Hnever). fold h3. cbn [negb Z.eqb].
  rewrite (map_cfg_never dbi_base h3 Hnever). fold h4. cbn [negb Z.eqb].
  reflexivity.
Qed.

Lemma map_cfg_enabled (dbi_base : Z) (h : history) :
  (forall h0,
     Z.testbit
       (hw h0 (atu_reg dbi_base PCIE_ATU_REGION_INDEX1 ATU_REGION_CTRL2)) 31
     = true) ->
  exists v, map_cfg hw dbi_base h = (0, h ++ cfg_events dbi_base v).
Proof.
  intros Hen. unfold map_cfg, cfg_events.
  apply setup_atu_enabled, Hen.
Qed.

Lemma last_write_cfg_events_out (dbi_base v a : Z) :
  outside_atu dbi_base a -> last_write (cfg_events dbi_base v) a = None.
Proof.
  intros Hout. unfold cfg_events. rewrite last_write_app.
  cbn [atu_poll_ok last_write with_barriers atu_writes flat_map app].
  repeat match goal with
  | |- context [atu_reg dbi_base PCIE_ATU_REGION_INDEX1 ?o =? a] =>
      replace (atu_reg dbi_base PCIE_ATU_REGION_INDEX1 o =? a) with false
        by (symmetry; apply Z.eqb_neq; apply Hout; vm_compute;
            split; congruence)
  end.
  reflexivity.
Qed.

(** X11. Write then read: when the swing region reads back enabled and the
    register at [cfg_base + offset] is storage outside the region's control
    block, [pcie_config_read32] after [pcie_config_write32] of [value] at
    the same offset returns [value] (truncated to 32 bits): the
    reprogramming in between does not disturb it. *)
Theorem pcie_config_write_read_roundtrip
    (dbi_base cfg_base offset value : Z) (h : history) :
  let a := u64 (cfg_base + offset) in
  (forall h0,
     Z.testbit
       (hw h0 (atu_reg dbi_base PCIE_ATU_REGION_INDEX1 ATU_REGION_CTRL2)) 31
     = true) ->
  (forall h0 v, last_write h0 a = Some v -> u32 (hw h0 a) = u32 v) ->
  outside_atu dbi_base a ->
  let h1 := snd (pcie_config_write32 hw dbi_base cfg_base 0 offset value
                   false h) in
  fst (pcie_config_read32 hw dbi_base cfg_base 0 offset false h1) = u32 value.
Proof.
  intros a Hen Hst Hout h1.
  assert (Hh1 : last_write h1 a = Some value).
  { unfold h1, pcie_config_write32, bind, ret, write32, store32, emit.
    destruct (map_cfg_enabled dbi_base h Hen) as (v & Hv). rewrite Hv.
    cbn [negb Z.eqb andb snd]. fold a.
    rewrite last_write_app. cbn [last_write]. rewrite Z.eqb_refl.
    reflexivity. }
  unfold pcie_config_read32, bind, ret, read32, load32.
  destruct (map_cfg_enabled dbi_base h1 Hen) as (v & Hv). rewrite Hv.
  cbn [negb Z.eqb andb fst]. fold a.
  apply Hst. rewrite last_write_app, last_write_cfg_events_out by exact Hout.
  exact Hh1.
Qed.


Lemma last_write_after_setup
    (X : history) (dbi_base region_index type cpu_addr pci_addr size c v a x : Z) :
  last_write
    (with_barriers
       (atu_writes dbi_base region_index type cpu_addr pci_addr size)) a
  = Some x ->
  last_write
    (X ++ with_barriers
            (atu_writes dbi_base region_index type cpu_addr pci_addr size)
       ++ atu_poll_ok c v) a = Some x.
Proof.
  intros Hw. rewrite !last_write_app. cbn [atu_poll_ok last_write].
  rewrite Hw. reflexivity.
Qed.

(** X12. On a device whose swing region reads back enabled and whose
    command register is storage, [pcie_enable_device] returns 0 and leaves
    in the command register a word with the I/O, memory and bus-master bits
    set and the interrupt-disable bit clear.  It leaves the swing region
    programmed for memory access to [bar_phys] when [bar_phys] is not 0,
    and for configuration access when it is 0. *)
Theorem pcie_enable_device_enables
    (dbi_base cfg_base bar_phys : Z) (h : history) :
  let a := u64 (cfg_base + PCIE_CFG_COMMAND) in
  let reg := atu_reg dbi_base PCIE_ATU_REGION_INDEX1 in
  (forall h0, Z.testbit (hw h0 (reg ATU_REGION_CTRL2)) 31 = true) ->
  (forall h0 v, last_write h0 a = Some v -> u32 (hw h0 a) = u32 v) ->
  outside_atu dbi_base a ->
  0 <= bar_phys < 2 ^ 64 ->
  let '(r, h') := pcie_enable_device hw dbi_base cfg_base bar_phys h in
  r = 0 /\
  (exists w, last_write h' a = Some w /\
     Z.testbit w 0 = true /\ Z.testbit w 1 = true /\
     Z.testbit w 2 = true /\ Z.testbit w 10 = false) /\
  (bar_phys = 0 ->
     last_write h' (reg ATU_REGION_CTRL1) = Some PCIE_ATU_TYPE_CFG0) /\
  (bar_phys <> 0 ->
     last_write h' (reg ATU_REGION_CTRL1) = Some PCIE_ATU_TYPE_MEM /\
     last_write h' (reg ATU_LOWER_TARGET) = Some (bar_phys mod 2 ^ 32) /\
     last_write h' (reg ATU_UPPER_TARGET) = Some (bar_phys / 2 ^ 32)).
Proof.
  intros a reg Hen Hst Hout Hbar.
  unfold pcie_enable_device, bind.
  (* first read *)
  unfold pcie_config_read32 at 1. unfold bind, ret, read32, load32.
  destruct (map_cfg_enabled dbi_base h Hen) as (v1 & E1). rewrite E1.
  cbn [negb Z.eqb andb]. fold a.
  set (r1 := u32 (hw (h ++ cfg_events dbi_base v1) a)).
  set (ha := (h ++ cfg_events dbi_base v1) ++ [EvRead32 a r1]).
  pose proof (enable_word_bits r1) as Hbits. cbn zeta in Hbits.
  match goal with
  | |- context [pcie_config_write32 _ _ _ _ _ ?w _ _] => set (w0 := w) in *
  end.
  (* write *)
  unfold pcie_config_write32, bind, ret, write32, store32, emit.
  destruct (map_cfg_enabled dbi_base ha Hen) as (v2 & E2). rewrite E2.
  cbn [negb Z.eqb andb]. fold a.
  set (hb := (ha ++ cfg_events dbi_base v2) ++ [EvWrite32 a w0]).
  assert (Lb : last_write hb a = Some w0).
  { unfold hb. rewrite last_write_app. cbn [last_write].
    rewrite Z.eqb_refl. reflexivity. }
  (* second read *)
  unfold pcie_config_read32, bind, ret, read32, load32.
  destruct (map_cfg_enabled dbi_base hb Hen) as (v3 & E3). rewrite E3.
  cbn [negb Z.eqb andb]. fold a.
  assert (Lc : last_write (hb ++ cfg_events dbi_base v3) a = Some w0).
  { rewrite last_write_app, last_write_cfg_events_out by exact Hout.
    exact Lb. }
  rewrite (Hst _ _ Lc).
  assert (Hw0 : u32 w0 = w0) by (apply u32_small; apply u32_range).
  rewrite Hw0.
  set (hc := (hb ++ cfg_events dbi_base v3) ++ [EvRead32 a w0]).
  assert (Hret : (Z.land (u16 (Z.land w0 0xFFFF)) PCIE_CMD_MEM_ENABLE =? 0)
                 = false).
  { change PCIE_CMD_MEM_ENABLE with (2 ^ 1).
    rewrite land_pow2_eqb by lia. change 0xFFFF with (Z.ones 16).
    rewrite u16_testbit, Z.land_spec, Z.testbit_ones_nonneg by lia.
    rewrite Hbits by lia. reflexivity. }
  assert (Hbitsw : Z.testbit w0 0 = true /\ Z.testbit w0 1 = true /\
                   Z.testbit w0 2 = true /\ Z.testbit w0 10 = false).
  { repeat split; rewrite Hbits by lia; reflexivity. }
  assert (Lca : last_write hc a = Some w0).
  { unfold hc. rewrite last_write_app. cbn [last_write]. exact Lc. }
  destruct (Z.eqb_spec bar_phys 0) as [Hz | Hnz]; cbn [negb].
  - unfold ret. rewrite Hret.
    split; [reflexivity |].
    split; [exists w0; split; [exact Lca | exact Hbitsw] |].
    split; [| intros Hc; contradiction].
    intros _. unfold hc. rewrite last_write_app. cbn [last_write].
    unfold cfg_events. apply last_write_after_setup.
    apply (last_write_atu_writes dbi_base PCIE_ATU_REGION_INDEX1
             PCIE_ATU_TYPE_CFG0 0xf3000000 0 0x100000).
  - destruct (setup_atu_enabled dbi_base PCIE_ATU_REGION_INDEX1
                PCIE_ATU_TYPE_MEM 0x9c0100000 bar_phys 0x10000 hc Hen)
      as (v4 & E4).
    unfold map_mem. rewrite E4. unfold ret. rewrite Hret.
    destruct (last_write_atu_writes dbi_base PCIE_ATU_REGION_INDEX1
                PCIE_ATU_TYPE_MEM 0x9c0100000 bar_phys 0x10000)
      as (_ & _ & _ & _ & L5 & L6 & L7 & _).
    cbn zeta in L5, L6, L7.
    rewrite split_lower in L5. rewrite split_upper in L6 by exact Hbar.
    split; [reflexivity |].
    split.
    { exists w0. split; [| exact Hbitsw].
      rewrite !last_write_app. cbn [atu_poll_ok last_write].
      assert (Hn : last_write
                     (with_barriers
                        (atu_writes dbi_base PCIE_ATU_REGION_INDEX1
                           PCIE_ATU_TYPE_MEM 0x9c0100000 bar_phys 0x10000)) a
                   = None).
      { cbn [with_barriers atu_writes flat_map app last_write].
        repeat match goal with
        | |- context [atu_reg dbi_base PCIE_ATU_REGION_INDEX1 ?o =? a] =>
            replace (atu_reg dbi_base PCIE_ATU_REGION_INDEX1 o =? a)
              with false
              by (symmetry; apply Z.eqb_neq; apply Hout; vm_compute;
                  split; congruence)
        end.
        reflexivity. }
      rewrite Hn. exact Lca. }
    split; [intros Hc; contradiction |].
    intros _. repeat split; apply last_write_after_setup; assumption.
Qed.

End AtuMore.

Lemma hw_storage_enables (h : history) :
  Z.testbit
    (hw_storage h (atu_reg DBI_BASE PCIE_ATU_REGION_INDEX1 ATU_REGION_CTRL2))
    31 = true.
Proof. reflexivity. Qed.

Lemma hw_storage_stores (a : Z) (h : history) (v : Z) :
  a <> atu_reg DBI_BASE PCIE_ATU_REGION_INDEX1 ATU_REGION_CTRL2 ->
  last_write h a = Some v -> u32 (hw_storage h a) = u32 v.
Proof.
  intros Ha Hv. unfold hw_storage.
  apply Z.eqb_neq in Ha. rewrite Ha, Hv. reflexivity.
Qed.

(** The configuration window at 0xf3000000 lies outside the control block
    of the swing region of the controller at [DBI_BASE]. *)
Lemma cfg_window_outside_atu (off : Z) :
  0 <= off < 0x1000 -> outside_atu DBI_BASE (u64 (0xf3000000 + off)).
Proof.
  intros Ho o Hoff. unfold ATU_REGION_SIZE in Hoff. unfold atu_reg.
  change (atu_region_base DBI_BASE PCIE_ATU_REGION_INDEX1) with 0xa40f00200.
  rewrite !u64_small by lia. lia.
Qed.

Lemma pcie_scan_bus_atu_timeout_witness :
  pcie_scan_bus hw_dead DBI_BASE 0xf3000000 7 []
  = ((-1, 0xFFFF, 0xFFFF, 7), snd (map_cfg hw_dead DBI_BASE [])).
Proof.
  apply (pcie_scan_bus_atu_timeout hw_dead DBI_BASE 0xf3000000 7 []).
  intros h0. reflexivity.
Defined.

Lemma pcie_enable_device_atu_timeout_witness :
  let h1 := snd (map_cfg hw_dead DBI_BASE []) in
  let h2 := snd (map_cfg hw_dead DBI_BASE h1) in
  let h3 := snd (map_cfg hw_dead DBI_BASE h2) in
  pcie_enable_device hw_dead DBI_BASE 0xf3000000 0x100000 [] = (0, h3).
Proof.
  apply (pcie_enable_device_atu_timeout hw_dead DBI_BASE 0xf3000000
           0x100000 []).
  intros h0. reflexivity.
Defined.

Lemma pcie_get_bar_info_atu_timeout_witness :
  let h1 := snd (map_cfg hw_dead DBI_BASE []) in
  let h2 := snd (map_cfg hw_dead DBI_BASE h1) in
  let h3 := snd (map_cfg hw_dead DBI_BASE h2) in
  let h4 := snd (map_cfg hw_dead DBI_BASE h3) in
  pcie_get_bar_info hw_dead DBI_BASE 0xf3000000 2 []
  = ((0, 0xFFFFFFFC, 4), h4).
Proof.
  apply (pcie_get_bar_info_atu_timeout hw_dead DBI_BASE 0xf3000000 2 []).
  intros h0. reflexivity.
Defined.

Lemma pcie_config_write_read_roundtrip_witness :
  let h1 := snd (pcie_config_write32 hw_storage DBI_BASE 0xf3000000 0 0x3C
                   0x1FF false []) in
  fst (pcie_config_read32 hw_storage DBI_BASE 0xf3000000 0 0x3C false h1)
  = u32 0x1FF.
Proof.
  apply (pcie_config_write_read_roundtrip hw_storage DBI_BASE 0xf3000000
           0x3C 0x1FF []).
  - intros h0. apply hw_storage_enables.
  - intros h0 v Hv. apply hw_storage_stores; [| exact Hv].
    vm_compute. discriminate.
  - apply cfg_window_outside_atu. lia.
Defined.

Lemma pcie_enable_device_enables_witness :
  let a := u64 (0xf3000000 + PCIE_CFG_COMMAND) in
  let reg := atu_reg DBI_BASE PCIE_ATU_REGION_INDEX1 in
  let '(r, h') :=
    pcie_enable_device hw_storage DBI_BASE 0xf3000000 0x100000 [] in
  r = 0 /\
  (exists w, last_write h' a = Some w /\
     Z.testbit w 0 = true /\ Z.testbit w 1 = true /\
     Z.testbit w 2 = true /\ Z.testbit w 10 = false) /\
  (0x100000 = 0 ->
     last_write h' (reg ATU_REGION_CTRL1) = Some PCIE_ATU_TYPE_CFG0) /\
  (0x100000 <> 0 ->
     last_write h' (reg ATU_REGION_CTRL1) = Some PCIE_ATU_TYPE_MEM /\
     last_write h' (reg ATU_LOWER_TARGET) = Some (0x100000 mod 2 ^ 32) /\
     last_write h' (reg ATU_UPPER_TARGET) = Some (0x100000 / 2 ^ 32)).
Proof.
  apply (pcie_enable_device_enables hw_storage DBI_BASE 0xf3000000
           0x100000 []).
  - intros h0. apply hw_storage_enables.
  - intros h0 v Hv. apply hw_storage_stores; [| exact Hv].
    vm_compute. discriminate.
  - apply cfg_window_outside_atu. unfold PCIE_CFG_COMMAND. lia.
  - lia.
Defined.


(** ** The copy and fill helpers *)

(** X13. After [memcpy_local(dst, src, n)] the first [n] bytes of the
    destination are those of the source and every other byte of it is as
    before; with [n = 0] nothing is written. *)
Theorem memcpy_local_copies (dst src : Z -> Z) (n : Z) :
  (forall j, 0 <= j < n -> memcpy_local dst src n j = src j) /\
  (forall j, j < 0 \/ n <= j -> memcpy_local dst src n j = dst j).
Proof.
  destruct (Z.le_gt_cases 0 n) as [Hn | Hn].
  - split; intros j Hj; rewrite memcpy_local_spec by exact Hn;
      destruct (Z.leb_spec 0 j), (Z.ltb_spec j n); cbn [andb];
      try reflexivity; lia.
  - split; intros j Hj; [lia |].
    unfold memcpy_local. replace (Z.to_nat n) with O by lia. reflexivity.
Qed.

(** X14. After [memset_local(dst + off, val, n)] the [n] bytes from offset
    [off] hold [val] truncated to a byte and every other byte is as
    before. *)
Theorem memset_local_fills (dst : Z -> Z) (off val n : Z) :
  (forall j, off <= j < off + n -> memset_local dst off val n j = val mod 256)
  /\
  (forall j, j < off \/ off + n <= j -> memset_local dst off val n j = dst j).
Proof.
  destruct (Z.le_gt_cases 0 n) as [Hn | Hn].
  - split; intros j Hj; rewrite memset_local_spec by exact Hn;
      destruct (Z.leb_spec off j), (Z.ltb_spec j (off + n)); cbn [andb];
      try reflexivity; lia.
  - split; intros j Hj; [lia |].
    unfold memset_local. replace (Z.to_nat n) with O by lia. reflexivity.
Qed.

(** ** More on the descriptor-ring driver *)

Section Rtl8125More.

Variable g : Z.
Variable dma : history -> dma_mem -> dma_mem.

Lemma tx_submit_facts (data : Z -> Z) (len : Z) (s : nic) :
  let s1 := tx_submit g data len s in
  let pad_len := if len <? 60 then 60 else len in
  status (tx_desc (mem s1) (tx_idx s))
  = Z.lor (Z.lor (Z.lor DESC_OWN DESC_FS) DESC_LS) pad_len /\
  tx_idx s1 = tx_idx s /\ rx_idx s1 = rx_idx s /\
  tx_ring s1 = tx_ring s /\ rx_ring s1 = rx_ring s /\
  tx_buffers s1 = tx_buffers s /\ rx_buffers s1 = rx_buffers s /\
  rtl_mmio_base s1 = rtl_mmio_base s /\
  rx_desc (mem s1) = rx_desc (mem s) /\
  rx_data (mem s1) = rx_data (mem s) /\
  elapsed_us (hist s1) = elapsed_us (hist s).
Proof.
  cbn zeta. unfold tx_submit.
  destruct (len <? 60);
    nic_fields; cbn [buf_range desc_range fst snd]; nic_fields;
    rewrite !upd_same; cbn [status];
    rewrite !elapsed_us_app; cbn [elapsed_us];
    repeat split; lia.
Qed.

Lemma tx_wait_statics (n : nat) (ds dl : Z) (s : nic) :
  let s' := tx_wait dma n ds dl s in
  tx_idx s' = tx_idx s /\ rx_idx s' = rx_idx s /\
  tx_ring s' = tx_ring s /\ rx_ring s' = rx_ring s /\
  tx_buffers s' = tx_buffers s /\ rx_buffers s' = rx_buffers s /\
  rtl_mmio_base s' = rtl_mmio_base s.
Proof.
  revert s. induction n as [| n IH]; intros s; cbn zeta.
  - repeat split; reflexivity.
  - cbn [tx_wait].
    destruct (Z.land _ DESC_OWN =? 0).
    + repeat split; reflexivity.
    + apply (IH (log (EvDelay 10) (invalidate_dcache_va_range dma ds dl s))).
Qed.

Lemma tx_wait_no_completion (n : nat) (ds dl : Z) (s : nic) :
  (forall h m, tx_desc (dma h m) (tx_idx s) = tx_desc m (tx_idx s)) ->
  Z.land (status (tx_desc (mem s) (tx_idx s))) DESC_OWN <> 0 ->
  let s' := tx_wait dma n ds dl s in
  tx_desc (mem s') (tx_idx s) = tx_desc (mem s) (tx_idx s) /\
  elapsed_us (hist s') = elapsed_us (hist s) + 10 * Z.of_nat n.
Proof.
  revert s. induction n as [| n IH]; intros s Hkeep Hown; cbn zeta.
  - split; [reflexivity | cbn [tx_wait]; lia].
  - cbn [tx_wait].
    set (s1 := invalidate_dcache_va_range dma ds dl s).
    assert (Hd : tx_desc (mem s1) (tx_idx s1) = tx_desc (mem s) (tx_idx s)).
    { unfold s1. nic_fields. apply Hkeep. }
    rewrite Hd. apply Z.eqb_neq in Hown. rewrite Hown.
    apply Z.eqb_neq in Hown.
    destruct (IH (log (EvDelay 10) s1)) as (IHd & IHt).
    + intros h m. apply Hkeep.
    + change (Z.land (status (tx_desc (mem s1) (tx_idx s1))) DESC_OWN <> 0).
      rewrite Hd. exact Hown.
    + split.
      * change (tx_idx s) with (tx_idx (log (EvDelay 10) s1)) at 1.
        rewrite IHd. exact Hd.
      * rewrite IHt. unfold s1. nic_fields.
        rewrite !elapsed_us_app. cbn [elapsed_us]. lia.
Qed.

Lemma own_bit_of_tx_status (pad_len : Z) :
  0 <= pad_len < 2 ^ 14 ->
  let st := Z.lor (Z.lor (Z.lor DESC_OWN DESC_FS) DESC_LS) pad_len in
  Z.land st DESC_OWN <> 0 /\ Z.testbit st 30 = false.
Proof.
  intros Hp. cbn zeta.
  change (Z.lor (Z.lor DESC_OWN DESC_FS) DESC_LS) with (Z.shiftl 11 28).
  assert (Hb : forall i, 14 <= i -> Z.testbit pad_len i = false).
  { intros i Hi. destruct (Z.eq_dec pad_len 0) as [-> | Hnz];
      [apply Z.bits_0 |].
    apply Z.bits_above_log2; [lia |].
    apply Z.lt_le_trans with 14; [| exact Hi].
    apply Z.log2_lt_pow2; lia. }
  split.
  - change DESC_OWN with (2 ^ 31). apply Z.eqb_neq.
    rewrite land_pow2_eqb by lia. rewrite Z.lor_spec. reflexivity.
  - rewrite Z.lor_spec, Hb by lia. reflexivity.
Qed.

(** X15. Transmit timeout: on an initialised ring, if the device never
    touches the current transmit descriptor, [rtl8125_send_packet] returns
    -1 after 10000 polls (100 ms of delay), does not advance the transmit
    index, and leaves the descriptor owned by the device, so the slot stays
    handed over. *)
Theorem rtl8125_send_packet_timeout (data : Z -> Z) (len : Z) (s : nic) :
  tx_ring s <> 0 ->
  tx_buffers s (tx_idx s) <> 0 ->
  0 <= len <= TX_BUF_SIZE ->
  (forall h m, tx_desc (dma h m) (tx_idx s) = tx_desc m (tx_idx s)) ->
  let r := rtl8125_send_packet g dma data len s in
  fst r = -1 /\
  tx_idx (snd r) = tx_idx s /\
  Z.testbit (status (tx_desc (mem (snd r)) (tx_idx s))) 31 = true /\
  elapsed_us (hist (snd r)) = elapsed_us (hist s) + 100000.
Proof.
  intros Hring Hbuf Hlen Hkeep r. unfold TX_BUF_SIZE in Hlen.
  destruct (tx_submit_facts data len s)
    as (Hst & Hidx & _ & Hr & _ & _ & _ & _ & _ & _ & Hel).
  cbn zeta in Hst, Hidx, Hr, Hel.
  set (s1 := tx_submit g data len s) in *.
  set (pad_len := if len <? 60 then 60 else len) in *.
  assert (Hpad : 0 <= pad_len < 2 ^ 14)
    by (unfold pad_len; destruct (Z.ltb_spec len 60); lia).
  destruct (own_bit_of_tx_status pad_len Hpad) as (Hown & _).
  cbn zeta in Hown. rewrite <- Hst in Hown.
  assert (Hpoll :
    let s2 := tx_poll g dma s1 in
    tx_desc (mem s2) (tx_idx s) = tx_desc (mem s1) (tx_idx s) /\
    elapsed_us (hist s2) = elapsed_us (hist s1) + 100000 /\
    tx_idx s2 = tx_idx s).
  { cbn zeta. unfold tx_poll. destruct (desc_range _ _ _) as [ds dl].
    destruct (tx_wait_no_completion (Z.to_nat 10000) ds dl s1) as (Hd & Ht).
    - rewrite Hidx. exact Hkeep.
    - rewrite Hidx. exact Hown.
    - rewrite Hidx in Hd. split; [exact Hd |].
      split; [rewrite Ht, Z2Nat.id by lia; lia |].
      rewrite <- Hidx. apply tx_wait_statics. }
  cbn zeta in Hpoll. destruct Hpoll as (Hd2 & Ht2 & Hidx2).
  assert (Hres : r = (-1, tx_poll g dma s1)).
  { unfold r, rtl8125_send_packet.
    apply Z.eqb_neq in Hring, Hbuf. rewrite Hring, Hbuf. cbn [orb].
    replace (len >? TX_BUF_SIZE) with false
      by (symmetry; rewrite Z.gtb_ltb; apply Z.ltb_ge;
          unfold TX_BUF_SIZE; lia).
    fold s1. rewrite Hidx2, Hd2.
    apply Z.eqb_neq in Hown. rewrite Hown. reflexivity. }
  rewrite Hres. cbn [fst snd].
  split; [reflexivity |]. split; [exact Hidx2 |].
  split; [| lia].
  rewrite Hd2, Hst.
  apply (tx_status_bits pad_len Hpad).
Qed.

Lemma tx_wait_keeps_eor (n : nat) (ds dl : Z) (s : nic) :
  (forall h m,
     Z.testbit (status (tx_desc (dma h m) (tx_idx s))) 30
     = Z.testbit (status (tx_desc m (tx_idx s))) 30) ->
  Z.testbit (status (tx_desc (mem (tx_wait dma n ds dl s)) (tx_idx s))) 30
  = Z.testbit (status (tx_desc (mem s) (tx_idx s))) 30.
Proof.
  revert s. induction n as [| n IH]; intros s Hkeep; [reflexivity |].
  cbn [tx_wait].
  set (s1 := invalidate_dcache_va_range dma ds dl s).
  assert (H1 : Z.testbit (status (tx_desc (mem s1) (tx_idx s))) 30
               = Z.testbit (status (tx_desc (mem s) (tx_idx s))) 30).
  { unfold s1. nic_fields. apply Hkeep. }
  destruct (Z.land _ DESC_OWN =? 0); [exact H1 |].
  change (tx_idx s) with (tx_idx (log (EvDelay 10) s1)) at 1.
  rewrite IH; [exact H1 |].
  intros h m. apply Hkeep.
Qed.

(** X16. [rtl8125_send_packet] drops the end-of-ring mark: it stores a
    status word without [DESC_EOR] in the current descriptor, so when the
    device does not change that bit itself, the descriptor has it clear
    after the call, also on the last slot of the ring, where
    [rtl8125_init] had set it. *)
Theorem rtl8125_send_packet_clears_eor (data : Z -> Z) (len : Z) (s : nic) :
  tx_ring s <> 0 ->
  tx_buffers s (tx_idx s) <> 0 ->
  0 <= len <= TX_BUF_SIZE ->
  (forall h m,
     Z.testbit (status (tx_desc (dma h m) (tx_idx s))) 30
     = Z.testbit (status (tx_desc m (tx_idx s))) 30) ->
  let r := rtl8125_send_packet g dma data len s in
  Z.testbit (status (tx_desc (mem (snd r)) (tx_idx s))) 30 = false.
Proof.
  intros Hring Hbuf Hlen Hkeep r. unfold TX_BUF_SIZE in Hlen.
  destruct (tx_submit_facts data len s) as (Hst & Hidx & _).
  cbn zeta in Hst, Hidx.
  set (s1 := tx_submit g data len s) in *.
  assert (Hpad : 0 <= (if len <? 60 then 60 else len) < 2 ^ 14)
    by (destruct (Z.ltb_spec len 60); lia).
  destruct (own_bit_of_tx_status _ Hpad) as (_ & Heor).
  cbn zeta in Heor. rewrite <- Hst in Heor.
  assert (H2 : Z.testbit
                 (status (tx_desc (mem (tx_poll g dma s1)) (tx_idx s))) 30
               = false).
  { unfold tx_poll. destruct (desc_range _ _ _) as [ds dl].
    rewrite <- Hidx. rewrite tx_wait_keeps_eor.
    - rewrite Hidx. exact Heor.
    - rewrite Hidx. exact Hkeep. }
  unfold r, rtl8125_send_packet.
  apply Z.eqb_neq in Hring, Hbuf. rewrite Hring, Hbuf. cbn [orb].
  replace (len >? TX_BUF_SIZE) with false
    by (symmetry; rewrite Z.gtb_ltb; apply Z.ltb_ge;
        unfold TX_BUF_SIZE; lia).
  fold s1.
  destruct (negb _); cbn [snd]; [exact H2 |].
  nic_fields. exact H2.
Qed.

(** X17. [rtl8125_recv_packet] never changes the ring and buffer pointers,
    the register base or the transmit index; it returns 0 or -1; when it
    returns -1 the receive index is as before, and a receive index inside
    the ring stays inside the ring. *)
Theorem rtl8125_recv_packet_keeps
    (buffer : Z -> Z) (len timeout_ms : Z) (s : nic) :
  let r := rtl8125_recv_packet g dma buffer len timeout_ms s in
  let s' := recv_state r in
  rx_ring s' = rx_ring s /\ rx_buffers s' = rx_buffers s /\
  tx_ring s' = tx_ring s /\ tx_buffers s' = tx_buffers s /\
  tx_idx s' = tx_idx s /\ rtl_mmio_base s' = rtl_mmio_base s /\
  (recv_ret r = 0 \/ recv_ret r = -1) /\
  (recv_ret r = -1 -> rx_idx s' = rx_idx s) /\
  (0 <= rx_idx s < NUM_RX_DESC -> 0 <= rx_idx s' < NUM_RX_DESC).
Proof.
  cbn zeta. unfold rtl8125_recv_packet, recv_ret, recv_state.
  destruct ((rx_ring s =? 0) || (rx_buffers s (rx_idx s) =? 0));
    [cbn [fst snd]; repeat split; try reflexivity; auto; lia |].
  destruct (desc_range g (rx_ring s) (rx_idx s)) as [ds dl].
  assert (Hp : let s1 := rx_poll g dma timeout_ms s in
               rx_idx s1 = rx_idx s /\ rx_ring s1 = rx_ring s /\
               rx_buffers s1 = rx_buffers s /\ tx_idx s1 = tx_idx s /\
               tx_ring s1 = tx_ring s /\ tx_buffers s1 = tx_buffers s /\
               rtl_mmio_base s1 = rtl_mmio_base s).
  { cbn zeta. unfold rx_poll. destruct (desc_range _ _ _) as [ds' dl'].
    apply rx_wait_statics. }
  cbn zeta in Hp. destruct Hp as (P1 & P2 & P3 & P4 & P5 & P6 & P7).
  set (s1 := rx_poll g dma timeout_ms s) in *.
  set (st := status (rx_desc (mem s1) (rx_idx s1))).
  assert (Hmod : 0 <= (rx_idx s1 + 1) mod NUM_RX_DESC < NUM_RX_DESC)
    by (apply Z.mod_pos_bound; reflexivity).
  destruct (negb (Z.land st DESC_OWN =? 0)).
  { cbn [fst snd]. repeat split; auto; lia. }
  destruct (negb (Z.land st 2097152 =? 0)).
  - cbn [fst snd]. unfold reinit_desc. nic_fields. rewrite u32_mod4.
    repeat split; auto; try lia; try (intros; discriminate);
      try (unfold NUM_RX_DESC, NUM_TX_DESC in *; lia).
  - destruct (buf_range _ _ _) as [bs bl]. cbn [fst snd].
    unfold reinit_desc. nic_fields. rewrite u32_mod4.
    repeat split; auto; try lia; try (intros; discriminate);
      try (unfold NUM_RX_DESC, NUM_TX_DESC in *; lia).
Qed.

(** X18. [rtl8125_send_packet] never changes the ring and buffer pointers,
    the register base or the receive index; it returns 0 or -1; when it
    returns -1 the transmit index is as before, and a transmit index inside
    the ring stays inside the ring. *)
Theorem rtl8125_send_packet_keeps (data : Z -> Z) (len : Z) (s : nic) :
  let r := rtl8125_send_packet g dma data len s in
  let s' := snd r in
  rx_ring s' = rx_ring s /\ rx_buffers s' = rx_buffers s /\
  tx_ring s' = tx_ring s /\ tx_buffers s' = tx_buffers s /\
  rx_idx s' = rx_idx s /\ rtl_mmio_base s' = rtl_mmio_base s /\
  (fst r = 0 \/ fst r = -1) /\
  (fst r = -1 -> tx_idx s' = tx_idx s) /\
  (0 <= tx_idx s < NUM_TX_DESC -> 0 <= tx_idx s' < NUM_TX_DESC).
Proof.
  cbn zeta. unfold rtl8125_send_packet.
  destruct ((tx_ring s =? 0) || (tx_buffers s (tx_idx s) =? 0));
    [cbn [fst snd]; repeat split; try reflexivity; auto; lia |].
  destruct (len >? TX_BUF_SIZE);
    [cbn [fst snd]; repeat split; try reflexivity; auto; lia |].
  destruct (tx_submit_facts data len s)
    as (_ & S1 & S2 & S3 & S4 & S5 & S6 & S7 & _).
  cbn zeta in S1, S2, S3, S4, S5, S6, S7.
  set (s1 := tx_submit g data len s) in *.
  assert (Hp : let s2 := tx_poll g dma s1 in
               tx_idx s2 = tx_idx s1 /\ rx_idx s2 = rx_idx s1 /\
               tx_ring s2 = tx_ring s1 /\ rx_ring s2 = rx_ring s1 /\
               tx_buffers s2 = tx_buffers s1 /\
               rx_buffers s2 = rx_buffers s1 /\
               rtl_mmio_base s2 = rtl_mmio_base s1).
  { cbn zeta. unfold tx_poll. destruct (desc_range _ _ _) as [ds dl].
    apply tx_wait_statics. }
  cbn zeta in Hp. destruct Hp as (P1 & P2 & P3 & P4 & P5 & P6 & P7).
  set (s2 := tx_poll g dma s1) in *.
  assert (Hmod : 0 <= (tx_idx s2 + 1) mod NUM_TX_DESC < NUM_TX_DESC)
    by (apply Z.mod_pos_bound; reflexivity).
  destruct (negb (Z.land (status (tx_desc (mem s2) (tx_idx s2))) DESC_OWN
                  =? 0)).
  - cbn [fst snd]. repeat split; try congruence; auto; lia.
  - cbn [fst snd]. nic_fields. rewrite u32_mod4.
    repeat split; try congruence; auto; try lia;
      try (intros; discriminate); try (unfold NUM_RX_DESC, NUM_TX_DESC in *; lia).
Qed.

End Rtl8125More.

Lemma rtl8125_send_packet_timeout_witness :
  let r := rtl8125_send_packet line64 dma_idle payload 32 nic_init in
  fst r = -1 /\
  tx_idx (snd r) = tx_idx nic_init /\
  Z.testbit (status (tx_desc (mem (snd r)) (tx_idx nic_init))) 31 = true /\
  elapsed_us (hist (snd r)) = elapsed_us (hist nic_init) + 100000.
Proof.
  apply (rtl8125_send_packet_timeout line64 dma_idle payload 32 nic_init).
  - vm_compute. discriminate.
  - vm_compute. discriminate.
  - vm_compute. split; discriminate.
  - intros h m. reflexivity.
Defined.

(** The last slot of the ring, end-of-ring mark set, and an idle device. *)
Lemma rtl8125_send_packet_clears_eor_witness :
  let s := set_tx_idx nic_init 3 in
  Z.testbit (status (tx_desc (mem s) (tx_idx s))) 30 = true /\
  let r := rtl8125_send_packet line64 dma_idle payload 32 s in
  Z.testbit (status (tx_desc (mem (snd r)) (tx_idx s))) 30 = false.
Proof.
  split; [reflexivity |].
  apply (rtl8125_send_packet_clears_eor line64 dma_idle payload 32
           (set_tx_idx nic_init 3)).
  - vm_compute. discriminate.
  - vm_compute. discriminate.
  - vm_compute. split; discriminate.
  - intros h m. reflexivity.
Defined.

Lemma rtl8125_recv_packet_no_packet_witness :
  let r := rtl8125_recv_packet line64 dma_idle payload 7 1 nic_init in
  recv_ret r = -1 /\
  recv_buffer r = payload /\
  recv_len r = 7 /\
  rx_desc (mem (recv_state r)) (rx_idx nic_init)
  = rx_desc (mem nic_init) (rx_idx nic_init) /\
  rx_idx (recv_state r) = rx_idx nic_init /\
  elapsed_us (hist (recv_state r))
  = elapsed_us (hist nic_init) + 10 * u32 (1 * 100) /\
  (0 <= 1 * 100 < 2 ^ 32 ->
   elapsed_us (hist (recv_state r)) = elapsed_us (hist nic_init) + 1000 * 1).
Proof.
  apply (rtl8125_recv_packet_no_packet line64 dma_idle payload 7 1 nic_init).
  - vm_compute. discriminate.
  - vm_compute. discriminate.
  - intros h m. reflexivity.
  - vm_compute. discriminate.
Defined.

Lemma rtl8125_recv_packet_copies_witness :
  let dma := dma_done 0x30000040 rx_frame in
  let s1 := rx_poll line64 dma 1 nic_init in
  let st := status (rx_desc (mem s1) (rx_idx nic_init)) in
  let n := Z.min (Z.land st 0x3FFF - 4) RX_BUF_SIZE in
  let '(bs, bl) :=
    buf_range line64 (rx_buffers s1 (rx_idx nic_init)) n in
  let s2 := invalidate_dcache_va_range dma bs bl s1 in
  let r := rtl8125_recv_packet line64 dma payload 7 1 nic_init in
  recv_ret r = 0 /\
  recv_len r = n /\
  forall j, recv_buffer r j =
            if (0 <=? j) && (j <? n) then rx_data (mem s2) (rx_idx nic_init) j
            else payload j.
Proof.
  apply (rtl8125_recv_packet_copies line64 (dma_done 0x30000040 rx_frame)
           payload 7 1 nic_init).
  - vm_compute. discriminate.
  - vm_compute. discriminate.
  - vm_compute. reflexivity.
  - vm_compute. reflexivity.
  - vm_compute. discriminate.
Defined.

(** ** Initialisation of the controller *)

(** Reduce the field accesses and updates of the whole state, and nothing
    else. *)
Ltac nd_fields :=
  cbn [drv my_mac io on_drv io_emit set_my_mac
       rtl_read8 rtl_write8_io rtl_write16 rtl_write32 mdelay
       set_rtl_mmio_base set_tx_ring set_rx_ring set_tx_buffers
       set_rx_buffers set_vlan_tag
       mem hist rx_idx tx_idx rx_ring tx_ring rx_buffers tx_buffers
       rtl_mmio_base rx_desc tx_desc rx_data tx_data status
       set_mem set_hist set_rx_idx set_tx_idx set_rx_desc set_tx_desc
       set_tx_data set_status set_buf_addr_lo set_buf_addr_hi
       log clean_dcache_va_range rtl_write8 fst snd].

Ltac nd_fields_in H :=
  cbn [drv my_mac io on_drv io_emit set_my_mac
       set_rtl_mmio_base
       mem hist rx_idx tx_idx rx_ring tx_ring rx_buffers tx_buffers
       rtl_mmio_base set_mem set_hist log] in H.

Lemma u8_testbit (x i : Z) :
  Z.testbit (u8 x) i = (i <? 8) && Z.testbit x i.
Proof.
  unfold u8. destruct (Z.ltb_spec i 8) as [Hi | Hi]; cbn [andb].
  - destruct (Z.lt_ge_cases i 0) as [Hn | Hn].
    + rewrite !Z.testbit_neg_r by lia. reflexivity.
    + apply Z.mod_pow2_bits_low. lia.
  - apply Z.mod_pow2_bits_high. lia.
Qed.

Lemma io_history_app (t1 t2 : list io_event) :
  io_history (t1 ++ t2) = io_history t1 ++ io_history t2.
Proof.
  induction t1 as [| [e | a v | a v] t1 IH]; cbn [io_history app];
    rewrite ?IH; reflexivity.
Qed.

Lemma same_driver_refl (s : nic) : same_driver s s.
Proof. repeat split. Qed.

Lemma same_driver_trans (s1 s2 s3 : nic) :
  same_driver s1 s2 -> same_driver s2 s3 -> same_driver s1 s3.
Proof.
  unfold same_driver. intros H1 H2.
  decompose [and] H1. decompose [and] H2. repeat split; congruence.
Qed.

(** The rings [init_rings] builds: the pointers, and for each of the four
    slots the buffer pointer and the descriptor; nothing else changes. *)
Lemma init_rings_spec (s : nic) :
  let s' := init_rings s in
  tx_ring s' = 0x50200000 /\ rx_ring s' = 0x50201000 /\
  rtl_mmio_base s' = rtl_mmio_base s /\
  tx_idx s' = tx_idx s /\ rx_idx s' = rx_idx s /\
  hist s' = hist s /\
  tx_data (mem s') = tx_data (mem s) /\
  rx_data (mem s') = rx_data (mem s) /\
  forall i, 0 <= i < 4 ->
    tx_buffers s' i = 0x50300000 + i * TX_BUF_SIZE /\
    rx_buffers s' i = 0x50400000 + i * RX_BUF_SIZE /\
    tx_desc (mem s') i
    = mk_desc (if i =? 3 then DESC_EOR else 0) 0
        (0x50300000 + i * TX_BUF_SIZE) 0 /\
    rx_desc (mem s') i
    = mk_desc (if i =? 3 then Z.lor (Z.lor DESC_OWN RX_BUF_SIZE) DESC_EOR
               else Z.lor DESC_OWN RX_BUF_SIZE) 0
        (0x50400000 + i * RX_BUF_SIZE) 0.
Proof.
  cbn zeta.
  do 8 (split; [vm_compute; reflexivity |]).
  intros i Hi.
  assert (Hc : i = 0 \/ i = 1 \/ i = 2 \/ i = 3) by lia.
  destruct Hc as [-> | [-> | [-> | ->]]];
    vm_compute; repeat split; reflexivity.
Qed.

Section Rtl8125InitProperties.

Variable rtl_hw : list io_event -> Z -> Z.

Lemma extends_trans (d1 d2 d3 : netdev) (t1 t2 : list io_event) :
  extends d1 d2 t1 -> extends d2 d3 t2 -> extends d1 d3 (t1 ++ t2).
Proof.
  intros (S1 & I1 & H1) (S2 & I2 & H2). split; [| split].
  - exact (same_driver_trans _ _ _ S1 S2).
  - rewrite I2, I1, app_assoc. reflexivity.
  - rewrite H2, H1, io_history_app, app_assoc. reflexivity.
Qed.

Lemma read_mac_spec (n : nat) (i : Z) (d : netdev) :
  exists vs : list Z,
    length vs = n /\
    extends d (read_mac rtl_hw n i d)
      (mac_reads (rtl_mmio_base (drv d)) i vs) /\
    (forall j, i <= j < i + Z.of_nat n ->
       my_mac (read_mac rtl_hw n i d) j = nth (Z.to_nat (j - i)) vs 0) /\
    (forall j, j < i \/ i + Z.of_nat n <= j ->
       my_mac (read_mac rtl_hw n i d) j = my_mac d j).
Proof.
  revert i d. induction n as [| n IH]; intros i d.
  - exists []. split; [reflexivity |]. split; [| split].
    + split; [apply same_driver_refl |]. cbn [read_mac mac_reads io_history].
      rewrite !app_nil_r. split; reflexivity.
    + intros j Hj. lia.
    + intros j Hj. reflexivity.
  - cbn [read_mac]. unfold rtl_read8.
    set (a := u64 (rtl_mmio_base (drv d) + (RTL8125_MAC0 + i))).
    set (v := u8 (rtl_hw (io d) a)).
    set (d1 := set_my_mac _ _).
    destruct (IH (i + 1) d1) as (vs & Hlen & (S1 & I1 & H1) & Hin & Hout).
    exists (v :: vs). split; [cbn [length]; lia |]. split; [| split].
    + split; [exact S1 |]. cbn [mac_reads]. fold a. split.
      * rewrite I1. unfold d1. nd_fields. rewrite <- app_assoc. reflexivity.
      * rewrite H1. unfold d1. nd_fields. reflexivity.
    + intros j Hj. destruct (Z.eq_dec j i) as [-> | Hne].
      * rewrite Hout by lia. unfold d1. nd_fields. rewrite upd_same.
        replace (i - i) with 0 by lia. reflexivity.
      * rewrite Hin by lia.
        assert (Hs : Z.to_nat (j - i) = S (Z.to_nat (j - (i + 1))))
          by (clear - Hj Hne; lia).
        rewrite Hs. reflexivity.
    + intros j Hj. rewrite Hout by lia. unfold d1. nd_fields.
      apply upd_other. lia.
Qed.

(** What the reset loop does: some polls that read the reset bit set and
    wait 10 microseconds each, then either one that reads it clear, or [i]
    reaching 1000. *)
Lemma reset_wait_spec (fuel : nat) (i : Z) (d : netdev) :
  i + Z.of_nat fuel = 1000 ->
  let c := u64 (rtl_mmio_base (drv d) + RTL8125_ChipCmd) in
  let r := reset_wait rtl_hw fuel i d in
  my_mac (snd r) = my_mac d /\
  exists polls : list Z,
    Forall (fun v => Z.testbit v 4 = true) polls /\
    ((exists v, Z.testbit v 4 = false /\ (exists t, v = u8 (rtl_hw t c)) /\
        (length polls < fuel)%nat /\ fst r < 1000 /\
        extends d (snd r) (flat_map (reset_poll_retry c) polls
                           ++ [IoRead8 c v]))
     \/ (length polls = fuel /\ fst r = 1000 /\
         extends d (snd r) (flat_map (reset_poll_retry c) polls))).
Proof.
  revert i d. induction fuel as [| fuel IH]; intros i d Hi c r.
  - unfold r. cbn [reset_wait fst snd].
    split; [reflexivity |]. exists []. split; [constructor |]. right.
    split; [reflexivity |]. split; [lia |].
    split; [apply same_driver_refl |]. cbn [flat_map io_history].
    rewrite !app_nil_r. split; reflexivity.
  - unfold r. cbn [reset_wait].
    replace (i <? 1000) with true by (symmetry; apply Z.ltb_lt; lia).
    unfold rtl_read8. fold c.
    set (v := u8 (rtl_hw (io d) c)).
    change CMD_RESET with (2 ^ 4). rewrite land_pow2_eqb by lia.
    destruct (Z.testbit v 4) eqn:Hv; cbn [negb].
    + set (d1 := io_emit _ _).
      specialize (IH (i + 1) d1 ltac:(lia)). cbn zeta in IH.
      destruct IH as (Hmac & polls & Hpolls & Hcase).
      split; [rewrite Hmac; reflexivity |].
      assert (Hstep : extends d d1 (reset_poll_retry c v)).
      { unfold d1, extends, same_driver, reset_poll_retry. nd_fields.
        cbn [io_history]. rewrite <- app_assoc.
        repeat split; reflexivity. }
      exists (v :: polls). split; [constructor; assumption |].
      change (rtl_mmio_base (drv d1)) with (rtl_mmio_base (drv d)) in Hcase.
      fold c in Hcase. cbn [flat_map]. rewrite <- ?app_assoc.
      destruct Hcase
        as [(v' & Hv' & Hsrc & Hlen & Hlt & Hext) | (Hlen & Heq & Hext)].
      * left. exists v'. split; [exact Hv' |]. split; [exact Hsrc |].
        split; [cbn [length]; lia |]. split; [exact Hlt |].
        exact (extends_trans _ _ _ _ _ Hstep Hext).
      * right. split; [cbn [length]; lia |]. split; [exact Heq |].
        exact (extends_trans _ _ _ _ _ Hstep Hext).
    + split; [reflexivity |]. exists []. split; [constructor |]. left.
      exists v. split; [exact Hv |].
      split; [exists (io d); reflexivity |].
      split; [cbn [length]; lia |].
      cbn [fst snd]. split; [lia |].
      split; [apply same_driver_refl |]. nd_fields.
      cbn [flat_map app io_history]. rewrite app_nil_r.
      split; reflexivity.
Qed.


Lemma elapsed_us_polls (c : Z) (polls : list Z) :
  elapsed_us (io_history (flat_map (reset_poll_retry c) polls))
  = 10 * Z.of_nat (length polls).
Proof.
  induction polls as [| v polls IH]; [reflexivity |].
  cbn [flat_map reset_poll_retry app io_history elapsed_us length].
  rewrite IH. lia.
Qed.

Lemma elapsed_us_mac_reads (base i : Z) (vs : list Z) :
  elapsed_us (io_history (mac_reads base i vs)) = 0.
Proof.
  revert i. induction vs as [| v vs IH]; intros i; [reflexivity |].
  cbn [mac_reads io_history]. apply IH.
Qed.

(** The part of [rtl8125_init] up to the end of the reset loop. *)
Lemma init_reset_spec (mmio_base : Z) (d : netdev) :
  let base := u64 mmio_base in
  let c := u64 (base + RTL8125_ChipCmd) in
  let d0 := on_drv (fun s => set_rtl_mmio_base s base) d in
  let r := init_reset rtl_hw mmio_base d in
  exists macs polls : list Z,
    length macs = 6%nat /\
    (forall j, 0 <= j < 6 -> my_mac (snd r) j = nth (Z.to_nat j) macs 0) /\
    (forall j, j < 0 \/ 6 <= j -> my_mac (snd r) j = my_mac d j) /\
    Forall (fun v => Z.testbit v 4 = true) polls /\
    let pre := mac_reads base 0 macs
               ++ [IoEv (EvWrite8 c CMD_RESET); IoEv (EvDelay 10000)]
               ++ flat_map (reset_poll_retry c) polls in
    ((exists v, Z.testbit v 4 = false /\ (exists t, v = u8 (rtl_hw t c)) /\
        (length polls < 1000)%nat /\ fst r < 1000 /\
        extends d0 (snd r) (pre ++ [IoRead8 c v]))
     \/ (length polls = 1000%nat /\ fst r = 1000 /\
         extends d0 (snd r) pre)).
Proof.
  intros base c d0 r. unfold r, init_reset. fold base. fold d0.
  change (Z.to_nat ETH_ALEN) with 6%nat.
  destruct (read_mac_spec 6 0 d0) as (macs & Hlen & Hext1 & Hin & Hout).
  set (d1 := read_mac rtl_hw 6 0 d0) in *.
  assert (Hb1 : rtl_mmio_base (drv d1) = base).
  { destruct Hext1 as ((Hb & _) & _). rewrite Hb. reflexivity. }
  set (d2 := mdelay 10 (rtl_write8_io RTL8125_ChipCmd CMD_RESET d1)).
  assert (Hext2 : extends d1 d2
                    [IoEv (EvWrite8 c CMD_RESET); IoEv (EvDelay 10000)]).
  { unfold d2, extends, same_driver. nd_fields. rewrite Hb1. fold c.
    change (u32 (10 * 1000)) with 10000. cbn [io_history].
    rewrite <- !app_assoc. repeat split; reflexivity. }
  assert (Hb2 : rtl_mmio_base (drv d2) = base).
  { destruct Hext2 as ((Hb & _) & _). rewrite Hb. exact Hb1. }
  destruct (reset_wait_spec 1000 0 d2 ltac:(lia))
    as (Hmac & polls & Hpolls & Hcase).
  rewrite Hb2 in Hcase. fold c in Hcase.
  change (rtl_mmio_base (drv d0)) with base in Hext1.
  exists macs, polls. split; [exact Hlen |].
  split; [intros j Hj; rewrite Hmac; unfold d2; nd_fields;
          rewrite Hin by lia; f_equal; lia |].
  split; [intros j Hj; rewrite Hmac; unfold d2; nd_fields;
          rewrite Hout by lia; reflexivity |].
  split; [exact Hpolls |].
  cbn zeta.
  pose proof (extends_trans _ _ _ _ _ Hext1 Hext2) as H12.
  destruct Hcase
    as [(v & Hv & Hsrc & Hl & Hlt & Hext3) | (Hl & Heq & Hext3)].
  - left. exists v. split; [exact Hv |]. split; [exact Hsrc |].
    split; [exact Hl |]. split; [exact Hlt |].
    pose proof (extends_trans _ _ _ _ _ H12 Hext3) as H.
    rewrite <- !app_assoc in H. rewrite <- !app_assoc. exact H.
  - right. split; [exact Hl |]. split; [exact Heq |].
    pose proof (extends_trans _ _ _ _ _ H12 Hext3) as H.
    rewrite <- !app_assoc in H. exact H.
Qed.

Lemma extends_refl (d : netdev) : extends d d [].
Proof.
  split; [apply same_driver_refl |]. cbn [io_history].
  rewrite !app_nil_r. split; reflexivity.
Qed.

Lemma extends_eq (d d' : netdev) (t t' : list io_event) :
  extends d d' t -> t = t' -> extends d d' t'.
Proof. intros H <-. exact H. Qed.

Lemma extends_emit (d0 d : netdev) (t : list io_event) (e : event) :
  extends d0 d t -> extends d0 (io_emit e d) (t ++ [IoEv e]).
Proof.
  intros H. apply (extends_trans _ _ _ _ _ H).
  unfold extends, same_driver. nd_fields. cbn [io_history].
  repeat split; reflexivity.
Qed.

Lemma extends_base (d0 d : netdev) (t : list io_event) :
  extends d0 d t -> rtl_mmio_base (drv d) = rtl_mmio_base (drv d0).
Proof. intros ((H & _) & _). exact H. Qed.

Lemma step_write8 (d0 d : netdev) (t : list io_event) (reg val : Z) :
  extends d0 d t ->
  extends d0 (rtl_write8_io reg val d)
    (t ++ [IoEv (EvWrite8 (u64 (rtl_mmio_base (drv d0) + reg)) val)]).
Proof.
  intros H. unfold rtl_write8_io. rewrite (extends_base _ _ _ H).
  apply extends_emit, H.
Qed.

Lemma step_write32 (d0 d : netdev) (t : list io_event) (reg val : Z) :
  extends d0 d t ->
  extends d0 (rtl_write32 reg val d)
    (t ++ [IoEv (EvWrite32 (u64 (rtl_mmio_base (drv d0) + reg)) val)]).
Proof.
  intros H. unfold rtl_write32. rewrite (extends_base _ _ _ H).
  apply extends_emit, H.
Qed.

Lemma step_write16 (d0 d : netdev) (t : list io_event) (reg val : Z) :
  extends d0 d t ->
  extends d0 (rtl_write16 reg val d)
    (t ++ [IoWrite16 (u64 (rtl_mmio_base (drv d0) + reg)) val]).
Proof.
  intros H. unfold rtl_write16. rewrite (extends_base _ _ _ H).
  apply (extends_trans _ _ _ _ _ H).
  unfold extends, same_driver. nd_fields. cbn [io_history].
  rewrite app_nil_r. repeat split; reflexivity.
Qed.

Lemma step_clean_tx (d0 d : netdev) (t : list io_event) (n : Z) :
  extends d0 d t ->
  extends d0 (io_emit (EvClean (tx_ring (drv d)) n) d)
    (t ++ [IoEv (EvClean (tx_ring (drv d0)) n)]).
Proof.
  intros H. pose proof H as ((B & T & R) & _). rewrite T.
  apply extends_emit, H.
Qed.

Lemma step_clean_rx (d0 d : netdev) (t : list io_event) (n : Z) :
  extends d0 d t ->
  extends d0 (io_emit (EvClean (rx_ring (drv d)) n) d)
    (t ++ [IoEv (EvClean (rx_ring (drv d0)) n)]).
Proof.
  intros H. pose proof H as ((B & T & R & X) & _). rewrite R.
  apply extends_emit, H.
Qed.

(** The part of [rtl8125_init] from the flush of the rings on. *)
Lemma init_program_spec (d : netdev) :
  tx_ring (drv d) = 0x50200000 ->
  rx_ring (drv d) = 0x50201000 ->
  extends d (init_program d) (tl (init_programme (rtl_mmio_base (drv d)))).
Proof.
  intros Ht Hr. unfold init_program. cbv zeta.
  eapply extends_eq.
  - do 2 apply step_write8. apply step_write16. do 6 apply step_write32.
    apply step_clean_rx. apply step_clean_tx. apply extends_refl.
  - rewrite Ht, Hr. reflexivity.
Qed.

(** The part of [rtl8125_init] after the reset loop. *)
Lemma init_tail_spec (d : netdev) :
  let base := rtl_mmio_base (drv d) in
  let d' := init_program
              (on_drv init_rings
                 (rtl_write8_io RTL8125_Cfg9346 CFG9346_UNLOCK d)) in
  io d' = io d ++ init_programme base /\
  hist (drv d') = hist (drv d) ++ io_history (init_programme base) /\
  my_mac d' = my_mac d /\
  (exists s, same_driver (drv d) s /\ same_driver (init_rings s) (drv d')).
Proof.
  intros base d'.
  set (d1 := rtl_write8_io RTL8125_Cfg9346 CFG9346_UNLOCK d) in *.
  assert (H1 : extends d d1
                 [IoEv (EvWrite8 (u64 (base + RTL8125_Cfg9346))
                          CFG9346_UNLOCK)]).
  { apply (step_write8 d d [] RTL8125_Cfg9346 CFG9346_UNLOCK).
    apply extends_refl. }
  destruct (init_rings_spec (drv d1))
    as (T1 & T2 & T3 & _ & _ & T6 & _).
  cbn zeta in T1, T2, T3, T6.
  set (d2 := on_drv init_rings d1) in *.
  assert (H2 : extends d2 d' (tl (init_programme base))).
  { assert (Hb : rtl_mmio_base (drv d2) = base).
    { unfold d2. cbn [on_drv drv]. rewrite T3.
      apply (extends_base _ _ _ H1). }
    rewrite <- Hb. apply init_program_spec; [exact T1 | exact T2]. }
  destruct H1 as (S1 & I1 & L1). destruct H2 as (S2 & I2 & L2).
  split; [| split; [| split]].
  - rewrite I2. unfold d2. cbn [on_drv io]. rewrite I1, <- app_assoc.
    reflexivity.
  - rewrite L2. unfold d2. cbn [on_drv drv]. rewrite T6, L1, <- app_assoc.
    reflexivity.
  - reflexivity.
  - exists (drv d1). split; [exact S1 | exact S2].
Qed.

(** The two ways [rtl8125_init] ends. *)
Lemma rtl8125_init_cases (mmio_base : Z) (d : netdev) :
  let base := u64 mmio_base in
  let c := u64 (base + RTL8125_ChipCmd) in
  let d0 := on_drv (fun s => set_rtl_mmio_base s base) d in
  let r := rtl8125_init rtl_hw mmio_base d in
  exists macs polls : list Z,
    length macs = 6%nat /\
    (forall j, 0 <= j < 6 -> my_mac (snd r) j = nth (Z.to_nat j) macs 0) /\
    (forall j, j < 0 \/ 6 <= j -> my_mac (snd r) j = my_mac d j) /\
    Forall (fun v => Z.testbit v 4 = true) polls /\
    let pre := mac_reads base 0 macs
               ++ [IoEv (EvWrite8 c CMD_RESET); IoEv (EvDelay 10000)]
               ++ flat_map (reset_poll_retry c) polls in
    ((exists v d2,
        Z.testbit v 4 = false /\ (exists t, v = u8 (rtl_hw t c)) /\
        (length polls < 1000)%nat /\
        extends d0 d2 (pre ++ [IoRead8 c v]) /\
        r = (0, init_program
                  (on_drv init_rings
                     (rtl_write8_io RTL8125_Cfg9346 CFG9346_UNLOCK d2))))
     \/ (length polls = 1000%nat /\ fst r = -1 /\
         extends d0 (snd r) pre)).
Proof.
  intros base c d0 r.
  destruct (init_reset_spec mmio_base d)
    as (macs & polls & Hlen & Hin & Hout & Hpolls & Hcase).
  cbn zeta in Hcase. fold base c d0 in Hcase.
  unfold r, rtl8125_init.
  destruct (init_reset rtl_hw mmio_base d) as [i d2]. cbn [fst snd] in *.
  exists macs, polls. split; [exact Hlen |].
  destruct Hcase as [(v & Hv & Hsrc & Hl & Hlt & Hext) | (Hl & Heq & Hext)].
  - replace (i >=? 1000) with false
      by (symmetry; rewrite Z.geb_leb; apply Z.leb_gt; lia).
    cbn [fst snd].
    destruct (init_tail_spec d2) as (_ & _ & Hmac & _). cbn zeta in Hmac.
    split; [intros j Hj; rewrite Hmac; apply Hin; exact Hj |].
    split; [intros j Hj; rewrite Hmac; apply Hout; exact Hj |].
    split; [exact Hpolls |].
    left. exists v, d2. split; [exact Hv |]. split; [exact Hsrc |].
    split; [exact Hl |]. split; [exact Hext | reflexivity].
  - replace (i >=? 1000) with true
      by (symmetry; rewrite Z.geb_leb; apply Z.leb_le; lia).
    cbn [fst snd].
    split; [exact Hin |]. split; [exact Hout |]. split; [exact Hpolls |].
    right. split; [exact Hl |]. split; [reflexivity | exact Hext].
Qed.

(** The driver state a successful [rtl8125_init] leaves: the rings built
    by [init_rings] on a state that differs from the one before the call
    in the register base only. *)
Lemma rtl8125_init_ok_state (mmio_base : Z) (d : netdev) :
  let r := rtl8125_init rtl_hw mmio_base d in
  fst r = 0 ->
  exists s1,
    rtl_mmio_base s1 = u64 mmio_base /\
    tx_idx s1 = tx_idx (drv d) /\ rx_idx s1 = rx_idx (drv d) /\
    mem s1 = mem (drv d) /\
    same_driver (init_rings s1) (drv (snd r)).
Proof.
  intros r Hok.
  destruct (rtl8125_init_cases mmio_base d)
    as (macs & polls & _ & _ & _ & _ & Hcase).
  cbn zeta in Hcase. fold r in Hcase.
  destruct Hcase as [(v & d2 & _ & _ & _ & Hext & Hr) | (_ & Hfail & _)];
    [| rewrite Hfail in Hok; discriminate].
  destruct (init_tail_spec d2) as (_ & _ & _ & s1 & S1 & S2).
  rewrite Hr. cbn [snd].
  destruct Hext as (S0 & _).
  pose proof (same_driver_trans _ _ _ S0 S1) as S01.
  unfold same_driver in S01. cbn [on_drv drv] in S01. nd_fields_in S01.
  exists s1. repeat split; try tauto; apply S2.
Qed.

(** X21. Whatever the controller answers, [rtl8125_init] reads the six
    bytes of the station address into [my_mac], writes the reset command
    and waits 10 ms, then polls the command register: each poll that reads
    the reset bit set is followed by a 10 microsecond delay.  After 1000
    such polls it returns -1 and has done nothing else.  At the first poll
    that reads the bit clear it unlocks the configuration registers,
    flushes both rings, and only then hands their addresses to the
    controller, programs it, enables the transmitter and the receiver,
    locks the configuration registers and returns 0. *)
Theorem rtl8125_init_shape (mmio_base : Z) (d : netdev) :
  let base := u64 mmio_base in
  let c := u64 (base + RTL8125_ChipCmd) in
  let r := rtl8125_init rtl_hw mmio_base d in
  exists (macs polls : list Z) (t : list io_event),
    io (snd r) = io d ++ t /\
    hist (drv (snd r)) = hist (drv d) ++ io_history t /\
    length macs = 6%nat /\
    (forall j, 0 <= j < 6 -> my_mac (snd r) j = nth (Z.to_nat j) macs 0) /\
    Forall (fun v => Z.testbit v 4 = true) polls /\
    let pre := mac_reads base 0 macs
               ++ [IoEv (EvWrite8 c CMD_RESET); IoEv (EvDelay 10000)]
               ++ flat_map (reset_poll_retry c) polls in
    ((exists v, Z.testbit v 4 = false /\ (length polls < 1000)%nat /\
        fst r = 0 /\ t = pre ++ [IoRead8 c v] ++ init_programme base)
     \/ (length polls = 1000%nat /\ fst r = -1 /\ t = pre)).
Proof.
  intros base c r.
  destruct (rtl8125_init_cases mmio_base d)
    as (macs & polls & Hlen & Hin & _ & Hpolls & Hcase).
  cbn zeta in Hcase. fold base c r in Hcase, Hin.
  set (pre := mac_reads base 0 macs
              ++ [IoEv (EvWrite8 c CMD_RESET); IoEv (EvDelay 10000)]
              ++ flat_map (reset_poll_retry c) polls) in *.
  destruct Hcase as [(v & d2 & Hv & _ & Hl & Hext & Hr) | (Hl & Hfail & Hext)].
  - exists macs, polls, (pre ++ [IoRead8 c v] ++ init_programme base).
    destruct (init_tail_spec d2) as (I2 & L2 & _). cbn zeta in I2, L2.
    destruct Hext as (S0 & I1 & L1).
    assert (Hb : rtl_mmio_base (drv d2) = base) by apply S0.
    rewrite Hb in I2, L2. cbn [on_drv drv io] in I1, L1. nd_fields_in L1.
    rewrite Hr. cbn [fst snd].
    split; [rewrite I2, I1, <- !app_assoc; reflexivity |].
    split; [rewrite L2, L1, !io_history_app, <- !app_assoc; reflexivity |].
    split; [exact Hlen |]. split; [rewrite Hr in Hin; exact Hin |].
    split; [exact Hpolls |].
    left. exists v. repeat split; assumption.
  - exists macs, polls, pre.
    destruct Hext as (_ & I1 & L1). cbn [on_drv drv io] in I1, L1.
    nd_fields_in L1.
    split; [exact I1 |]. split; [exact L1 |].
    split; [exact Hlen |]. split; [exact Hin |]. split; [exact Hpolls |].
    right. repeat split; assumption.
Qed.

(** X22. Reset timeout: if the reset bit of the command register never
    reads clear, [rtl8125_init] returns -1 after 20 ms of delay (10 ms and
    1000 polls 10 microseconds apart), with the register base set but the
    rings, the buffer pointers, the indices and the shared memory as they
    were: a driver that was not initialised stays so. *)
Theorem rtl8125_init_reset_timeout (mmio_base : Z) (d : netdev) :
  (forall t,
     Z.testbit (rtl_hw t (u64 (u64 mmio_base + RTL8125_ChipCmd))) 4 = true) ->
  let r := rtl8125_init rtl_hw mmio_base d in
  let s := drv d in
  let s' := drv (snd r) in
  fst r = -1 /\
  rtl_mmio_base s' = u64 mmio_base /\
  tx_ring s' = tx_ring s /\ rx_ring s' = rx_ring s /\
  tx_buffers s' = tx_buffers s /\ rx_buffers s' = rx_buffers s /\
  tx_idx s' = tx_idx s /\ rx_idx s' = rx_idx s /\ mem s' = mem s /\
  elapsed_us (hist s') = elapsed_us (hist s) + 20000.
Proof.
  intros Hstuck r s s'.
  destruct (rtl8125_init_cases mmio_base d)
    as (macs & polls & _ & _ & _ & _ & Hcase).
  cbn zeta in Hcase. fold r in Hcase.
  destruct Hcase as [(v & d2 & Hv & (t & Hsrc) & _) | (Hl & Hfail & Hext)].
  - exfalso. rewrite Hsrc, u8_testbit, Hstuck in Hv. discriminate.
  - destruct Hext as (S0 & _ & L1).
    unfold same_driver in S0. cbn [on_drv drv] in S0, L1.
    nd_fields_in S0. nd_fields_in L1.
    fold s' in S0, L1. fold s in S0, L1.
    split; [exact Hfail |].
    do 8 (split; [tauto |]).
    rewrite L1, elapsed_us_app, !io_history_app, !elapsed_us_app,
      elapsed_us_mac_reads, elapsed_us_polls, Hl.
    cbn [io_history elapsed_us]. lia.
Qed.

(** X23. When [rtl8125_init] returns 0 the driver is initialised: the
    rings are at 0x50200000 and 0x50201000 and, for each of the four
    slots, the buffer pointers are 2048 bytes apart from 0x50300000 and
    0x50400000, the transmit descriptor is owned by the driver and the
    receive descriptor by the controller with a size of 2048, each pointing
    at its buffer, and only the last descriptor of each ring carries the
    end-of-ring mark. *)
Theorem rtl8125_init_rings (mmio_base : Z) (d : netdev) :
  let r := rtl8125_init rtl_hw mmio_base d in
  fst r = 0 ->
  let s' := drv (snd r) in
  rtl_mmio_base s' = u64 mmio_base /\
  tx_ring s' = 0x50200000 /\ rx_ring s' = 0x50201000 /\
  forall i, 0 <= i < 4 ->
    tx_buffers s' i = 0x50300000 + i * TX_BUF_SIZE /\
    rx_buffers s' i = 0x50400000 + i * RX_BUF_SIZE /\
    tx_desc (mem s') i
    = mk_desc (if i =? 3 then DESC_EOR else 0) 0
        (0x50300000 + i * TX_BUF_SIZE) 0 /\
    rx_desc (mem s') i
    = mk_desc (if i =? 3 then Z.lor (Z.lor DESC_OWN RX_BUF_SIZE) DESC_EOR
               else Z.lor DESC_OWN RX_BUF_SIZE) 0
        (0x50400000 + i * RX_BUF_SIZE) 0.
Proof.
  intros r Hok s'.
  destruct (rtl8125_init_ok_state mmio_base d Hok)
    as (s1 & Hb & _ & _ & _ & S).
  fold r in S. fold s' in S.
  destruct S as (B & T & R & TB & RB & _ & _ & M).
  destruct (init_rings_spec s1) as (T1 & T2 & T3 & _ & _ & _ & _ & _ & Hi).
  cbn zeta in T1, T2, T3, Hi.
  rewrite B, T, R, TB, RB, M, T1, T2, T3.
  split; [exact Hb |]. split; [reflexivity |]. split; [reflexivity |].
  exact Hi.
Qed.

(** X24. [rtl8125_init] returns 0 or -1 and, either way, never touches the
    transmit and receive indices nor the contents of the packet buffers:
    an initialisation repeated after some traffic rebuilds the rings but
    leaves [tx_idx] and [rx_idx] where they were.  Bytes of [my_mac]
    beyond the sixth are not written. *)
Theorem rtl8125_init_keeps (mmio_base : Z) (d : netdev) :
  let r := rtl8125_init rtl_hw mmio_base d in
  let s := drv d in
  let s' := drv (snd r) in
  (fst r = 0 \/ fst r = -1) /\
  tx_idx s' = tx_idx s /\ rx_idx s' = rx_idx s /\
  tx_data (mem s') = tx_data (mem s) /\
  rx_data (mem s') = rx_data (mem s) /\
  (forall j, j < 0 \/ 6 <= j -> my_mac (snd r) j = my_mac d j).
Proof.
  intros r s s'.
  destruct (rtl8125_init_cases mmio_base d)
    as (macs & polls & _ & _ & Hout & _ & Hcase).
  cbn zeta in Hcase. fold r in Hcase, Hout.
  destruct Hcase as [(v & d2 & _ & _ & _ & _ & Hr) | (_ & Hfail & Hext)].
  - assert (Hok : fst r = 0) by (rewrite Hr; reflexivity).
    destruct (rtl8125_init_ok_state mmio_base d Hok)
      as (s1 & _ & Ht & Hx & Hm & S).
    fold r in S. fold s' in S.
    destruct S as (_ & _ & _ & _ & _ & TI & RI & M).
    destruct (init_rings_spec s1)
      as (_ & _ & _ & T4 & T5 & _ & T7 & T8 & _).
    cbn zeta in T4, T5, T7, T8.
    split; [left; exact Hok |].
    rewrite TI, RI, M, T4, T5, T7, T8, Ht, Hx, Hm.
    repeat split; try reflexivity. exact Hout.
  - destruct Hext as (S0 & _).
    unfold same_driver in S0. cbn [on_drv drv] in S0. nd_fields_in S0.
    fold s' in S0. fold s in S0.
    destruct S0 as (_ & _ & _ & _ & _ & TI & RI & M).
    split; [right; exact Hfail |].
    rewrite TI, RI, M. repeat split; try reflexivity. exact Hout.
Qed.

End Rtl8125InitProperties.

Section Rtl8125InitThenReceive.

Variable rtl_hw : list io_event -> Z -> Z.
Variable g_cache_line_size : Z.
Variable dma_sync : history -> dma_mem -> dma_mem.

(** X25. Initialise, then receive: after a successful [rtl8125_init] every
    receive slot is armed, so on a driver whose receive index is inside the
    ring, and while the controller delivers nothing into the current slot,
    [rtl8125_recv_packet] is not refused; it polls for the whole timeout
    and returns -1, with the caller's buffer and the receive index as they
    were. *)
Theorem rtl8125_init_then_recv
    (mmio_base : Z) (d : netdev) (buffer : Z -> Z) (len timeout_ms : Z) :
  let r := rtl8125_init rtl_hw mmio_base d in
  fst r = 0 ->
  0 <= rx_idx (drv d) < NUM_RX_DESC ->
  (forall h m,
     rx_desc (dma_sync h m) (rx_idx (drv d)) = rx_desc m (rx_idx (drv d))) ->
  let s' := drv (snd r) in
  let q := rtl8125_recv_packet g_cache_line_size dma_sync buffer len
             timeout_ms s' in
  recv_ret q = -1 /\
  recv_buffer q = buffer /\
  rx_idx (recv_state q) = rx_idx (drv d) /\
  elapsed_us (hist (recv_state q))
  = elapsed_us (hist s') + 10 * u32 (timeout_ms * 100).
Proof.
  intros r Hok Hidx Hkeep s' q. unfold NUM_RX_DESC in Hidx.
  destruct (rtl8125_init_ok_state rtl_hw mmio_base d Hok)
    as (s1 & _ & _ & Hx & _ & S).
  fold r in S. fold s' in S.
  destruct S as (_ & _ & R & _ & RB & _ & RI & M).
  destruct (init_rings_spec s1) as (_ & T2 & _ & _ & T5 & _ & _ & _ & Hi).
  cbn zeta in T2, T5, Hi.
  assert (Hrx : rx_idx s' = rx_idx (drv d)) by (rewrite RI, T5; exact Hx).
  destruct (Hi (rx_idx (drv d)) Hidx) as (_ & Hbuf & _ & Hdesc).
  assert (Hring : rx_ring s' <> 0) by (rewrite R, T2; discriminate).
  assert (Hbuf' : rx_buffers s' (rx_idx s') <> 0).
  { rewrite Hrx, RB, Hbuf. unfold RX_BUF_SIZE. lia. }
  assert (Hown : Z.land (status (rx_desc (mem s') (rx_idx s'))) DESC_OWN
                 <> 0).
  { rewrite Hrx, M, Hdesc. cbn [status].
    destruct (rx_idx (drv d) =? 3); vm_compute; discriminate. }
  assert (Hkeep' : forall h m,
             rx_desc (dma_sync h m) (rx_idx s') = rx_desc m (rx_idx s'))
    by (rewrite Hrx; exact Hkeep).
  pose proof (rx_poll_rx_idx g_cache_line_size dma_sync timeout_ms s')
    as Hpi.
  assert (Hpoll :
    let s2 := rx_poll g_cache_line_size dma_sync timeout_ms s' in
    rx_desc (mem s2) (rx_idx s') = rx_desc (mem s') (rx_idx s') /\
    elapsed_us (hist s2)
    = elapsed_us (hist s') + 10 * u32 (timeout_ms * 100)).
  { cbn zeta. unfold rx_poll. destruct (desc_range _ _ _) as [ds dl].
    destruct (rx_wait_no_packet dma_sync
                (Z.to_nat (u32 (timeout_ms * 100))) ds dl s' Hkeep' Hown)
      as (Hd & Ht).
    split; [exact Hd |]. rewrite Ht, Z2Nat.id; [reflexivity |].
    apply u32_range. }
  cbn zeta in Hpoll. destruct Hpoll as (Hd & Ht).
  assert (Hq : q = (-1, buffer, len,
                    rx_poll g_cache_line_size dma_sync timeout_ms s')).
  { unfold q, rtl8125_recv_packet.
    apply Z.eqb_neq in Hring, Hbuf'. rewrite Hring, Hbuf'. cbn [orb].
    destruct (desc_range _ _ _) as [ds dl].
    rewrite Hpi, Hd. apply Z.eqb_neq in Hown. rewrite Hown. reflexivity. }
  rewrite Hq. unfold recv_ret, recv_buffer, recv_state. cbn [fst snd].
  split; [reflexivity |]. split; [reflexivity |].
  split; [rewrite Hpi; exact Hrx | exact Ht].
Qed.

End Rtl8125InitThenReceive.

Lemma rtl8125_init_reset_timeout_witness :
  let r := rtl8125_init rtl_hw_stuck 0x9c0100000 netdev_boot in
  let s := drv netdev_boot in
  let s' := drv (snd r) in
  fst r = -1 /\
  rtl_mmio_base s' = u64 0x9c0100000 /\
  tx_ring s' = tx_ring s /\ rx_ring s' = rx_ring s /\
  tx_buffers s' = tx_buffers s /\ rx_buffers s' = rx_buffers s /\
  tx_idx s' = tx_idx s /\ rx_idx s' = rx_idx s /\ mem s' = mem s /\
  elapsed_us (hist s') = elapsed_us (hist s) + 20000.
Proof.
  apply (rtl8125_init_reset_timeout rtl_hw_stuck 0x9c0100000 netdev_boot).
  intros t. reflexivity.
Defined.

Lemma rtl8125_init_rings_witness :
  let r := rtl8125_init rtl_hw_ready 0x9c0100000 netdev_boot in
  let s' := drv (snd r) in
  rtl_mmio_base s' = u64 0x9c0100000 /\
  tx_ring s' = 0x50200000 /\ rx_ring s' = 0x50201000 /\
  forall i, 0 <= i < 4 ->
    tx_buffers s' i = 0x50300000 + i * TX_BUF_SIZE /\
    rx_buffers s' i = 0x50400000 + i * RX_BUF_SIZE /\
    tx_desc (mem s') i
    = mk_desc (if i =? 3 then DESC_EOR else 0) 0
        (0x50300000 + i * TX_BUF_SIZE) 0 /\
    rx_desc (mem s') i
    = mk_desc (if i =? 3 then Z.lor (Z.lor DESC_OWN RX_BUF_SIZE) DESC_EOR
               else Z.lor DESC_OWN RX_BUF_SIZE) 0
        (0x50400000 + i * RX_BUF_SIZE) 0.
Proof.
  apply (rtl8125_init_rings rtl_hw_ready 0x9c0100000 netdev_boot).
  vm_compute. reflexivity.
Defined.

Lemma rtl8125_init_then_recv_witness :
  let r := rtl8125_init rtl_hw_ready 0x9c0100000 netdev_boot in
  let s' := drv (snd r) in
  let q := rtl8125_recv_packet line64 dma_idle payload 7 1 s' in
  recv_ret q = -1 /\
  recv_buffer q = payload /\
  rx_idx (recv_state q) = rx_idx (drv netdev_boot) /\
  elapsed_us (hist (recv_state q))
  = elapsed_us (hist s') + 10 * u32 (1 * 100).
Proof.
  apply (rtl8125_init_then_recv rtl_hw_ready line64 dma_idle 0x9c0100000
           netdev_boot payload 7 1).
  - vm_compute. reflexivity.
  - vm_compute. split; [discriminate | reflexivity].
  - intros h m. reflexivity.
Defined.

(** The state the successful initialisation of [netdev_boot] leaves agrees
    with [nic_init] on the rings, the four slots and the indices. *)
Example rtl8125_init_gives_nic_init :
  let s' := drv (snd (rtl8125_init rtl_hw_ready 0x9c0100000 netdev_boot)) in
  rtl_mmio_base s' = rtl_mmio_base nic_init /\
  tx_ring s' = tx_ring nic_init /\ rx_ring s' = rx_ring nic_init /\
  tx_idx s' = tx_idx nic_init /\ rx_idx s' = rx_idx nic_init /\
  map (tx_buffers s') [0; 1; 2; 3] = map (tx_buffers nic_init) [0; 1; 2; 3] /\
  map (rx_buffers s') [0; 1; 2; 3] = map (rx_buffers nic_init) [0; 1; 2; 3] /\
  map (tx_desc (mem s')) [0; 1; 2; 3]
  = map (tx_desc (mem nic_init)) [0; 1; 2; 3] /\
  map (rx_desc (mem s')) [0; 1; 2; 3]
  = map (rx_desc (mem nic_init)) [0; 1; 2; 3].
Proof. vm_compute. repeat split; reflexivity. Qed.

(** ** The echo request *)

(** The sum depends on the low 16 bits of the words summed only. *)
Lemma word_sum_ext (w w' : Z -> Z) (i : Z) (n : nat) :
  (forall j, i <= j < i + Z.of_nat n -> u16 (w' j) = u16 (w j)) ->
  word_sum w' i n = word_sum w i n.
Proof.
  revert i. induction n as [| n IH]; intros i H; [reflexivity |].
  cbn [word_sum]. rewrite H by lia. rewrite IH; [reflexivity |].
  intros j Hj. apply H. lia.
Qed.

Lemma ip_checksum_range (word byte : Z -> Z) (len : Z) :
  0 <= ip_checksum word byte len < 65536.
Proof.
  unfold ip_checksum.
  destruct (cksum_words (Z.to_nat len) word 0 len 0) as [[i l] sm].
  apply Z.mod_pos_bound. lia.
Qed.

(** The checksum over data that differs from [word] in the word at [k]
    only, which was 0 and now holds the checksum of [word]. *)
Lemma ip_checksum_patch (word word' byte byte' : Z -> Z) (len k : Z) :
  0 <= len <= 131072 ->
  0 <= k ->
  2 * k + 1 < len ->
  (forall i, 0 <= i < len / 2 -> i <> k -> u16 (word' i) = u16 (word i)) ->
  (len mod 2 = 1 -> u8 (byte' (len - 1)) = u8 (byte (len - 1))) ->
  u16 (word k) = 0 ->
  u16 (word' k) = ip_checksum word byte len ->
  ip_checksum word' byte' len = 0.
Proof.
  intros Hlen Hk Hin Hw Hb Hz Hc.
  assert (Hd : 0 <= k < len / 2).
  { split; [exact Hk |].
    destruct (Z.lt_ge_cases k (len / 2)) as [H | H]; [exact H |].
    pose proof (Z.div_mod len 2 ltac:(lia)).
    pose proof (Z.mod_pos_bound len 2 ltac:(lia)). lia. }
  set (c := ip_checksum word byte len) in *.
  pose proof (ip_checksum_range word byte len) as Hcr. fold c in Hcr.
  assert (Hw0 : word_sum (upd word k 0) 0 (Z.to_nat (len / 2))
                = word_sum word 0 (Z.to_nat (len / 2))).
  { apply word_sum_ext. intros j Hj. unfold upd.
    destruct (Z.eqb_spec j k) as [-> | Hne]; [| reflexivity].
    rewrite Hz. reflexivity. }
  assert (Hw1 : word_sum word' 0 (Z.to_nat (len / 2))
                = word_sum (upd word k c) 0 (Z.to_nat (len / 2))).
  { apply word_sum_ext. intros j Hj. unfold upd.
    destruct (Z.eqb_spec j k) as [-> | Hne].
    - rewrite Hc. unfold u16. symmetry. apply Z.mod_small. lia.
    - apply Hw; [| exact Hne]. rewrite Z2Nat.id in Hj; lia. }
  assert (Ht : cksum_total word' byte' len
               = cksum_total word byte len + c).
  { unfold cksum_total. rewrite Hw1, word_sum_upd_in, Hw0.
    - unfold u16 at 1. rewrite (Z.mod_small c) by lia.
      destruct (Z.eqb_spec (len mod 2) 1) as [Ho | He];
        [rewrite (Hb Ho) |]; lia.
    - rewrite Z2Nat.id by lia. lia. }
  rewrite ip_checksum_value by exact Hlen. rewrite Ht.
  assert (Hcv : c = 65535 - cksum_fold 32 (cksum_total word byte len))
    by (apply ip_checksum_value; exact Hlen).
  pose proof (cksum_total_bound word byte len Hlen) as Ht0.
  destruct (cksum_fold_spec 32 _ ltac:(lia) Ht0) as (Hr0 & Hc0 & Hp0).
  set (S0 := cksum_total word byte len) in *.
  set (r0 := cksum_fold 32 S0) in *.
  pose proof (cksum_total_bound word' byte' len Hlen) as Ht1.
  rewrite Ht in Ht1.
  destruct (cksum_fold_spec 32 _ ltac:(lia) Ht1) as (Hr1 & Hc1 & Hp1).
  set (r1 := cksum_fold 32 (S0 + c)) in *.
  assert (Hm : r1 mod 65535 = 0).
  { rewrite Hc1, Hcv.
    rewrite <- Zplus_mod_idemp_l, <- Hc0, Zplus_mod_idemp_l.
    replace (r0 + (65535 - r0)) with (0 + 1 * 65535) by lia.
    rewrite Z.mod_add by lia. reflexivity. }
  assert (Hpos : 0 < r1).
  { apply Hp1. destruct (Z.eq_dec r0 65535) as [He | Hne]; [| lia].
    assert (0 < S0); [| lia].
    destruct (Z.eq_dec S0 0) as [Hs | Hs]; [| lia].
    exfalso. unfold r0 in He. rewrite Hs in He. vm_compute in He.
    discriminate. }
  apply Z.mod_divide in Hm; [| lia]. destruct Hm as [q Hq]. nia.
Qed.

Lemma htons_value (x : Z) :
  htons x = 256 * (u16 x mod 256) + u16 x / 256.
Proof.
  unfold htons. cbn zeta.
  pose proof (Z.mod_pos_bound x (2 ^ 16) ltac:(lia)) as Hx.
  fold (u16 x) in Hx. set (y := u16 x) in *.
  change 0xFF with (Z.ones 8).
  rewrite !Z.land_ones, Z.shiftr_div_pow2, Z.shiftl_mul_pow2 by lia.
  change (2 ^ 8) with 256.
  pose proof (Z.mod_pos_bound y 256 ltac:(lia)) as Hm.
  assert (Hd : 0 <= y / 256 < 256).
  { split; [apply Z.div_pos; lia | apply Z.div_lt_upper_bound; lia]. }
  rewrite (Z.mod_small (y / 256)) by lia.
  assert (Hl : Z.land (y mod 256 * 256) (y / 256) = 0).
  { apply Z.bits_inj'. intros i Hi. rewrite Z.land_spec, Z.bits_0.
    destruct (Z.lt_ge_cases i 8) as [Hlt | Hge].
    - replace (y mod 256 * 256) with (Z.shiftl (y mod 256) 8)
        by (rewrite Z.shiftl_mul_pow2 by lia; reflexivity).
      rewrite Z.shiftl_spec_low by lia. reflexivity.
    - replace (Z.testbit (y / 256) i) with false;
        [apply andb_false_r |].
      symmetry. destruct (Z.eq_dec (y / 256) 0) as [-> | Hnz];
        [apply Z.bits_0 |].
      apply Z.bits_above_log2; [lia |].
      apply Z.lt_le_trans with 8; [| exact Hge].
      apply Z.log2_lt_pow2; lia. }
  rewrite <- Z.lxor_lor, <- Z.add_nocarry_lxor by exact Hl.
  unfold u16. rewrite Z.mod_small by lia. lia.
Qed.

(** The two bytes [store16] writes for [htons x]: the high byte of [x],
    then its low byte. *)
Lemma htons_bytes (x : Z) :
  Z.land (htons x) 0xFF = u16 x / 256 /\
  Z.land (Z.shiftr (htons x) 8) 0xFF = u16 x mod 256.
Proof.
  rewrite htons_value.
  pose proof (Z.mod_pos_bound x (2 ^ 16) ltac:(lia)) as Hx.
  fold (u16 x) in Hx. set (y := u16 x) in *.
  pose proof (Z.mod_pos_bound y 256 ltac:(lia)) as Hm.
  assert (Hd : 0 <= y / 256 < 256).
  { split; [apply Z.div_pos; lia | apply Z.div_lt_upper_bound; lia]. }
  change 0xFF with (Z.ones 8).
  rewrite !Z.land_ones, Z.shiftr_div_pow2 by lia. change (2 ^ 8) with 256.
  split.
  - rewrite Z.add_comm, Z.mul_comm, Z.mod_add by lia.
    apply Z.mod_small. lia.
  - rewrite Z.add_comm, Z.mul_comm, Z.div_add by lia.
    rewrite (Z.div_small (y / 256)) by lia.
    rewrite Z.add_0_l. apply Z.mod_small. lia.
Qed.

(** A 16-bit value stored and loaded again. *)
Lemma load16_store16 (v : Z) :
  0 <= v < 2 ^ 16 ->
  Z.lor (Z.land v 0xFF) (Z.shiftl (Z.land (Z.shiftr v 8) 0xFF) 8) = v.
Proof.
  intros Hv. apply Z.bits_inj'. intros i Hi.
  change 0xFF with (Z.ones 8).
  assert (Hhi : 16 <= i -> Z.testbit v i = false).
  { intros H16. destruct (Z.eq_dec v 0) as [-> | Hnz]; [apply Z.bits_0 |].
    apply Z.bits_above_log2; [lia |].
    apply Z.lt_le_trans with 16; [| exact H16].
    apply Z.log2_lt_pow2; lia. }
  rewrite Z.lor_spec, Z.land_spec.
  destruct (Z.lt_ge_cases i 8) as [Hlt | Hge].
  - rewrite Z.shiftl_spec_low, Z.testbit_ones_nonneg by lia.
    ltb_true i 8. rewrite andb_true_r, orb_false_r. reflexivity.
  - rewrite Z.shiftl_spec, Z.land_spec, Z.shiftr_spec,
      !Z.testbit_ones_nonneg by lia.
    replace (i - 8 + 8) with i by lia.
    ltb_false i 8. rewrite andb_false_r. cbn [orb].
    destruct (Z.lt_ge_cases i 16) as [H16 | H16].
    + ltb_true (i - 8) 8. apply andb_true_r.
    + ltb_false (i - 8) 8. rewrite andb_false_r, Hhi by lia. reflexivity.
Qed.

Lemma store16_spec (b : Z -> Z) (p v j : Z) :
  store16 b p v j =
  if j =? p + 1 then Z.land (Z.shiftr v 8) 0xFF
  else if j =? p then Z.land v 0xFF
  else b j.
Proof. reflexivity. Qed.

Lemma memcpy_at_spec (b : Z -> Z) (off : Z) (src : Z -> Z) (n j : Z) :
  0 <= n ->
  memcpy_at b off src n j =
  if (off <=? j) && (j <? off + n) then src (j - off) else b j.
Proof.
  intros Hn. unfold memcpy_at. rewrite memcpy_local_spec by exact Hn.
  destruct (Z.leb_spec 0 (j - off)), (Z.ltb_spec (j - off) n),
    (Z.leb_spec off j), (Z.ltb_spec j (off + n)); cbn [andb];
    try lia; try reflexivity; f_equal; lia.
Qed.

Lemma fill_payload_spec (n : nat) (i : Z) (b : Z -> Z) (off j : Z) :
  fill_payload n i b off j =
  if (off + i <=? j) && (j <? off + i + Z.of_nat n) then u8 (j - off)
  else b j.
Proof.
  revert i b. induction n as [| n IH]; intros i b.
  - cbn [fill_payload].
    destruct (Z.leb_spec (off + i) j), (Z.ltb_spec j (off + i + Z.of_nat 0));
      cbn [andb]; try reflexivity; lia.
  - cbn [fill_payload]. rewrite IH. unfold upd.
    destruct (Z.leb_spec (off + (i + 1)) j),
      (Z.ltb_spec j (off + (i + 1) + Z.of_nat n)),
      (Z.leb_spec (off + i) j),
      (Z.ltb_spec j (off + i + Z.of_nat (S n))),
      (Z.eqb_spec j (off + i)); cbn [andb]; try lia; try reflexivity.
    f_equal. lia.
Qed.

(** Decide the comparisons of a byte offset against the field offsets. *)
Ltac cmp_lia :=
  repeat match goal with
  | |- context [?a =? ?b] =>
      first [ replace (a =? b) with true by (symmetry; apply Z.eqb_eq; lia)
            | replace (a =? b) with false by (symmetry; apply Z.eqb_neq; lia) ]
  | |- context [?a <=? ?b] =>
      first [ replace (a <=? b) with true by (symmetry; apply Z.leb_le; lia)
            | replace (a <=? b) with false by (symmetry; apply Z.leb_gt; lia) ]
  | |- context [?a <? ?b] =>
      first [ replace (a <? b) with true by (symmetry; apply Z.ltb_lt; lia)
            | replace (a <? b) with false by (symmetry; apply Z.ltb_ge; lia) ]
  end;
  cbn [andb].

(** Read byte [j] of a buffer built by stores, copies and fills. *)
Ltac read_byte :=
  repeat (first [ rewrite store16_spec
                | rewrite fill_payload_spec
                | rewrite memcpy_at_spec by (unfold ETH_ALEN; lia)
                | rewrite memset_local_spec by lia
                | unfold upd at 1 ];
          cmp_lia).

(** Unfold the construction of the frame, offsets computed. *)
Ltac ping_unfold :=
  unfold ping_packet, ETH_ALEN, IPPROTO_ICMP, ICMP_ECHO; cbv zeta;
  cbn [fst snd];
  change (u32 (0 + 14)) with 14;
  change (u32 (14 + 20)) with 34;
  change (u32 (34 + 8)) with 42;
  change (u32 (42 + 32)) with 74.

Section SendPingProperties.

Variable g_cache_line_size : Z.
Variable dma_sync : history -> dma_mem -> dma_mem.

(** X26. [send_ping] hands [rtl8125_send_packet] a frame of 74 bytes, which
    needs no padding, and drops its result.  Whatever the array held
    before, the frame is: the destination and source station addresses and
    EtherType 0x0800; an IPv4 header without options, of total length 60,
    identification 0x1234, time to live 64, protocol ICMP, with the two
    addresses given; an echo request with identifier 0x5678 and the
    sequence number in network byte order; and the payload bytes 0 to
    31. *)
Theorem send_ping_frame
    (junk my_mac src_ip dst_ip : Z -> Z) (seq : Z) (s : nic) :
  let p := fst (ping_packet junk my_mac src_ip dst_ip seq) in
  send_ping g_cache_line_size dma_sync junk my_mac src_ip dst_ip seq s
  = snd (rtl8125_send_packet g_cache_line_size dma_sync p 74 s) /\
  (forall j, 0 <= j < 6 -> p j = remote_mac j /\ p (6 + j) = my_mac j) /\
  p 12 = 0x08 /\ p 13 = 0x00 /\
  p 14 = 0x45 /\ p 15 = 0 /\ p 16 = 0 /\ p 17 = 60 /\
  p 18 = 0x12 /\ p 19 = 0x34 /\ p 20 = 0 /\ p 21 = 0 /\
  p 22 = 64 /\ p 23 = 1 /\
  (forall j, 0 <= j < 4 -> p (26 + j) = src_ip j /\ p (30 + j) = dst_ip j) /\
  p 34 = 8 /\ p 35 = 0 /\ p 38 = 0x56 /\ p 39 = 0x78 /\
  p 40 = u16 seq / 256 /\ p 41 = u16 seq mod 256 /\
  (forall j, 0 <= j < 32 -> p (42 + j) = j).
Proof.
  intros p.
  destruct (htons_bytes (u16 seq)) as (Hlo & Hhi).
  assert (Hs : u16 (u16 seq) = u16 seq)
    by (unfold u16; apply Z.mod_mod; lia).
  rewrite Hs in Hlo, Hhi.
  split; [reflexivity |].
  unfold p. ping_unfold.
  split.
  { intros j Hj. split; read_byte; f_equal; lia. }
  do 12 (split; [read_byte; reflexivity |]).
  split.
  { intros j Hj. split; read_byte; f_equal; lia. }
  do 4 (split; [read_byte; reflexivity |]).
  split; [read_byte; exact Hlo |].
  split; [read_byte; exact Hhi |].
  intros j Hj. read_byte.
  replace (42 + j - 42) with j by lia.
  unfold u8. apply Z.mod_small. lia.
Qed.

(** X27. Both checksums of the frame [send_ping] builds verify: the
    checksum over the 20 bytes of the IP header and the checksum over the
    40 bytes of the ICMP message, each with its checksum field as stored,
    are 0, for every address, sequence number and station address. *)
Theorem send_ping_checksums
    (junk my_mac src_ip dst_ip : Z -> Z) (seq : Z) :
  let p := fst (ping_packet junk my_mac src_ip dst_ip seq) in
  ip_checksum_at p 14 20 = 0 /\ ip_checksum_at p 34 40 = 0.
Proof.
  intros p. unfold p. ping_unfold.
  match goal with
  | |- context [store16 ?b (14 + 10) (ip_checksum_at ?b 14 20)] =>
      set (P0 := b)
  end.
  set (c := ip_checksum_at P0 14 20).
  match goal with
  | |- context [store16 ?b (34 + 2) (ip_checksum_at ?b 34 (8 + 32))] =>
      set (Q0 := b)
  end.
  set (c' := ip_checksum_at Q0 34 (8 + 32)).
  assert (Hcdef : c = ip_checksum (fun i => load16 P0 (14 + 2 * i))
                        (fun j => P0 (14 + j)) 20) by reflexivity.
  assert (Hcdef' : c' = ip_checksum (fun i => load16 Q0 (34 + 2 * i))
                          (fun j => Q0 (34 + j)) 40) by reflexivity.
  assert (Hc : 0 <= c < 2 ^ 16) by apply ip_checksum_range.
  assert (Hc' : 0 <= c' < 2 ^ 16) by apply ip_checksum_range.
  assert (HQ : forall j, j < 34 -> Q0 j = store16 P0 24 c j).
  { intros j Hj. unfold Q0. read_byte. reflexivity. }
  assert (HP24 : P0 24 = 0 /\ P0 25 = 0).
  { unfold P0. split; read_byte; reflexivity. }
  assert (HQ36 : Q0 36 = 0 /\ Q0 37 = 0).
  { unfold Q0. split; read_byte; reflexivity. }
  destruct HP24 as (HP24 & HP25). destruct HQ36 as (HQ36 & HQ37).
  split.
  - unfold ip_checksum_at at 1.
    apply (ip_checksum_patch (fun i => load16 P0 (14 + 2 * i)) _
             (fun j => P0 (14 + j)) _ 20 5); try (clear; lia).
    + intros i Hi Hne. change (20 / 2) with 10 in Hi.
      unfold load16. rewrite !store16_spec, !HQ by lia.
      rewrite !store16_spec. cmp_lia. reflexivity.
    + intros Hodd. discriminate Hodd.
    + unfold load16. change (14 + 2 * 5) with 24.
      change (24 + 1) with 25. rewrite HP24, HP25. reflexivity.
    + rewrite <- Hcdef.
      unfold load16. rewrite !store16_spec, !HQ by lia.
      rewrite !store16_spec. cmp_lia.
      rewrite load16_store16 by exact Hc.
      unfold u16. apply Z.mod_small. exact Hc.
  - unfold ip_checksum_at at 1.
    apply (ip_checksum_patch (fun i => load16 Q0 (34 + 2 * i)) _
             (fun j => Q0 (34 + j)) _ 40 1); try (clear; lia).
    + intros i Hi Hne. change (40 / 2) with 20 in Hi.
      unfold load16. rewrite !store16_spec. cmp_lia. reflexivity.
    + intros Hodd. discriminate Hodd.
    + unfold load16. change (34 + 2 * 1) with 36.
      change (36 + 1) with 37. rewrite HQ36, HQ37. reflexivity.
    + rewrite <- Hcdef'.
      unfold load16. rewrite !store16_spec. cmp_lia.
      rewrite load16_store16 by exact Hc'.
      unfold u16. apply Z.mod_small. exact Hc'.
Qed.

End SendPingProperties.

(** The frame of the ping [test_dw_pcie_atu] sends, with the station
    address the driver boots with: 74 bytes, both checksums filled in. *)
Example send_ping_example :
  let '(p, n) := ping_packet (fun _ => 0xEE) my_mac_boot local_ip remote_ip 1 in
  n = 74 /\
  map p (map Z.of_nat (seq 0 44))
  = [ 0x38; 0xf7; 0xcd; 0xc8; 0xd9; 0x32; 0x2e; 0xc3; 0x69; 0x34; 0x7d; 0x31;
      0x08; 0x00;
      0x45; 0x00; 0x00; 0x3c; 0x12; 0x34; 0x00; 0x00; 0x40; 0x01;
      p 24; p 25;
      192; 168; 22; 102; 192; 168; 22; 101;
      0x08; 0x00; p 36; p 37; 0x56; 0x78; 0x00; 0x01; 0; 1 ] /\
  ip_checksum_at p 14 20 = 0 /\ ip_checksum_at p 34 40 = 0.
Proof. vm_compute. repeat split; reflexivity. Qed.
